(** * research-software-ecosystem-utils: the bio.tools reconciler and the
      biocontainers annotation importer

    A shallow embedding of

    - [scripts/runbiotools/gh2biotools2.py] (module [V2] below),
    - [scripts/runbiotools/gh2biotools3.py] (module [V3] below),
    - [scripts/biocontainers-annotations-import/biocontainers-importer.py]
      (module [Importer] below),

    as programs of a small state-and-exception monad: every Python function
    runs in a frame of local variables and acts on a world made of the trace
    of its effects (HTTP requests, logging calls, system calls), the
    module-level [HEADERS] dictionary and the file system.  What the
    network, the local JSON files and the operating system answer is taken
    from an environment the definitions are parametrised over.
    [scripts/runbiotools/gh2biotools.py], the ancestor of the two
    reconcilers, is embedded as well (module [V1] below).

    The definitions come first; the statements about them follow, each
    claim of the specification under its number (C1, C2, ...), and after
    them further properties of the code (X1, X2, ...). *)

From Stdlib Require Import ZArith String Ascii List Bool Lia.
From stdpp Require Import base gmap strings.
Import ListNotations.

Set Warnings "-register-all".

Local Open Scope string_scope.
Local Open Scope Z_scope.
Local Open Scope list_scope.

(* ===================================================================== *)
(** * Python values *)
(* ===================================================================== *)

(** What [json.load], [response.json()] and [yaml.safe_load] return: a tree
    of dictionaries (insertion-ordered, string keys), lists and atoms.
    Numbers are the integers; floating point numbers are outside the
    model. *)
Inductive json : Type :=
| JNull
| JBool (b : bool)
| JNum (n : Z)
| JStr (s : string)
| JList (l : list json)
| JObj (m : list (string * json)).

(** [d.get(k)] on the items of a dictionary. *)
Fixpoint assoc (k : string) (m : list (string * json)) : option json :=
  match m with
  | [] => None
  | (k', v) :: m' => if String.eqb k k' then Some v else assoc k m'
  end.

(** Python's [==] on these values.  Lists compare element by element;
    dictionaries have the same number of items and every key of the left one
    is a key of the right one with an equal value; [True == 1] and
    [False == 0] hold because [bool] is a subclass of [int]. *)
Fixpoint py_eq (a b : json) {struct a} : bool :=
  match a, b with
  | JNull, JNull => true
  | JBool x, JBool y => Bool.eqb x y
  | JBool x, JNum n => Z.eqb (if x then 1 else 0) n
  | JNum n, JBool y => Z.eqb n (if y then 1 else 0)
  | JNum n, JNum n' => Z.eqb n n'
  | JStr s, JStr s' => String.eqb s s'
  | JList l, JList l' =>
      (fix list_eq (l l' : list json) {struct l} : bool :=
         match l, l' with
         | [], [] => true
         | x :: r, y :: r' => py_eq x y && list_eq r r'
         | _, _ => false
         end) l l'
  | JObj m, JObj m' =>
      Nat.eqb (List.length m) (List.length m') &&
      (fix items_eq (m : list (string * json)) {struct m} : bool :=
         match m with
         | [] => true
         | (k, v) :: r =>
             match assoc k m' with
             | Some v' => py_eq v v'
             | None => false
             end && items_eq r
         end) m
  | _, _ => false
  end.

(** Truth value of an object, as [if x:] and [not x] test it. *)
Definition truthy (v : json) : bool :=
  match v with
  | JNull => false
  | JBool b => b
  | JNum n => negb (Z.eqb n 0)
  | JStr s => negb (String.eqb s "")
  | JList l => match l with [] => false | _ => true end
  | JObj m => match m with [] => false | _ => true end
  end.

(** The tree that [remap(root, lambda p, k, v: k != 'term')] builds: every
    dictionary item whose key is ['term'] is dropped, at every depth; list
    items have integer keys and are all kept. *)
Fixpoint strip_term (v : json) : json :=
  match v with
  | JList l => JList (List.map strip_term l)
  | JObj m =>
      JObj ((fix items (m : list (string * json)) : list (string * json) :=
               match m with
               | [] => []
               | (k, x) :: r =>
                   if String.eqb k "term" then items r
                   else (k, strip_term x) :: items r
               end) m)
  | _ => v
  end.

(** The items that [strip_term] leaves of a dictionary. *)
Fixpoint strip_items (m : list (string * json)) : list (string * json) :=
  match m with
  | [] => []
  | (k, x) :: r =>
      if String.eqb k "term" then strip_items r
      else (k, strip_term x) :: strip_items r
  end.

(** A record with a usable identifier: a dictionary whose ['biotoolsID'] is
    present and true as a condition. *)
Definition has_id (m : list (string * json)) : bool :=
  match assoc "biotoolsID" m with
  | Some v => truthy v
  | None => false
  end.

Definition is_container (v : json) : bool :=
  match v with
  | JList _ | JObj _ => true
  | _ => false
  end.

(* ===================================================================== *)
(** * Strings *)
(* ===================================================================== *)

Definition NL : string := String (ascii_of_nat 10) "".

Fixpoint contains (c : ascii) (s : string) : bool :=
  match s with
  | EmptyString => false
  | String a r => Ascii.eqb a c || contains c r
  end.

(** [s[s.rfind(c)+1:]] *)
Fixpoint after_last (c : ascii) (s : string) : string :=
  match s with
  | EmptyString => EmptyString
  | String a r =>
      if contains c r then after_last c r
      else if Ascii.eqb a c then r else s
  end.

(** [s[:s.rfind(c)+1]] *)
Fixpoint upto_last (c : ascii) (s : string) : string :=
  match s with
  | EmptyString => EmptyString
  | String a r =>
      if contains c r then String a (upto_last c r)
      else if Ascii.eqb a c then String a EmptyString else EmptyString
  end.

(** [s.split(c)[0]] *)
Fixpoint before_first (c : ascii) (s : string) : string :=
  match s with
  | EmptyString => EmptyString
  | String a r => if Ascii.eqb a c then EmptyString else String a (before_first c r)
  end.

(** [s.rstrip(c)] *)
Fixpoint rstrip_char (c : ascii) (s : string) : string :=
  match s with
  | EmptyString => EmptyString
  | String a r =>
      match rstrip_char c r with
      | EmptyString => if Ascii.eqb a c then EmptyString else String a EmptyString
      | r' => String a r'
      end
  end.

Fixpoint all_char (c : ascii) (s : string) : bool :=
  match s with
  | EmptyString => true
  | String a r => Ascii.eqb a c && all_char c r
  end.

(** [os.path.basename] *)
Definition basename (p : string) : string := after_last "/" p.

(** [os.path.dirname]: the head up to the last slash, without its trailing
    slashes unless it is made of slashes only. *)
Definition dirname (p : string) : string :=
  let head := upto_last "/" p in
  if negb (String.eqb head "") && negb (all_char "/" head)
  then rstrip_char "/" head
  else head.

(** A Python [str] is a sequence of code points.  The model holds a text
    as its UTF-8 encoding and cuts it into its characters wherever Python
    counts or classifies them. *)

(** The number of bytes of the character whose first byte is [a]. *)
Definition utf8_length (a : ascii) : nat :=
  let n := nat_of_ascii a in
  if (n <? 192)%nat then 1%nat
  else if (n <? 224)%nat then 2%nat
  else if (n <? 240)%nat then 3%nat
  else 4%nat.

(** The first [n] bytes and the rest. *)
Fixpoint split_at (n : nat) (s : string) : string * string :=
  match n, s with
  | O, _ => (EmptyString, s)
  | S _, EmptyString => (EmptyString, EmptyString)
  | S n', String a r =>
      let (x, y) := split_at n' r in (String a x, y)
  end.

Fixpoint characters_from (fuel : nat) (s : string) : list string :=
  match fuel, s with
  | S fuel', String a r =>
      let (c, rest) := split_at (utf8_length a - 1) r in
      String a c :: characters_from fuel' rest
  | _, _ => []
  end.

(** [list(s)]: the characters of a text, in order. *)
Definition characters (s : string) : list string :=
  characters_from (String.length s) s.

(** [''.join(cs)] *)
Fixpoint join_characters (cs : list string) : string :=
  match cs with
  | [] => EmptyString
  | c :: cs' => (c ++ join_characters cs')%string
  end.

(** [ord(c)] for a character [c]; a byte that is no character of its own
    counts as U+FFFD. *)
Definition code_point (c : string) : N :=
  match c with
  | String a EmptyString =>
      if (N_of_ascii a <? 128)%N then N_of_ascii a else 65533%N
  | String a (String b EmptyString) =>
      ((N_of_ascii a - 192) * 64 + (N_of_ascii b - 128))%N
  | String a (String b (String c EmptyString)) =>
      ((N_of_ascii a - 224) * 4096 + (N_of_ascii b - 128) * 64
       + (N_of_ascii c - 128))%N
  | String a (String b (String c (String d EmptyString))) =>
      ((N_of_ascii a - 240) * 262144 + (N_of_ascii b - 128) * 4096
       + (N_of_ascii c - 128) * 64 + (N_of_ascii d - 128))%N
  | _ => 65533%N
  end.

(** [c.isspace()]: the white space of Unicode, which is what [str.strip()]
    takes away. *)
Definition is_space (c : string) : bool :=
  let n := code_point c in
  ((9 <=? n) && (n <=? 13) || (28 <=? n) && (n <=? 32)
   || (n =? 133) || (n =? 160) || (n =? 5760)
   || (8192 <=? n) && (n <=? 8202)
   || (n =? 8232) || (n =? 8233) || (n =? 8239) || (n =? 8287)
   || (n =? 12288))%N.

Fixpoint lstrip (cs : list string) : list string :=
  match cs with
  | [] => []
  | c :: cs' => if is_space c then lstrip cs' else cs
  end.

Definition rstrip (cs : list string) : list string :=
  List.rev (lstrip (List.rev cs)).

(** [s.strip()] *)
Definition strip (s : string) : string :=
  join_characters (rstrip (lstrip (characters s))).

(** [s.replace(a, b)] for two ASCII characters: in UTF-8 their bytes are
    part of no other character. *)
Fixpoint replace_char (a b : ascii) (s : string) : string :=
  match s with
  | EmptyString => EmptyString
  | String c r => String (if Ascii.eqb c a then b else c) (replace_char a b r)
  end.

(** [s[:n]]: the first [n] characters. *)
Definition take_string (n : nat) (s : string) : string :=
  join_characters (List.firstn n (characters s)).

(** The directories [os.makedirs(name)] makes sure of, outermost first: it
    splits [name] into head and tail (once more when the tail is empty) and
    first turns to the head when both are not empty. *)
Fixpoint makedirs_paths (fuel : nat) (name : string) : list string :=
  match fuel with
  | O => [name]
  | S fuel' =>
      let head := dirname name in
      let tail := basename name in
      let head' := if String.eqb tail "" then dirname head else head in
      let tail' := if String.eqb tail "" then basename head else tail in
      (if negb (String.eqb head' "") && negb (String.eqb tail' "")
       then makedirs_paths fuel' head'
       else []) ++ [name]
  end.

(* ===================================================================== *)
(** * Requests, responses, exceptions *)
(* ===================================================================== *)

Inductive http_method : Type := GET | POST | PUT | DELETE.

(** The URLs the scripts build.  A URL formatted from a value keeps that
    value: [ToolURL v] is [f'{HOST}/api/tool/{v}/']. *)
Inductive url : Type :=
| ToolCollectionURL                 (* TOOL_API_URL = f'{HOST}/api/tool/' *)
| ValidateURL                       (* f'{HOST}/api/tool/validate/' *)
| ToolURL (id : json)               (* f'{HOST}/api/tool/{id}/' *)
| ToolValidateURL (id : json)       (* f'{HOST}/api/tool/{id}/validate/' *)
| RawURL (u : string).              (* a URL given on the command line *)

(** A request as [requests.get/post/put/delete(url, headers=..., data=...)]
    sends it.  All header dictionaries carry the same [Content-Type] and
    [Accept] entries; [req_auth] is their [Authorization] token, if any;
    [req_data] is the value passed through [json.dumps]. *)
Record request : Type := mkRequest {
  req_method : http_method;
  req_url : url;
  req_auth : option string;
  req_data : option json
}.

(** A [requests.Response]: [json_body = None] when [response.json()]
    raises. *)
Record Response : Type := mkResponse {
  status_code : Z;
  text : string;
  json_body : option json
}.

(** [Response.ok]: [raise_for_status()] raises for 400 <= status < 600. *)
Definition ok (r : Response) : bool :=
  negb (Z.leb 400 (status_code r) && Z.ltb (status_code r) 600).

(** Exceptions, by the classes the handlers tell apart.
    [requests.exceptions.HTTPError] is a [RequestException], which is an
    [Exception]; [SystemExit] is not an [Exception]. *)
Inductive exn : Type :=
| HTTPError (msg : string) (resp : Response)
| RequestException (msg : string)
| Exception (cls msg : string)
| SystemExit (code : Z).

Definition is_HTTPError (e : exn) : bool :=
  match e with HTTPError _ _ => true | _ => false end.

Definition is_RequestException (e : exn) : bool :=
  match e with HTTPError _ _ | RequestException _ => true | _ => false end.

Definition is_Exception (e : exn) : bool :=
  match e with SystemExit _ => false | _ => true end.

(** [str(e)]. *)
Definition exn_str (e : exn) : string :=
  match e with
  | HTTPError msg _ => msg
  | RequestException msg => msg
  | Exception _ msg => msg
  | SystemExit _ => ""
  end.

Inductive outcome (A : Type) : Type :=
| Ok (a : A)
| Raise (e : exn).
Arguments Ok {A} a.
Arguments Raise {A} e.

(* ===================================================================== *)
(** * The world *)
(* ===================================================================== *)

Inductive level : Type := DEBUG | INFO | WARNING | ERROR.

(** A formatted string: the text of the f-string with [{}] for each
    interpolated expression, and the values interpolated. *)
Record ftext : Type := Fmt { fmt : string; fargs : list json }.

(** What a file holds: the pieces written to it, in order. *)
Inductive piece : Type :=
| Text (t : ftext)                  (* f.write(t) *)
| YamlDump (v : json).              (* yaml.dump(v, f) *)

Inductive syscall : Type :=
| Makedirs (path : string)          (* os.makedirs(path, exist_ok=True) *)
| OpenW (path : string).            (* open(path, "w") *)

Inductive event : Type :=
| ERequest (r : request)
| ELog (lvl : level) (msg : ftext)
| ESys (c : syscall).

Record world : Type := mkWorld {
  w_trace : list event;                       (* effects so far, oldest first *)
  w_HEADERS : option string;                  (* HEADERS.get('Authorization') *)
  w_files : gmap string (list piece);         (* regular files, by real path *)
  w_dirs : gset string                        (* directories, by real path *)
}.

(** What lies outside the program. *)
Record environ : Type := mkEnviron {
  (* the answer to a request, given everything that happened before *)
  net : list event -> request -> outcome Response;
  (* json.load(open(path)) *)
  load_json : string -> outcome json;
  (* yaml.safe_load(text) *)
  yaml_safe_load : string -> outcome json;
  (* the error, if any, that a system call meets *)
  os_error : list event -> syscall -> option exn;
  (* "; ".join([','.join(el.contents) for el in
     soup.find_all(class_='exception_value')]) for the HTML page given: the
     texts of those elements, or the TypeError of join when one of them has
     an element of its own inside *)
  exception_values : string -> outcome string;
  (* os.getenv('GITHUB_SHA') *)
  GITHUB_SHA_env : option string;
  (* the file or directory that a path names: two paths with the same
     image are the same file (links, '.', '..' and repeated slashes are
     resolved by the file system, not by the program) *)
  realpath : string -> string
}.

Definition requests_of (t : list event) : list request :=
  flat_map (fun e => match e with ERequest r => [r] | _ => [] end) t.

(* ===================================================================== *)
(** * The monad of Python code *)
(* ===================================================================== *)

(** A computation in a frame of local variables [L]: it ends with a value or
    a raised exception, and in both cases leaves the frame and the world as
    they were at that point. *)
Definition M (L A : Type) : Type := L -> world -> outcome A * L * world.

Definition ret {L A} (a : A) : M L A := fun l w => (Ok a, l, w).

Definition bind {L A B} (m : M L A) (k : A -> M L B) : M L B :=
  fun l w =>
    match m l w with
    | (Ok a, l', w') => k a l' w'
    | (Raise e, l', w') => (Raise e, l', w')
    end.

Definition raise {L A} (e : exn) : M L A := fun l w => (Raise e, l, w).

Declare Scope py_scope.
Delimit Scope py_scope with py.
Notation "x <- c1 ;; c2" := (bind c1 (fun x => c2))
  (at level 100, c1 at next level, right associativity) : py_scope.
Notation "c1 ;; c2" := (bind c1 (fun _ => c2))
  (at level 100, right associativity) : py_scope.
Local Open Scope py_scope.

(** [try: body except ...: handlers]: [handlers e] is the clause that
    matches [e], if one does.  An exception raised by a clause is not
    handled by its siblings. *)
Definition try_except {L A} (body : M L A) (handlers : exn -> option (M L A))
  : M L A :=
  fun l w =>
    match body l w with
    | (Ok a, l', w') => (Ok a, l', w')
    | (Raise e, l', w') =>
        match handlers e with
        | Some h => h l' w'
        | None => (Raise e, l', w')
        end
    end.

(** A call [f(...)]: the body runs in a frame of its own, which is dropped
    when it returns or raises; the caller's frame is untouched. *)
Definition call {L L' A} (init : L') (body : M L' A) : M L A :=
  fun l w =>
    match body init w with
    | (r, _, w') => (r, l, w')
    end.

Definition get_frame {L} : M L L := fun l w => (Ok l, l, w).
Definition get_world {L} : M L world := fun l w => (Ok w, l, w).

Definition emit {L} (e : event) : M L unit :=
  fun l w =>
    (Ok tt, l,
     mkWorld (w_trace w ++ [e]) (w_HEADERS w) (w_files w) (w_dirs w)).

Definition of_outcome {L A} (o : outcome A) : M L A :=
  match o with
  | Ok a => ret a
  | Raise e => raise e
  end.

(** [for x in xs: body x]. *)
Fixpoint for_each {L A} (xs : list A) (body : A -> M L unit) : M L unit :=
  match xs with
  | [] => ret tt
  | x :: r => body x ;; for_each r body
  end.

(** [logging.debug/info/warning/error(f'...')]. *)
Definition logging {L} (lvl : level) (f : string) (args : list json) : M L unit :=
  emit (ELog lvl (Fmt f args)).

Section WithEnvironment.

Variable E : environ.

(** [requests.<method>(url, headers=..., data=...)]: the request is sent,
    and the network answers with a response or an exception. *)
Definition send {L} (r : request) : M L Response :=
  fun l w =>
    let w' := mkWorld (w_trace w ++ [ERequest r]) (w_HEADERS w)
                      (w_files w) (w_dirs w) in
    match net E (w_trace w) r with
    | Ok resp => (Ok resp, l, w')
    | Raise e => (Raise e, l, w')
    end.

(** [open(path, "w")]: the file that [path] names is created or
    truncated. *)
Definition open_w {L} (path : string) : M L unit :=
  fun l w =>
    let t := w_trace w ++ [ESys (OpenW path)] in
    match os_error E (w_trace w) (OpenW path) with
    | Some e => (Raise e, l, mkWorld t (w_HEADERS w) (w_files w) (w_dirs w))
    | None =>
        (Ok tt, l,
         mkWorld t (w_HEADERS w) (<[realpath E path := []]> (w_files w))
                 (w_dirs w))
    end.

(** [f.write(...)] on the file opened at [path]. *)
Definition write {L} (path : string) (p : piece) : M L unit :=
  fun l w =>
    (Ok tt, l,
     mkWorld (w_trace w) (w_HEADERS w)
             (<[realpath E path :=
                  default [] (w_files w !! realpath E path) ++ [p]]> (w_files w))
             (w_dirs w)).

(** [os.makedirs(path, exist_ok=True)]: [path] and the directories above
    it exist afterwards. *)
Definition makedirs {L} (path : string) : M L unit :=
  fun l w =>
    let t := w_trace w ++ [ESys (Makedirs path)] in
    match os_error E (w_trace w) (Makedirs path) with
    | Some e => (Raise e, l, mkWorld t (w_HEADERS w) (w_files w) (w_dirs w))
    | None =>
        (Ok tt, l,
         mkWorld t (w_HEADERS w) (w_files w)
                 (list_to_set
                    (List.map (realpath E)
                       (makedirs_paths (String.length path) path))
                    ∪ w_dirs w))
    end.

End WithEnvironment.

(** [response.json()]. *)
Definition response_json {L} (r : Response) : M L json :=
  match json_body r with
  | Some v => ret v
  | None => raise (RequestException "Expecting value")
  end.

(** [remap(root, lambda p, k, v: k != 'term')]: a root that is not a
    container is refused with a [TypeError]. *)
Definition remap {L} (root : json) : M L json :=
  if is_container root then ret (strip_term root)
  else raise (Exception "TypeError" "expected remappable root").

(** [d.get(k)]: [None] for a missing key; only dictionaries have [get]. *)
Definition py_get {L} (d : json) (k : string) : M L json :=
  match d with
  | JObj m => ret (match assoc k m with Some v => v | None => JNull end)
  | _ => raise (Exception "AttributeError" "object has no attribute 'get'")
  end.

(** [d.get(k, default)]. *)
Definition py_get_default {L} (d : json) (k : string) (default : json) : M L json :=
  match d with
  | JObj m => ret (match assoc k m with Some v => v | None => default end)
  | _ => raise (Exception "AttributeError" "object has no attribute 'get'")
  end.

(** [d[k]] for a string [k]. *)
Definition py_getitem {L} (d : json) (k : string) : M L json :=
  match d with
  | JObj m =>
      match assoc k m with
      | Some v => ret v
      | None => raise (Exception "KeyError" k)
      end
  | _ => raise (Exception "TypeError" "indices must be integers")
  end.

(** The exit status of the interpreter when the module's code ends with
    [o]: 0 when it runs to its end, the code of a [SystemExit], 1 for any
    other uncaught exception. *)
Definition exit_code {A} (o : outcome A) : Z :=
  match o with
  | Ok _ => 0
  | Raise (SystemExit c) => c
  | Raise _ => 1
  end.

(** The names a module or a function frame binds. *)
Inductive pyobj : Type :=
| Data (v : json)
| Failures (l : list (json * string))   (* a list of (id, message) tuples *)
| Opaque.                               (* a module, function or parser *)

(** Reading a global name: the module's namespace first; none of the names
    looked up here is a builtin. *)
Definition load_name (x : string) : M (gmap string pyobj) pyobj :=
  fun g w =>
    match g !! x with
    | Some o => (Ok o, g, w)
    | None => (Raise (Exception "NameError" x), g, w)
    end.

Definition store_name (x : string) (o : pyobj) : M (gmap string pyobj) unit :=
  fun g w => (Ok tt, <[x := o]> g, w).

(** [if xs:] for a list. *)
Definition nonempty {A} (xs : list A) : bool :=
  match xs with
  | [] => false
  | _ :: _ => true
  end.

Definition len {A} (l : list A) : json := JNum (Z.of_nat (List.length l)).

(** The parsed command line of the reconciler. *)
Record args : Type := mkArgs {
  token : string;
  files : list string;       (* empty when --files is absent *)
  deleted : list string      (* empty when --deleted is absent or has no value *)
}.

(* ===================================================================== *)
(** * gh2biotools3.py *)
(* ===================================================================== *)

Module V3.

(** The local variables of [run_upload] that outlive one statement: the
    three result lists, and the two names the exception handlers read.
    [None] is a name that is not bound yet. *)
Record locals : Type := mkLocals {
  tools_ok : list json;
  tools_ko : list (json * string);
  tools_unchanged : list json;
  payload_dict : option json;
  response : option Response
}.

Definition new_locals : locals := mkLocals [] [] [] None None.

Definition append_ok (x : json) : M locals unit :=
  fun l w =>
    (Ok tt,
     mkLocals (tools_ok l ++ [x]) (tools_ko l) (tools_unchanged l)
              (payload_dict l) (response l), w).

Definition append_ko (x : json * string) : M locals unit :=
  fun l w =>
    (Ok tt,
     mkLocals (tools_ok l) (tools_ko l ++ [x]) (tools_unchanged l)
              (payload_dict l) (response l), w).

Definition append_unchanged (x : json) : M locals unit :=
  fun l w =>
    (Ok tt,
     mkLocals (tools_ok l) (tools_ko l) (tools_unchanged l ++ [x])
              (payload_dict l) (response l), w).

Definition assign_payload_dict (v : json) : M locals unit :=
  fun l w =>
    (Ok tt,
     mkLocals (tools_ok l) (tools_ko l) (tools_unchanged l)
              (Some v) (response l), w).

Definition assign_response (r : Response) : M locals unit :=
  fun l w =>
    (Ok tt,
     mkLocals (tools_ok l) (tools_ko l) (tools_unchanged l)
              (payload_dict l) (Some r), w).

Definition read_payload_dict : M locals json :=
  fun l w =>
    match payload_dict l with
    | Some v => (Ok v, l, w)
    | None => (Raise (Exception "UnboundLocalError" "payload_dict"), l, w)
    end.

Definition read_response : M locals Response :=
  fun l w =>
    match response l with
    | Some r => (Ok r, l, w)
    | None => (Raise (Exception "UnboundLocalError" "response"), l, w)
    end.

(** [HOST + '/api/tool/' + tool_id + '/']: only a [str] can be
    concatenated to a [str]. *)
Definition concat_tool_url {L} (tool_id : json) : M L url :=
  match tool_id with
  | JStr _ => ret (ToolURL tool_id)
  | _ => raise (Exception "TypeError" "can only concatenate str to str")
  end.

Section Code.

Variable E : environ.

(** [headers = HEADERS.copy(); headers['Authorization'] = f'Token {token}'] *)
Definition copy_headers (token : string) : option string := Some token.

Definition validate_tool (tool : json) (token : string)
  : M unit (bool * string) :=
  r <- send E (mkRequest POST ValidateURL (copy_headers token) (Some tool));;
  if ok r then ret (true, text r)
  else ret (false, text r).

Definition upload_tool (tool : json) (token : string)
  : M unit (bool * string) :=
  try_except
    (response <- send E (mkRequest POST ToolCollectionURL
                                   (copy_headers token) (Some tool));;
     id <- py_getitem tool "biotoolsID";;
     logging INFO "{} added (Status: {})" [id; JNum (status_code response)];;
     ret (true, text response))
    (fun e =>
       match e with
       | HTTPError _ r =>
           Some (id <- py_getitem tool "biotoolsID";;
                 logging ERROR "Error uploading {}: {} {}"
                         [id; JNum (status_code r); JStr (text r)];;
                 ret (false, text r))
       | RequestException msg =>
           Some (id <- py_getitem tool "biotoolsID";;
                 logging ERROR "Error uploading {}: {}" [id; JStr msg];;
                 ret (false, msg))
       | _ => None
       end).

Definition update_tool (tool : json) (token : string)
  : M unit (bool * string) :=
  id <- py_getitem tool "biotoolsID";;
  let tool_url := ToolURL id in
  try_except
    (response <- send E (mkRequest PUT tool_url
                                   (copy_headers token) (Some tool));;
     id <- py_getitem tool "biotoolsID";;
     logging INFO "{} updated (Status: {})" [id; JNum (status_code response)];;
     ret (true, text response))
    (fun e =>
       match e with
       | HTTPError _ r =>
           Some (id <- py_getitem tool "biotoolsID";;
                 logging ERROR "Error updating {}: {} {}"
                         [id; JNum (status_code r); JStr (text r)];;
                 ret (false, text r))
       | RequestException msg =>
           Some (id <- py_getitem tool "biotoolsID";;
                 logging ERROR "Error updating {}: {}" [id; JStr msg];;
                 ret (false, msg))
       | _ => None
       end).

Definition delete_tool (token : string) (biotools_id : string)
  : M unit unit :=
  let tool_url := ToolURL (JStr biotools_id) in
  response <- send E (mkRequest DELETE tool_url (copy_headers token) None);;
  if status_code response =? 204 then
    logging INFO "Successfully deleted tool {}" [JStr biotools_id]
  else if status_code response =? 404 then
    logging WARNING "Tool {} not found on server (maybe already deleted?)"
            [JStr biotools_id]
  else
    logging ERROR "Failed to delete tool {}: {} {}"
            [JStr biotools_id; JNum (status_code response);
             JStr (text response)].

(** [headers = HEADERS; headers.update({'Authorization': ...})]: the
    module's dictionary itself is changed. *)
Definition update_HEADERS {L} (token : string) : M L unit :=
  fun l w =>
    (Ok tt, l, mkWorld (w_trace w) (Some token) (w_files w) (w_dirs w)).

(** One turn of the [for biotools_json_file in files] loop: the [try]
    statement with its two handlers.  A [continue] ends the turn. *)
Definition upload_file (token : string) (biotools_json_file : string)
  : M locals unit :=
  try_except
    (logging DEBUG "uploading {}..." [JStr biotools_json_file];;
     loaded <- of_outcome (load_json E biotools_json_file);;
     assign_payload_dict loaded;;
     stripped <- remap loaded;;
     assign_payload_dict stripped;;
     tool_id <- py_get stripped "biotoolsID";;
     if negb (truthy tool_id) then
       logging ERROR "'biotoolsID' not found in {}" [JStr biotools_json_file];;
       append_ko (JStr "UNKNOWN", "biotoolsID not found")
     else
       tool_url <- concat_tool_url tool_id;;
       headers <- (w <- get_world;; ret (w_HEADERS w));;
       r <- send E (mkRequest GET tool_url headers None);;
       assign_response r;;
       if status_code r =? 200 then
         existing_tool <- response_json r;;
         existing_tool <- remap existing_tool;;
         if py_eq existing_tool stripped then
           logging DEBUG "Tool {} already registered and unchanged" [tool_id];;
           append_unchanged tool_id
         else
           logging INFO
             "Tool {} already registered but changed, attempting update..."
             [tool_id];;
           res <- call tt (update_tool stripped token);;
           let '(success, message) := res in
           if success : bool then append_ok tool_id
           else
             append_ko (tool_id, message);;
             logging ERROR "Update failed for {}: {}" [tool_id; JStr message]
       else if status_code r =? 404 then
         logging INFO "Tool {} not registered, proceeding with upload" [tool_id];;
         res <- call tt (validate_tool stripped token);;
         let '(valid, validation_message) := res in
         if valid : bool then
           res <- call tt (upload_tool stripped token);;
           let '(success, upload_message) := res in
           if success : bool then append_ok tool_id
           else
             append_ko (tool_id, upload_message);;
             logging ERROR "Upload failed for {}: {}"
                     [tool_id; JStr upload_message]
         else
           append_ko (tool_id, validation_message);;
           logging ERROR "Validation failed for {}: {}"
                   [tool_id; JStr validation_message]
       else
         logging ERROR "Error checking tool {}: {} {}"
                 [tool_id; JNum (status_code r); JStr (text r)];;
         append_ko (tool_id, text r))
    (fun e =>
       if is_HTTPError e then
         Some (response <- read_response;;
               messages <- (if status_code response =? 500
                            then of_outcome (exception_values E (text response))
                            else ret (text response));;
               logging ERROR "error while uploading {} (status {}): {}"
                       [JStr biotools_json_file;
                        JNum (status_code response); JStr messages];;
               p <- read_payload_dict;;
               id <- py_getitem p "biotoolsID";;
               append_ko (id, messages))
       else if is_Exception e then
         Some (logging ERROR "Unexpected error with {}: {}"
                       [JStr biotools_json_file; JStr (exn_str e)];;
               p <- read_payload_dict;;
               id <- py_getitem p "biotoolsID";;
               append_ko (id, exn_str e))
       else None).

(** The body of [run_upload], in its frame. *)
Definition run_upload_body (token : string) (files : list string)
  : M locals unit :=
  update_HEADERS token;;
  for_each files (upload_file token);;
  logging INFO "Tools upload finished" [];;
  l <- get_frame;;
  logging INFO "Tools OK: {}" [len (tools_ok l)];;
  logging INFO "Tools KO: {}" [len (tools_ko l)];;
  logging INFO "Tools unchanged: {}" [len (tools_unchanged l)].

(** [run_upload(token, files)]: returns [None]; its lists die with its
    frame. *)
Definition run_upload {L} (token : string) (files : list string) : M L unit :=
  call new_locals (run_upload_body token files).

Definition GITHUB_SHA : string :=
  match GITHUB_SHA_env E with
  | Some s => s
  | None => "unknown"
  end.

Definition write_report (failures : list (json * string)) {L} : M L unit :=
  let report := "upload_failure_report.txt" in
  open_w E report;;
  write E report
    (Text (Fmt ("🚨 The following tools failed to upload, update, or delete:"
                  ++ NL ++ NL) []));;
  for_each failures
    (fun '(tool_id, error_msg) =>
       let short_msg :=
         take_string 300 (replace_char (ascii_of_nat 10) " " (strip error_msg)) in
       write E report
         (Text (Fmt ("- **{}**: {}" ++ NL) [tool_id; JStr short_msg])));;
  write E report (Text (Fmt (NL ++ "---" ++ NL) []));;
  write E report (Text (Fmt ("- 🔁 Git commit: `{}`" ++ NL) [JStr GITHUB_SHA])).

(** The names bound at module level when the [if __name__ == "__main__"]
    block starts; [args] is bound by its first statements. *)
Definition module_globals : gmap string pyobj :=
  list_to_map
    (List.map (fun x => (x, Opaque))
       ["datetime"; "glob"; "json"; "logging"; "argparse"; "os";
        "requests"; "BeautifulSoup"; "remap";
        "HEADERS"; "HOST"; "TOOL_API_URL"; "VALIDATE_API_URL"; "GITHUB_SHA";
        "validate_tool"; "upload_tool"; "update_tool"; "delete_tool";
        "run_upload"; "parser"; "args"]).

(** One turn of the [for deleted_file in args.deleted] loop of the main
    block. *)
Definition delete_file (token : string) (deleted_file : string)
  : M (gmap string pyobj) unit :=
  store_name "deleted_file" (Data (JStr deleted_file));;
  let biotools_id := before_first "." (basename deleted_file) in
  store_name "biotools_id" (Data (JStr biotools_id));;
  logging INFO "Deleting tool {}..." [JStr biotools_id];;
  call tt (delete_tool token biotools_id).

(** The [if __name__ == "__main__"] block, after [parse_args]. *)
Definition main (a : args) : M (gmap string pyobj) unit :=
  (if nonempty (files a)
   then run_upload (token a) (files a)
   else ret tt);;
  (if nonempty (deleted a)
   then for_each (deleted a) (delete_file (token a))
   else ret tt);;
  tools_ko <- load_name "tools_ko";;
  match tools_ko with
  | Failures [] => ret tt
  | Failures l => write_report l
  | _ => raise (Exception "TypeError" "not a list of (id, message) tuples")
  end.

(** Running the script: the block runs in the module's namespace. *)
Definition run_script (a : args) (w : world) : outcome unit * world :=
  match main a module_globals w with
  | (r, _, w') => (r, w')
  end.

End Code.

End V3.

(* ===================================================================== *)
(** * gh2biotools2.py *)
(* ===================================================================== *)

Module V2.

(** The local variables of [run_upload]; here a failure is recorded by
    its id alone. *)
Record locals : Type := mkLocals {
  tools_ok : list json;
  tools_ko : list json;
  tools_unchanged : list json;
  payload_dict : option json;
  response : option Response
}.

Definition new_locals : locals := mkLocals [] [] [] None None.

Definition append_ok (x : json) : M locals unit :=
  fun l w =>
    (Ok tt,
     mkLocals (tools_ok l ++ [x]) (tools_ko l) (tools_unchanged l)
              (payload_dict l) (response l), w).

Definition append_ko (x : json) : M locals unit :=
  fun l w =>
    (Ok tt,
     mkLocals (tools_ok l) (tools_ko l ++ [x]) (tools_unchanged l)
              (payload_dict l) (response l), w).

Definition append_unchanged (x : json) : M locals unit :=
  fun l w =>
    (Ok tt,
     mkLocals (tools_ok l) (tools_ko l) (tools_unchanged l ++ [x])
              (payload_dict l) (response l), w).

Definition assign_payload_dict (v : json) : M locals unit :=
  fun l w =>
    (Ok tt,
     mkLocals (tools_ok l) (tools_ko l) (tools_unchanged l)
              (Some v) (response l), w).

Definition assign_response (r : Response) : M locals unit :=
  fun l w =>
    (Ok tt,
     mkLocals (tools_ok l) (tools_ko l) (tools_unchanged l)
              (payload_dict l) (Some r), w).

Definition read_payload_dict : M locals json :=
  fun l w =>
    match payload_dict l with
    | Some v => (Ok v, l, w)
    | None => (Raise (Exception "UnboundLocalError" "payload_dict"), l, w)
    end.

Definition read_response : M locals Response :=
  fun l w =>
    match response l with
    | Some r => (Ok r, l, w)
    | None => (Raise (Exception "UnboundLocalError" "response"), l, w)
    end.

Section Code.

Variable E : environ.

(** [headers = HEADERS.copy(); headers['Authorization'] = f'Token {token}'] *)
Definition get_headers (token : string) : option string := Some token.

Definition validate_upload_tool (tool : json) (token : string)
  : M unit (bool * string) :=
  response <- send E (mkRequest POST ValidateURL (get_headers token) (Some tool));;
  ret (ok response, text response).

Definition upload_tool (tool : json) (token : string)
  : M unit (bool * string) :=
  try_except
    (response <- send E (mkRequest POST ToolCollectionURL
                                   (get_headers token) (Some tool));;
     id <- py_getitem tool "biotoolsID";;
     logging INFO "{} added (Status: {})" [id; JNum (status_code response)];;
     ret (true, text response))
    (fun e =>
       if is_RequestException e then
         Some (id <- py_getitem tool "biotoolsID";;
               logging ERROR "Error uploading {}: {}" [id; JStr (exn_str e)];;
               ret (false, exn_str e))
       else None).

Definition validate_update_tool (tool : json) (token : string)
  : M unit (bool * string) :=
  id <- py_getitem tool "biotoolsID";;
  let url := ToolValidateURL id in
  response <- send E (mkRequest PUT url (get_headers token) (Some tool));;
  ret (ok response, text response).

Definition update_tool (tool : json) (token : string)
  : M unit (bool * string) :=
  id <- py_getitem tool "biotoolsID";;
  let tool_url := ToolURL id in
  try_except
    (response <- send E (mkRequest PUT tool_url
                                   (get_headers token) (Some tool));;
     id <- py_getitem tool "biotoolsID";;
     logging INFO "{} updated (Status: {})" [id; JNum (status_code response)];;
     ret (true, text response))
    (fun e =>
       if is_RequestException e then
         Some (id <- py_getitem tool "biotoolsID";;
               logging ERROR "Error updating {}: {}" [id; JStr (exn_str e)];;
               ret (false, exn_str e))
       else None).

Definition delete_tool (token : string) (biotools_id : string)
  : M unit unit :=
  let tool_url := ToolURL (JStr biotools_id) in
  response <- send E (mkRequest DELETE tool_url (get_headers token) None);;
  if status_code response =? 204 then
    logging INFO "Successfully deleted tool {}" [JStr biotools_id]
  else if status_code response =? 404 then
    logging WARNING "Tool {} not found on server (maybe already deleted?)"
            [JStr biotools_id]
  else
    logging ERROR "Failed to delete tool {}: {} {}"
            [JStr biotools_id; JNum (status_code response);
             JStr (text response)].

(** One turn of the [for biotools_json_file in files] loop. *)
Definition upload_file (token : string) (biotools_json_file : string)
  : M locals unit :=
  try_except
    (logging DEBUG "Processing {}..." [JStr biotools_json_file];;
     loaded <- of_outcome (load_json E biotools_json_file);;
     assign_payload_dict loaded;;
     stripped <- remap loaded;;
     assign_payload_dict stripped;;
     tool_id <- py_get stripped "biotoolsID";;
     if negb (truthy tool_id) then
       logging ERROR "'biotoolsID' not found in {}" [JStr biotools_json_file];;
       append_ko (JStr "UNKNOWN")
     else
       let tool_url := ToolURL tool_id in
       HEADERS <- (w <- get_world;; ret (w_HEADERS w));;
       r <- send E (mkRequest GET tool_url HEADERS None);;
       assign_response r;;
       if status_code r =? 200 then
         existing_tool <- response_json r;;
         existing_tool <- remap existing_tool;;
         if py_eq existing_tool stripped then
           logging DEBUG "Tool {} already registered and unchanged" [tool_id];;
           append_unchanged tool_id
         else
           logging INFO "Tool {} changed, attempting update..." [tool_id];;
           res <- call tt (validate_update_tool stripped token);;
           let '(valid, msg) := res in
           if valid : bool then
             res <- call tt (update_tool stripped token);;
             let '(success, msg) := res in
             if success : bool then
               append_ok tool_id;;
               logging INFO "Tool {} updated successfully" [tool_id]
             else
               append_ko tool_id;;
               logging ERROR "Update failed for {}: {}" [tool_id; JStr msg]
           else
             append_ko tool_id;;
             logging ERROR "Validation failed for {}: {}" [tool_id; JStr msg]
       else if status_code r =? 404 then
         logging INFO "Tool {} not registered, proceeding with upload" [tool_id];;
         res <- call tt (validate_upload_tool stripped token);;
         let '(valid, msg) := res in
         if valid : bool then
           res <- call tt (upload_tool stripped token);;
           let '(success, msg) := res in
           if success : bool then append_ok tool_id
           else
             append_ko tool_id;;
             logging ERROR "Upload failed for {}: {}" [tool_id; JStr msg]
         else
           append_ko tool_id;;
           logging ERROR "Validation failed for {}: {}" [tool_id; JStr msg]
       else
         logging ERROR "Error checking tool {}: {} {}"
                 [tool_id; JNum (status_code r); JStr (text r)];;
         append_ko tool_id)
    (fun e =>
       if is_HTTPError e then
         Some (response <- read_response;;
               messages <- (if status_code response =? 500
                            then of_outcome (exception_values E (text response))
                            else ret (text response));;
               logging ERROR "HTTP error for {} (status {}): {}"
                       [JStr biotools_json_file;
                        JNum (status_code response); JStr messages];;
               p <- read_payload_dict;;
               id <- py_get_default p "biotoolsID" (JStr "UNKNOWN");;
               append_ko id)
       else if is_Exception e then
         Some (logging ERROR "Unexpected error with {}: {}"
                       [JStr biotools_json_file; JStr (exn_str e)];;
               p <- read_payload_dict;;
               id <- py_get_default p "biotoolsID" (JStr "UNKNOWN");;
               append_ko id)
       else None).

(** The body of [run_upload], in its frame: it ends the process with
    [sys.exit(1)] when the failure list is not empty. *)
Definition run_upload_body (token : string) (files : list string)
  : M locals unit :=
  for_each files (upload_file token);;
  logging INFO "Summary:" [];;
  l <- get_frame;;
  logging INFO "✅ Tools OK: {}: {}" [len (tools_ok l); JList (tools_ok l)];;
  logging INFO "❌ Failed: {}: {}" [len (tools_ko l); JList (tools_ko l)];;
  logging INFO "⚠️ Unchanged: {}: {}"
          [len (tools_unchanged l); JList (tools_unchanged l)];;
  if nonempty (tools_ko l) then raise (SystemExit 1) else ret tt.

Definition run_upload {L} (token : string) (files : list string) : M L unit :=
  call new_locals (run_upload_body token files).

Definition module_globals : gmap string pyobj :=
  list_to_map
    (List.map (fun x => (x, Opaque))
       ["datetime"; "glob"; "json"; "logging"; "argparse"; "os"; "sys";
        "requests"; "BeautifulSoup"; "remap";
        "HOST"; "TOOL_API_URL"; "HEADERS";
        "get_headers"; "validate_upload_tool"; "upload_tool";
        "validate_update_tool"; "update_tool"; "delete_tool";
        "run_upload"; "parser"; "args"]).

(** One turn of the [for deleted_file in args.deleted] loop of the main
    block. *)
Definition delete_file (token : string) (deleted_file : string)
  : M (gmap string pyobj) unit :=
  store_name "deleted_file" (Data (JStr deleted_file));;
  let biotools_id := before_first "." (basename deleted_file) in
  store_name "biotools_id" (Data (JStr biotools_id));;
  logging INFO "Deleting tool {}..." [JStr biotools_id];;
  call tt (delete_tool token biotools_id).

(** The [if __name__ == "__main__"] block, after [parse_args]. *)
Definition main (a : args) : M (gmap string pyobj) unit :=
  (if nonempty (files a)
   then run_upload (token a) (files a)
   else ret tt);;
  (if nonempty (deleted a)
   then for_each (deleted a) (delete_file (token a))
   else ret tt).

Definition run_script (a : args) (w : world) : outcome unit * world :=
  match main a module_globals w with
  | (r, _, w') => (r, w')
  end.

End Code.

End V2.

(* ===================================================================== *)
(** * biocontainers-importer.py *)
(* ===================================================================== *)

Module Importer.

(** [d.items()]: only a dictionary has items. *)
Definition items {L} (d : json) : M L (list (string * json)) :=
  match d with
  | JObj m => ret m
  | _ => raise (Exception "AttributeError" "object has no attribute 'items'")
  end.

(** [f'{content_data_path}/{key}/{key}.biocontainers.yaml'] *)
Definition tool_annotation_yaml (content_data_path key : string) : string :=
  content_data_path ++ "/" ++ key ++ "/" ++ key ++ ".biocontainers.yaml".

Section Code.

Variable E : environ.

(** One turn of the [for key, value in annotations.items()] loop. *)
Definition write_annotation (content_data_path : string) (entry : string * json)
  : M unit unit :=
  let '(key, value) := entry in
  let path := tool_annotation_yaml content_data_path key in
  makedirs E (dirname path);;
  open_w E path;;
  write E path (YamlDump value).

(** The body of the response is read as text ([r.encoding] only decides
    how); the request carries no headers of the script's own. *)
Definition import_biocontainers_annotations (url content_data_path : string)
  : M unit unit :=
  r <- send E (mkRequest GET (RawURL url) None None);;
  annotations <- of_outcome (yaml_safe_load E (text r));;
  entries <- items annotations;;
  for_each entries (write_annotation content_data_path).

End Code.

End Importer.

(* ===================================================================== *)
(** * gh2biotools.py *)
(* ===================================================================== *)

(** [s[:s.rfind(c)]], and [s] itself when [c] does not occur. *)
Fixpoint before_last (c : ascii) (s : string) : string :=
  match s with
  | EmptyString => EmptyString
  | String a r =>
      if contains c r then String a (before_last c r)
      else if Ascii.eqb a c then EmptyString else s
  end.

(** [os.path.splitext(p)[0]] for a [p] without a slash: the part before the
    last dot, unless only dots come before it. *)
Definition splitext_root (p : string) : string :=
  if contains "." p then
    if all_char "." (before_last "." p) then p else before_last "." p
  else p.

(** [response.raise_for_status()] *)
Definition raise_for_status {L} (r : Response) : M L unit :=
  if ok r then ret tt
  else raise (HTTPError "Client or Server Error" r).

Module V1.

Definition HOST : string := "https://bio-tools-dev.sdu.dk".

Definition get_biotools_id_from_path (filepath : string) : string :=
  splitext_root (basename filepath).

(** The local variables of [run_upload]; a failure is recorded by its id. *)
Record locals : Type := mkLocals {
  tools_ok : list json;
  tools_ko : list json;
  tools_unchanged : list json;
  payload_dict : option json;
  response : option Response
}.

Definition new_locals : locals := mkLocals [] [] [] None None.

Definition append_ok (x : json) : M locals unit :=
  fun l w =>
    (Ok tt,
     mkLocals (tools_ok l ++ [x]) (tools_ko l) (tools_unchanged l)
              (payload_dict l) (response l), w).

Definition append_ko (x : json) : M locals unit :=
  fun l w =>
    (Ok tt,
     mkLocals (tools_ok l) (tools_ko l ++ [x]) (tools_unchanged l)
              (payload_dict l) (response l), w).

Definition append_unchanged (x : json) : M locals unit :=
  fun l w =>
    (Ok tt,
     mkLocals (tools_ok l) (tools_ko l) (tools_unchanged l ++ [x])
              (payload_dict l) (response l), w).

Definition assign_payload_dict (v : json) : M locals unit :=
  fun l w =>
    (Ok tt,
     mkLocals (tools_ok l) (tools_ko l) (tools_unchanged l)
              (Some v) (response l), w).

Definition assign_response (r : Response) : M locals unit :=
  fun l w =>
    (Ok tt,
     mkLocals (tools_ok l) (tools_ko l) (tools_unchanged l)
              (payload_dict l) (Some r), w).

Definition read_payload_dict : M locals json :=
  fun l w =>
    match payload_dict l with
    | Some v => (Ok v, l, w)
    | None => (Raise (Exception "UnboundLocalError" "payload_dict"), l, w)
    end.

Definition read_response : M locals Response :=
  fun l w =>
    match response l with
    | Some r => (Ok r, l, w)
    | None => (Raise (Exception "UnboundLocalError" "response"), l, w)
    end.

(** [HOST + '/api/tool/' + tool_id + '/'] *)
Definition concat_tool_url {L} (tool_id : json) : M L url :=
  match tool_id with
  | JStr _ => ret (ToolURL tool_id)
  | _ => raise (Exception "TypeError" "can only concatenate str to str")
  end.

Section Code.

Variable E : environ.

(** [headers = HEADERS; headers.update({'Authorization': ...})] *)
Definition update_HEADERS {L} (token : string) : M L unit :=
  fun l w =>
    (Ok tt, l, mkWorld (w_trace w) (Some token) (w_files w) (w_dirs w)).

(** One turn of the [for biotools_json_file in files] loop.  Every request
    is sent with [headers], the module's dictionary; the second handler is
    a bare [except:], which catches whatever the first does not. *)
Definition upload_file (token : string) (biotools_json_file : string)
  : M locals unit :=
  try_except
    (logging DEBUG "uploading {}..." [JStr biotools_json_file];;
     loaded <- of_outcome (load_json E biotools_json_file);;
     assign_payload_dict loaded;;
     stripped <- remap loaded;;
     assign_payload_dict stripped;;
     tool_id <- py_getitem stripped "biotoolsID";;
     tool_url <- concat_tool_url tool_id;;
     headers <- (w <- get_world;; ret (w_HEADERS w));;
     r <- send E (mkRequest GET tool_url headers None);;
     assign_response r;;
     if status_code r =? 200 then
       existing_tool <- response_json r;;
       existing_tool <- remap existing_tool;;
       if py_eq existing_tool stripped then
         logging DEBUG "Tool {} already registered and unchanged" [tool_id];;
         append_unchanged tool_id
       else
         logging DEBUG "Tool {} already registered but changed" [tool_id];;
         logging DEBUG (HOST ++ "/api/tool/{}/") [tool_id];;
         r <- send E (mkRequest PUT tool_url headers (Some stripped));;
         assign_response r;;
         raise_for_status r;;
         append_ok tool_id;;
         body <- response_json r;;
         logging DEBUG "{}" [body];;
         logging DEBUG "done updating {}" [JStr biotools_json_file]
     else if status_code r =? 404 then
       logging DEBUG "Tool {} not registered, proceeding with upload" [tool_id];;
       r <- send E (mkRequest POST ValidateURL headers (Some stripped));;
       assign_response r;;
       raise_for_status r;;
       id <- py_getitem stripped "biotoolsID";;
       append_ok id;;
       body <- response_json r;;
       logging DEBUG "{}" [body];;
       logging DEBUG "done uploading {}" [JStr biotools_json_file]
     else ret tt)
    (fun e =>
       if is_HTTPError e then
         Some (response <- read_response;;
               messages <- (if status_code response =? 500
                            then of_outcome (exception_values E (text response))
                            else ret (text response));;
               logging ERROR "error while uploading {} (status {}): {}"
                       [JStr biotools_json_file;
                        JNum (status_code response); JStr messages];;
               p <- read_payload_dict;;
               id <- py_getitem p "biotoolsID";;
               append_ko id)
       else
         Some (logging ERROR "error while uploading {}" [JStr biotools_json_file];;
               p <- read_payload_dict;;
               id <- py_getitem p "biotoolsID";;
               append_ko id)).

(** The body of [run_upload], in its frame. *)
Definition run_upload_body (token : string) (files : list string)
  : M locals unit :=
  update_HEADERS token;;
  for_each files (upload_file token);;
  logging ERROR "Tools upload finished" [];;
  l <- get_frame;;
  logging ERROR "Tools OK: {}" [len (tools_ok l)];;
  logging ERROR "Tools KO: {}" [len (tools_ko l)];;
  logging ERROR "Tools unchanged: {}" [len (tools_unchanged l)].

Definition run_upload {L} (token : string) (files : list string) : M L unit :=
  call new_locals (run_upload_body token files).

(** The [if __name__ == "__main__"] block, after [parse_args]: the loop over
    [args.deleted] is commented out. *)
Definition main (a : args) : M (gmap string pyobj) unit :=
  if nonempty (files a)
  then run_upload (token a) (files a)
  else ret tt.

End Code.

End V1.

(* ===================================================================== *)
(** * More about records and reports *)
(* ===================================================================== *)

(** A dictionary of the tree has a key named ['term']. *)
Fixpoint mentions_term (v : json) : bool :=
  match v with
  | JList l => existsb mentions_term l
  | JObj m =>
      (fix items (m : list (string * json)) : bool :=
         match m with
         | [] => false
         | (k, x) :: r => String.eqb k "term" || mentions_term x || items r
         end) m
  | _ => false
  end.

(** The same over the items of a dictionary. *)
Fixpoint items_mention_term (m : list (string * json)) : bool :=
  match m with
  | [] => false
  | (k, x) :: r => String.eqb k "term" || mentions_term x || items_mention_term r
  end.

(** [error_msg.strip().replace('\n', ' ')[:300]] *)
Definition short_msg (error_msg : string) : string :=
  take_string 300 (replace_char (ascii_of_nat 10) " " (strip error_msg)).



(* ===================================================================== *)
(** * The vocabulary of the statements *)
(* ===================================================================== *)

(** What has happened when a turn of the loop of gh2biotools3.py sends its
    existence check, the turn having started in the world [w]. *)
Definition lookup_history3 (w : world) (f : string) : list event :=
  w_trace w ++ [ELog DEBUG (Fmt "uploading {}..." [JStr f])].

(** The same for gh2biotools2.py. *)
Definition lookup_history2 (w : world) (f : string) : list event :=
  w_trace w ++ [ELog DEBUG (Fmt "Processing {}..." [JStr f])].

(** The existence check for the identifier [s]. *)
Definition lookup (w : world) (s : string) : request :=
  mkRequest GET (ToolURL (JStr s)) (w_HEADERS w) None.

(** The normalised local record, sent as the body of every mutating
    request. *)
Definition payload (m : list (string * json)) : json := strip_term (JObj m).

(** gh2biotools3.py: what has happened when the update is sent, and the
    update itself. *)
Definition update_history3 (w : world) (f s : string) : list event :=
  (lookup_history3 w f ++ [ERequest (lookup w s)]) ++
  [ELog INFO (Fmt "Tool {} already registered but changed, attempting update..."
                  [JStr s])].

Definition update_request (token : string) (m : list (string * json)) (s : string)
  : request :=
  mkRequest PUT (ToolURL (JStr s)) (Some token) (Some (payload m)).

(** gh2biotools2.py: what has happened when the dry run of the update is
    sent, the dry run itself, and what has happened when the update is
    sent after it. *)
Definition validate_update_history (w : world) (f s : string) : list event :=
  (lookup_history2 w f ++ [ERequest (lookup w s)]) ++
  [ELog INFO (Fmt "Tool {} changed, attempting update..." [JStr s])].

Definition validate_update_request (token : string) (m : list (string * json))
  (s : string) : request :=
  mkRequest PUT (ToolValidateURL (JStr s)) (Some token) (Some (payload m)).

Definition update_history2 (token : string) (m : list (string * json))
  (w : world) (f s : string) : list event :=
  validate_update_history w f s ++ [ERequest (validate_update_request token m s)].

(** What has happened when the validation of a new tool is sent, the
    validation itself, and the request that creates the tool. *)
Definition validate_history3 (w : world) (f s : string) : list event :=
  (lookup_history3 w f ++ [ERequest (lookup w s)]) ++
  [ELog INFO (Fmt "Tool {} not registered, proceeding with upload" [JStr s])].

Definition validate_history2 (w : world) (f s : string) : list event :=
  (lookup_history2 w f ++ [ERequest (lookup w s)]) ++
  [ELog INFO (Fmt "Tool {} not registered, proceeding with upload" [JStr s])].

Definition validate_request (token : string) (m : list (string * json)) : request :=
  mkRequest POST ValidateURL (Some token) (Some (payload m)).

Definition create_request (token : string) (m : list (string * json)) : request :=
  mkRequest POST ToolCollectionURL (Some token) (Some (payload m)).

(** One entry was appended to exactly one of the three lists. *)
Definition one_entry {A B C}
  (ok ok' : list A) (ko ko' : list B) (un un' : list C) : Prop :=
  (exists x, ok' = ok ++ [x] /\ ko' = ko /\ un' = un) \/
  (exists x, ok' = ok /\ ko' = ko ++ [x] /\ un' = un) \/
  (exists x, ok' = ok /\ ko' = ko /\ un' = un ++ [x]).

(** The request of [delete_tool]. *)
Definition delete_request (token id : string) : request :=
  mkRequest DELETE (ToolURL (JStr id)) (Some token) None.

(** The logging call that [delete_tool] answers a response with. *)
Definition delete_log (id : string) (r : Response) : event :=
  if status_code r =? 204 then
    ELog INFO (Fmt "Successfully deleted tool {}" [JStr id])
  else if status_code r =? 404 then
    ELog WARNING (Fmt "Tool {} not found on server (maybe already deleted?)"
                      [JStr id])
  else
    ELog ERROR (Fmt "Failed to delete tool {}: {} {}"
                    [JStr id; JNum (status_code r); JStr (text r)]).

(** The world after some more events. *)
Definition add_events (w : world) (t : list event) : world :=
  mkWorld (w_trace w ++ t) (w_HEADERS w) (w_files w) (w_dirs w).


(** [os.path.basename(deleted_file).split('.')[0]] *)
Definition deleted_id (deleted_file : string) : string :=
  before_first "." (basename deleted_file).



(* ===================================================================== *)
(** * Scenarios *)
(* ===================================================================== *)

(** A local record, and two states of its remote counterpart: one that
    differs in [term] entries only, one with another name. *)
Definition items_X : list (string * json) :=
  [("biotoolsID", JStr "X");
   ("name", JStr "Tool X");
   ("function",
    JList [JObj [("operation",
                  JList [JObj [("uri", JStr "http://edamontology.org/operation_0004");
                               ("term", JStr "Operation")]])]])].

Definition tool_X : json := JObj items_X.

Definition remote_X_same : json :=
  JObj [("name", JStr "Tool X");
        ("biotoolsID", JStr "X");
        ("function",
         JList [JObj [("operation",
                       JList [JObj [("uri", JStr "http://edamontology.org/operation_0004")]])]])].

Definition remote_X_other : json :=
  JObj [("biotoolsID", JStr "X"); ("name", JStr "Tool X, old name")].

(** The local files of the scenarios. *)
Definition local_files (path : string) : outcome json :=
  if String.eqb path "X.biotools.json" then Ok tool_X
  else if String.eqb path "noid.biotools.json" then Ok (JObj [("name", JStr "no id")])
  else if String.eqb path "bad.biotools.json"
       then Raise (Exception "JSONDecodeError" "Expecting value: line 1 column 1 (char 0)")
  else Raise (Exception "FileNotFoundError" path).

(** A registry that answers by the kind of request alone. *)
Definition by_kind (get validate create validate_update update delete : outcome Response)
  : list event -> request -> outcome Response :=
  fun _ q =>
    match req_method q, req_url q with
    | GET, _ => get
    | POST, ValidateURL => validate
    | POST, _ => create
    | PUT, ToolValidateURL _ => validate_update
    | PUT, _ => update
    | DELETE, _ => delete
    end.

(** The file system of the scenarios has no links, and all its paths are
    relative to one working directory: a path names the file of its normal
    form, as [os.path.normpath] computes it. *)
Fixpoint split_char (c : ascii) (s : string) : list string :=
  match s with
  | EmptyString => [EmptyString]
  | String a r =>
      if Ascii.eqb a c then EmptyString :: split_char c r
      else match split_char c r with
           | x :: xs => String a x :: xs
           | [] => [String a EmptyString]
           end
  end.

Fixpoint join_with (sep : string) (l : list string) : string :=
  match l with
  | [] => EmptyString
  | [x] => x
  | x :: r => (x ++ sep ++ join_with sep r)%string
  end.

Fixpoint leading (c : ascii) (s : string) : nat :=
  match s with
  | EmptyString => O
  | String a r => if Ascii.eqb a c then S (leading c r) else O
  end.

Definition normpath (path : string) : string :=
  if String.eqb path "" then "."
  else
    let initial_slashes :=
      match leading "/" path with
      | O => O
      | 2%nat => 2%nat
      | _ => 1%nat
      end in
    let step (new_comps : list string) (comp : string) : list string :=
      if String.eqb comp "" || String.eqb comp "." then new_comps
      else if negb (String.eqb comp "..")
              || Nat.eqb initial_slashes 0 && negb (nonempty new_comps)
              || match new_comps with
                 | last :: _ => String.eqb last ".."
                 | [] => false
                 end
           then comp :: new_comps
           else List.tl new_comps in
    let comps := List.rev (List.fold_left step (split_char "/" path) []) in
    let p := (String.concat "" (List.repeat "/" initial_slashes)
              ++ join_with "/" comps)%string in
    if String.eqb p "" then "." else p.

Definition scenario (answers : list event -> request -> outcome Response) : environ :=
  mkEnviron answers local_files
            (fun _ => Raise (Exception "YAMLError" "not used"))
            (fun _ _ => None) (fun page => Ok page) None normpath.

(** A response with a status and a text, and the response to the check of a
    registered tool. *)
Definition status (code : Z) (body : string) : outcome Response :=
  Ok (mkResponse code body None).

Definition found (record : json) : outcome Response :=
  Ok (mkResponse 200 "{...}" (Some record)).

(** The tool is registered and unchanged. *)
Definition registry_same : environ :=
  scenario (by_kind (found remote_X_same) (status 200 "") (status 201 "")
                    (status 200 "") (status 200 "") (status 204 "")).

(** The tool is registered with other content; everything is accepted. *)
Definition registry_other : environ :=
  scenario (by_kind (found remote_X_other) (status 200 "") (status 201 "")
                    (status 200 "") (status 200 "") (status 204 "")).

(** The tool is registered with other content; the update is refused, by
    the dry run and by the real request alike. *)
Definition registry_refusing : environ :=
  scenario (by_kind (found remote_X_other)
                    (status 400 "{'name': ['too long']}") (status 400 "")
                    (status 400 "{'name': ['too long']}")
                    (status 400 "{'name': ['too long']}") (status 500 "boom")).

(** The tool is registered with other content; the dry run accepts the
    update and the real request is answered with an error. *)
Definition registry_failing_update : environ :=
  scenario (by_kind (found remote_X_other) (status 200 "") (status 201 "")
                    (status 200 "") (status 400 "{'name': ['too long']}")
                    (status 204 "")).

(** The tool is not registered; its creation is accepted; a DELETE meets a
    server fault. *)
Definition registry_empty : environ :=
  scenario (by_kind (status 404 "") (status 200 "") (status 201 "")
                    (status 200 "") (status 200 "") (status 500 "boom")).

(** The tool is not registered, and its creation does not validate. *)
Definition registry_empty_refusing : environ :=
  scenario (by_kind (status 404 "")
                    (status 400 "{'name': ['too long']}") (status 400 "")
                    (status 400 "") (status 400 "") (status 500 "boom")).

Definition world0 : world := mkWorld [] None ∅ ∅.

(** The importer's scenario: a body with two tools. *)
Definition annotations_AB : json :=
  JObj [("toolA", JObj [("name", JStr "A")]);
        ("toolB", JObj [("name", JStr "B")])].

Definition annotation_source : environ :=
  mkEnviron (fun _ _ => Ok (mkResponse 200 "toolA: {name: A}, toolB: {name: B}" None))
            local_files
            (fun _ => Ok annotations_AB)
            (fun _ _ => None) (fun page => Ok page) None normpath.

(** The PUT requests, and those among them that go to a tool's URL. *)
Definition is_put (q : request) : bool :=
  match req_method q with PUT => true | _ => false end.

Definition is_update_put (q : request) : bool :=
  match req_method q, req_url q with PUT, ToolURL _ => true | _, _ => false end.

(** The methods of the requests of a trace, in order. *)
Definition methods (t : list event) : list http_method :=
  List.map req_method (requests_of t).



(* ===================================================================== *)
(** * More vocabulary *)
(* ===================================================================== *)

(** The requests a turn of the upload loop of gh2biotools2.py and
    gh2biotools3.py can send: the existence check, with the headers of the
    module as they are, and the four requests that carry a record, with the
    token and a body free of 'term' keys. *)
Inductive sent_by_upload (token : string) (headers : option string)
  : request -> Prop :=
| sent_lookup id :
    sent_by_upload token headers (mkRequest GET (ToolURL id) headers None)
| sent_validate d :
    mentions_term d = false ->
    sent_by_upload token headers (mkRequest POST ValidateURL (Some token) (Some d))
| sent_create d :
    mentions_term d = false ->
    sent_by_upload token headers
                   (mkRequest POST ToolCollectionURL (Some token) (Some d))
| sent_validate_update id d :
    mentions_term d = false ->
    sent_by_upload token headers
                   (mkRequest PUT (ToolValidateURL id) (Some token) (Some d))
| sent_update id d :
    mentions_term d = false ->
    sent_by_upload token headers (mkRequest PUT (ToolURL id) (Some token) (Some d)).

(** The requests a turn of the upload loop of gh2biotools.py can send, all
    with the headers of the module: the existence check, the update, and a
    POST to the validation URL. *)
Inductive sent_by_V1 (headers : option string) : request -> Prop :=
| sent1_lookup id :
    sent_by_V1 headers (mkRequest GET (ToolURL id) headers None)
| sent1_update id d :
    mentions_term d = false ->
    sent_by_V1 headers (mkRequest PUT (ToolURL id) headers (Some d))
| sent1_validate d :
    mentions_term d = false ->
    sent_by_V1 headers (mkRequest POST ValidateURL headers (Some d)).

(** A JSON object, as opposed to a list or an atom. *)
Definition is_object (v : json) : bool :=
  match v with
  | JObj _ => true
  | _ => false
  end.

(** The number of files counted in the three lists. *)
Definition counted {A B C} (ok : list A) (ko : list B) (un : list C) : nat :=
  (List.length ok + List.length ko + List.length un)%nat.

(** The registry refuses the existence check. *)
Definition registry_unauthorized : environ :=
  scenario (by_kind (status 401 "Invalid token.") (status 200 "") (status 201 "")
                    (status 200 "") (status 200 "") (status 204 "")).

(** No request gets through to the registry. *)
Definition registry_offline : environ :=
  scenario (fun _ _ => Raise (RequestException "Connection refused")).

(** Every local file holds a JSON list of records instead of one record. *)
Definition files_hold_lists : environ :=
  mkEnviron (by_kind (status 404 "") (status 200 "") (status 201 "")
                     (status 200 "") (status 200 "") (status 204 ""))
            (fun _ => Ok (JList [tool_X]))
            (fun _ => Raise (Exception "YAMLError" "not used"))
            (fun _ _ => None) (fun page => Ok page) None normpath.


(** The tool is not registered and its creation does not validate, with
    another message than in [registry_empty_refusing]. *)
Definition registry_empty_refusing_otherwise : environ :=
  scenario (by_kind (status 404 "")
                    (status 400 "{'homepage': ['missing']}") (status 400 "")
                    (status 400 "") (status 400 "") (status 500 "boom")).


(** The tool is registered with other content; the update meets a server
    fault, whose page has an element inside its element of class
    exception_value. *)
Definition registry_nested_error_page : environ :=
  mkEnviron (by_kind (found remote_X_other) (status 200 "") (status 201 "")
                     (status 200 "")
                     (status 500 "<pre class='exception_value'><b>boom</b></pre>")
                     (status 204 ""))
            local_files
            (fun _ => Raise (Exception "YAMLError" "not used"))
            (fun _ _ => None)
            (fun _ => Raise (Exception "TypeError"
                               "sequence item 0: expected str instance, Tag found"))
            None normpath.

(** A mapping whose two keys name the same file. *)
Definition annotations_same_file : json :=
  JObj [("a", JObj [("name", JStr "A")]);
        ("a/../a", JObj [("name", JStr "B")])].

Definition annotation_source_same_file : environ :=
  mkEnviron (fun _ _ => Ok (mkResponse 200 "a: {name: A}, a/../a: {name: B}" None))
            local_files
            (fun _ => Ok annotations_same_file)
            (fun _ _ => None) (fun page => Ok page) None normpath.

(* ===================================================================== *)
(** * Normalisation and identifiers *)
(* ===================================================================== *)

Lemma strip_term_obj m : strip_term (JObj m) = JObj (strip_items m).
Proof.
  induction m as [|[k x] r IH]; [reflexivity|].
  simpl in *. destruct (String.eqb k "term"); congruence.
Qed.

Lemma assoc_strip_items k m :
  String.eqb k "term" = false ->
  assoc k (strip_items m) = option_map strip_term (assoc k m).
Proof.
  intros Hk. induction m as [|[k' x] r IH]; simpl; [reflexivity|].
  destruct (String.eqb k' "term") eqn:Ht.
  - apply String.eqb_eq in Ht. subst k'. rewrite Hk. exact IH.
  - simpl. destruct (String.eqb k k'); [reflexivity | exact IH].
Qed.

Lemma truthy_strip_false v : truthy v = false -> truthy (strip_term v) = false.
Proof.
  destruct v as [| | | |l|m]; simpl; auto.
  - destruct l; simpl; [auto|discriminate].
  - destruct m as [|[k x] r]; simpl; [auto|discriminate].
Qed.

(** The identifier that [payload_dict.get("biotoolsID")] reads after
    normalisation is false as a condition whenever the record has none. *)
Lemma get_id_missing m :
  has_id m = false ->
  truthy (match assoc "biotoolsID" (strip_items m) with
          | Some v => v
          | None => JNull
          end) = false.
Proof.
  unfold has_id. rewrite assoc_strip_items by reflexivity.
  destruct (assoc "biotoolsID" m) as [v|]; simpl; [|reflexivity].
  apply truthy_strip_false.
Qed.

(** A string identifier survives normalisation as it is. *)
Lemma get_id_string m s :
  assoc "biotoolsID" m = Some (JStr s) ->
  assoc "biotoolsID" (strip_items m) = Some (JStr s).
Proof.
  intros H. rewrite assoc_strip_items by reflexivity. rewrite H. reflexivity.
Qed.

Lemma truthy_nonempty s : s <> "" -> truthy (JStr s) = true.
Proof.
  intros H. simpl. destruct (String.eqb s "") eqn:Hs; [|reflexivity].
  apply String.eqb_eq in Hs. contradiction.
Qed.

Lemma X_is_not_empty : "X" <> "".
Proof. discriminate. Defined.

(** Only a dictionary compares equal to a dictionary. *)
Lemma py_eq_obj_container e m :
  py_eq (strip_term e) (JObj m) = true -> is_container e = true.
Proof. destruct e; simpl; try discriminate; reflexivity. Qed.

(* ===================================================================== *)
(** * One turn of the upload loop *)
(* ===================================================================== *)

(** Unfolding of the monad and of the assignments to local variables. *)
Ltac py :=
  cbv beta iota zeta delta
      [try_except bind ret raise call logging emit of_outcome
       get_world get_frame send remap py_get
       py_get_default py_getitem response_json is_container
       w_trace w_HEADERS w_files w_dirs
       V3.append_ok V3.append_ko V3.append_unchanged V3.assign_payload_dict
       V3.assign_response V3.read_payload_dict V3.read_response
       V3.concat_tool_url V3.copy_headers
       V3.tools_ok V3.tools_ko V3.tools_unchanged V3.payload_dict V3.response
       V2.append_ok V2.append_ko V2.append_unchanged V2.assign_payload_dict
       V2.assign_response V2.read_payload_dict V2.read_response V2.get_headers
       V2.tools_ok V2.tools_ko V2.tools_unchanged V2.payload_dict V2.response
       is_HTTPError is_RequestException is_Exception negb].

(** Case analysis on the answer of the network to the request the program
    is waiting on. *)
Ltac net_cases r e :=
  lazymatch goal with
  | |- context [match net ?E ?h ?q with _ => _ end] =>
      destruct (net E h q) as [r|e]
  end.

Lemma requests_of_app t t' :
  requests_of (t ++ t') = requests_of t ++ requests_of t'.
Proof. unfold requests_of. apply flat_map_app. Qed.

(** The requests of a trace that ends with known events. *)
Ltac requests :=
  rewrite <- ?app_assoc, ?requests_of_app; cbn;
  rewrite ?app_nil_r; reflexivity.

(** Case analysis on whatever the program is waiting on next. *)
Ltac crunch :=
  repeat (py;
          match goal with
          | |- context [match ?x with _ => _ end] =>
              lazymatch x with
              | context [match _ with _ => _ end] => fail
              | _ => destruct x eqn:?
              end
          end).

Ltac one_entry_done :=
  let H := fresh in
  intros H; inversion H; subst; clear H; unfold one_entry;
  first [ left; eexists; repeat split; reflexivity
        | right; left; eexists; repeat split; reflexivity
        | right; right; eexists; repeat split; reflexivity ].

(** C3.  A local file whose record is a dictionary with no ['biotoolsID'],
    or with one that is empty, ends its turn of the loop normally: the
    failure list gets the entry of the missing identifier (the pair of
    "UNKNOWN" and "biotoolsID not found" in gh2biotools3.py, "UNKNOWN" in
    gh2biotools2.py), the other lists are as before, and no request was
    sent. *)
Theorem missing_id_is_failure_without_network :
  (forall E token f m l w,
     load_json E f = Ok (JObj m) ->
     has_id m = false ->
     exists l' w',
       V3.upload_file E token f l w = (Ok tt, l', w') /\
       V3.tools_ko l' = V3.tools_ko l ++ [(JStr "UNKNOWN", "biotoolsID not found")] /\
       V3.tools_ok l' = V3.tools_ok l /\
       V3.tools_unchanged l' = V3.tools_unchanged l /\
       requests_of (w_trace w') = requests_of (w_trace w)) /\
  (forall E token f m l w,
     load_json E f = Ok (JObj m) ->
     has_id m = false ->
     exists l' w',
       V2.upload_file E token f l w = (Ok tt, l', w') /\
       V2.tools_ko l' = V2.tools_ko l ++ [JStr "UNKNOWN"] /\
       V2.tools_ok l' = V2.tools_ok l /\
       V2.tools_unchanged l' = V2.tools_unchanged l /\
       requests_of (w_trace w') = requests_of (w_trace w)).
Proof.
  split.
  { intros E token f m l w.
    intros Hload Hid. apply get_id_missing in Hid.
    destruct l as [oks kos uns pd resp], w as [t H fs ds].
    unfold V3.upload_file. py. rewrite Hload. py.
    rewrite strip_term_obj. py. rewrite Hid. py.
    do 2 eexists. split; [reflexivity|]. py.
    repeat split.
    requests. }
  { intros E token f m l w.
    intros Hload Hid. apply get_id_missing in Hid.
    destruct l as [oks kos uns pd resp], w as [t H fs ds].
    unfold V2.upload_file. py. rewrite Hload. py.
    rewrite strip_term_obj. py. rewrite Hid. py.
    do 2 eexists. split; [reflexivity|]. py.
    repeat split.
    requests. }
Qed.

Lemma missing_id_is_failure_without_network_witness :
  (exists l' w',
     V3.upload_file registry_empty "tok" "noid.biotools.json" V3.new_locals world0
       = (Ok tt, l', w') /\
     V3.tools_ko l' = [(JStr "UNKNOWN", "biotoolsID not found")] /\
     V3.tools_ok l' = [] /\
     V3.tools_unchanged l' = [] /\
     requests_of (w_trace w') = []) /\
  (exists l' w',
     V2.upload_file registry_empty "tok" "noid.biotools.json" V2.new_locals world0
       = (Ok tt, l', w') /\
     V2.tools_ko l' = [JStr "UNKNOWN"] /\
     V2.tools_ok l' = [] /\
     V2.tools_unchanged l' = [] /\
     requests_of (w_trace w') = []).
Proof.
  split.
  - exact (proj1 missing_id_is_failure_without_network registry_empty "tok"
             "noid.biotools.json" [("name", JStr "no id")] V3.new_locals world0
             eq_refl eq_refl).
  - exact (proj2 missing_id_is_failure_without_network registry_empty "tok"
             "noid.biotools.json" [("name", JStr "no id")] V2.new_locals world0
             eq_refl eq_refl).
Defined.

(** C1.  A local record with identifier [s] whose existence check is
    answered with status 200 and a body that, once normalised, is equal to
    the normalised record: the turn ends normally, [s] is appended to the
    unchanged list, the other two lists are as before, and the only request
    sent is that GET: no PUT and no POST. *)
Theorem unchanged_record_is_skipped :
  (forall E token f m s r existing l w,
     load_json E f = Ok (JObj m) ->
     assoc "biotoolsID" m = Some (JStr s) ->
     s <> "" ->
     net E (lookup_history3 w f) (lookup w s) = Ok r ->
     status_code r = 200 ->
     json_body r = Some existing ->
     py_eq (strip_term existing) (strip_term (JObj m)) = true ->
     exists l' w',
       V3.upload_file E token f l w = (Ok tt, l', w') /\
       V3.tools_unchanged l' = V3.tools_unchanged l ++ [JStr s] /\
       V3.tools_ok l' = V3.tools_ok l /\
       V3.tools_ko l' = V3.tools_ko l /\
       requests_of (w_trace w') = requests_of (w_trace w) ++ [lookup w s]) /\
  (forall E token f m s r existing l w,
     load_json E f = Ok (JObj m) ->
     assoc "biotoolsID" m = Some (JStr s) ->
     s <> "" ->
     net E (lookup_history2 w f) (lookup w s) = Ok r ->
     status_code r = 200 ->
     json_body r = Some existing ->
     py_eq (strip_term existing) (strip_term (JObj m)) = true ->
     exists l' w',
       V2.upload_file E token f l w = (Ok tt, l', w') /\
       V2.tools_unchanged l' = V2.tools_unchanged l ++ [JStr s] /\
       V2.tools_ok l' = V2.tools_ok l /\
       V2.tools_ko l' = V2.tools_ko l /\
       requests_of (w_trace w') = requests_of (w_trace w) ++ [lookup w s]).
Proof.
  split.
  { intros E token f m s r existing l w.
    intros Hload Hid Hs Hnet H200 Hbody Heq.
    rewrite strip_term_obj in Heq.
    pose proof (py_eq_obj_container _ _ Heq) as Hc. unfold is_container in Hc.
    apply get_id_string in Hid. apply truthy_nonempty in Hs.
    destruct l as [oks kos uns pd resp], w as [t H fs ds].
    unfold lookup_history3, lookup in Hnet. cbn in Hnet.
    unfold V3.upload_file. py. rewrite Hload. py.
    rewrite strip_term_obj. py. rewrite Hid, Hs. py.
    rewrite Hnet. py. rewrite H200. cbn [Z.eqb Pos.eqb]. rewrite Hbody. py.
    rewrite Hc. py. rewrite Heq. py.
    do 2 eexists. split; [reflexivity|]. py.
    repeat split.
    requests. }
  { intros E token f m s r existing l w.
    intros Hload Hid Hs Hnet H200 Hbody Heq.
    rewrite strip_term_obj in Heq.
    pose proof (py_eq_obj_container _ _ Heq) as Hc. unfold is_container in Hc.
    apply get_id_string in Hid. apply truthy_nonempty in Hs.
    destruct l as [oks kos uns pd resp], w as [t H fs ds].
    unfold lookup_history2, lookup in Hnet. cbn in Hnet.
    unfold V2.upload_file. py. rewrite Hload. py.
    rewrite strip_term_obj. py. rewrite Hid, Hs. py.
    rewrite Hnet. py. rewrite H200. cbn [Z.eqb Pos.eqb]. rewrite Hbody. py.
    rewrite Hc. py. rewrite Heq. py.
    do 2 eexists. split; [reflexivity|]. py.
    repeat split.
    requests. }
Qed.

Lemma unchanged_record_is_skipped_witness :
  (exists l' w',
     V3.upload_file registry_same "tok" "X.biotools.json" V3.new_locals world0
       = (Ok tt, l', w') /\
     V3.tools_unchanged l' = [JStr "X"] /\
     V3.tools_ok l' = [] /\
     V3.tools_ko l' = [] /\
     requests_of (w_trace w') = [lookup world0 "X"]) /\
  (exists l' w',
     V2.upload_file registry_same "tok" "X.biotools.json" V2.new_locals world0
       = (Ok tt, l', w') /\
     V2.tools_unchanged l' = [JStr "X"] /\
     V2.tools_ok l' = [] /\
     V2.tools_ko l' = [] /\
     requests_of (w_trace w') = [lookup world0 "X"]).
Proof.
  split.
  - exact (proj1 unchanged_record_is_skipped registry_same "tok"
             "X.biotools.json" items_X "X"
             (mkResponse 200 "{...}" (Some remote_X_same)) remote_X_same
             V3.new_locals world0
             eq_refl eq_refl X_is_not_empty eq_refl eq_refl eq_refl eq_refl).
  - exact (proj2 unchanged_record_is_skipped registry_same "tok"
             "X.biotools.json" items_X "X"
             (mkResponse 200 "{...}" (Some remote_X_same)) remote_X_same
             V2.new_locals world0
             eq_refl eq_refl X_is_not_empty eq_refl eq_refl eq_refl eq_refl).
Defined.

(** C2, as the code has it.  A local record with identifier [s] whose
    existence check is answered with status 200 and a body that differs
    from it after normalisation.  gh2biotools3.py sends one PUT to the
    tool's URL and nothing else.  gh2biotools2.py first sends one PUT to
    the tool's validation URL, and then one PUT to the tool's URL if and
    only if the validation is answered with a status that is not an error;
    a validation that is refused, or that raises, puts [s] in the failure
    list.  In both, an update that is answered with a status that is not
    an error puts [s] in the success list, and an update that raises puts
    it in the failure list. *)
Theorem changed_record_is_updated :
  (forall E token f m s r existing l w,
     load_json E f = Ok (JObj m) ->
     assoc "biotoolsID" m = Some (JStr s) ->
     s <> "" ->
     net E (lookup_history3 w f) (lookup w s) = Ok r ->
     status_code r = 200 ->
     json_body r = Some existing ->
     is_container existing = true ->
     py_eq (strip_term existing) (payload m) = false ->
     exists o l' w',
       V3.upload_file E token f l w = (o, l', w') /\
       requests_of (w_trace w') =
         requests_of (w_trace w) ++ [lookup w s; update_request token m s] /\
       V3.tools_unchanged l' = V3.tools_unchanged l /\
       match net E (update_history3 w f s) (update_request token m s) with
       | Ok r' =>
           ok r' = true ->
           o = Ok tt /\
           V3.tools_ok l' = V3.tools_ok l ++ [JStr s] /\
           V3.tools_ko l' = V3.tools_ko l
       | Raise e =>
           is_Exception e = true ->
           o = Ok tt /\
           V3.tools_ok l' = V3.tools_ok l /\
           exists msg, V3.tools_ko l' = V3.tools_ko l ++ [(JStr s, msg)]
       end) /\
  (forall E token f m s r existing l w,
     load_json E f = Ok (JObj m) ->
     assoc "biotoolsID" m = Some (JStr s) ->
     s <> "" ->
     net E (lookup_history2 w f) (lookup w s) = Ok r ->
     status_code r = 200 ->
     json_body r = Some existing ->
     is_container existing = true ->
     py_eq (strip_term existing) (payload m) = false ->
     exists o l' w',
       V2.upload_file E token f l w = (o, l', w') /\
       V2.tools_unchanged l' = V2.tools_unchanged l /\
       match net E (validate_update_history w f s)
                 (validate_update_request token m s) with
       | Ok rv =>
           if ok rv then
             requests_of (w_trace w') =
               requests_of (w_trace w) ++
               [lookup w s; validate_update_request token m s;
                update_request token m s] /\
             match net E (update_history2 token m w f s)
                       (update_request token m s) with
             | Ok r' =>
                 ok r' = true ->
                 o = Ok tt /\
                 V2.tools_ok l' = V2.tools_ok l ++ [JStr s] /\
                 V2.tools_ko l' = V2.tools_ko l
             | Raise e =>
                 is_Exception e = true ->
                 o = Ok tt /\
                 V2.tools_ok l' = V2.tools_ok l /\
                 V2.tools_ko l' = V2.tools_ko l ++ [JStr s]
             end
           else
             requests_of (w_trace w') =
               requests_of (w_trace w) ++
               [lookup w s; validate_update_request token m s] /\
             o = Ok tt /\
             V2.tools_ok l' = V2.tools_ok l /\
             V2.tools_ko l' = V2.tools_ko l ++ [JStr s]
       | Raise e =>
           requests_of (w_trace w') =
             requests_of (w_trace w) ++
             [lookup w s; validate_update_request token m s] /\
           (is_Exception e = true ->
            o = Ok tt /\
            V2.tools_ok l' = V2.tools_ok l /\
            V2.tools_ko l' = V2.tools_ko l ++ [JStr s])
       end).
Proof.
  split.
  { intros E token f m s r existing l w.
    intros Hload Hid Hs Hnet H200 Hbody Hc Hneq. unfold is_container in Hc.
    unfold payload in *. rewrite strip_term_obj in Hneq.
    apply get_id_string in Hid. apply truthy_nonempty in Hs.
    destruct l as [oks kos uns pd resp], w as [t H fs ds].
    unfold update_history3, update_request, payload, lookup_history3, lookup in *.
    cbn [w_trace w_HEADERS] in *. rewrite strip_term_obj.
    unfold V3.upload_file, V3.update_tool. py. rewrite Hload. py.
    rewrite strip_term_obj. py. rewrite Hid, Hs. py.
    rewrite Hnet. py. rewrite H200. cbn [Z.eqb Pos.eqb]. rewrite Hbody. py.
    rewrite Hc. py. rewrite Hneq. py.
    clear Hnet. net_cases r' e; py.
    - rewrite ?Hid. py. do 3 eexists. split; [reflexivity|]. py.
      split; [requests|]. split; [reflexivity|]. intros _. repeat split.
    - destruct e as [msg r0|msg|cls msg|code]; py; rewrite ?Hid; py;
        (do 3 eexists; split; [reflexivity|]; py;
         split; [requests|]; split; [reflexivity|]; intros Hex;
         try discriminate; repeat split; eexists; reflexivity). }
  { intros E token f m s r existing l w.
    intros Hload Hid Hs Hnet H200 Hbody Hc Hneq. unfold is_container in Hc.
    unfold payload in *. rewrite strip_term_obj in Hneq.
    apply get_id_string in Hid. apply truthy_nonempty in Hs.
    destruct l as [oks kos uns pd resp], w as [t H fs ds].
    unfold update_history2, validate_update_history, validate_update_request,
      update_request, payload, lookup_history2, lookup in *.
    cbn [w_trace w_HEADERS] in *. rewrite strip_term_obj.
    unfold V2.upload_file, V2.update_tool, V2.validate_update_tool.
    py. rewrite Hload. py.
    rewrite strip_term_obj. py. rewrite Hid, Hs. py.
    rewrite Hnet. py. rewrite H200. cbn [Z.eqb Pos.eqb]. rewrite Hbody. py.
    rewrite Hc. py. rewrite Hneq. py.
    clear Hnet. net_cases rv e; py.
    - destruct (ok rv); py.
      + net_cases r' e; py.
        * do 3 eexists. split; [reflexivity|]. py. split; [reflexivity|].
          split; [requests|]. intros _. repeat split.
        * destruct e as [msg r0|msg|cls msg|code]; py; rewrite ?Hid, ?H200; cbn [Z.eqb Pos.eqb]; py; rewrite ?Hid; py;
            (do 3 eexists; split; [reflexivity|]; py; split; [reflexivity|];
             split; [requests|]; intros Hex; try discriminate; repeat split).
      + do 3 eexists. split; [reflexivity|]. py. split; [reflexivity|].
        split; [requests|]. repeat split.
    - destruct e as [msg r0|msg|cls msg|code]; py; rewrite ?Hid, ?H200; cbn [Z.eqb Pos.eqb]; py; rewrite ?Hid; py;
        (do 3 eexists; split; [reflexivity|]; py; split; [reflexivity|];
         split; [requests|]; intros Hex; try discriminate; repeat split). }
Qed.

Lemma changed_record_is_updated_witness :
  (exists l' w',
     V3.upload_file registry_other "tok" "X.biotools.json" V3.new_locals world0
       = (Ok tt, l', w') /\
     requests_of (w_trace w') =
       [lookup world0 "X"; update_request "tok" items_X "X"] /\
     V3.tools_ok l' = [JStr "X"] /\
     V3.tools_ko l' = [] /\
     V3.tools_unchanged l' = []) /\
  (exists l' w',
     V2.upload_file registry_other "tok" "X.biotools.json" V2.new_locals world0
       = (Ok tt, l', w') /\
     requests_of (w_trace w') =
       [lookup world0 "X"; validate_update_request "tok" items_X "X";
        update_request "tok" items_X "X"] /\
     V2.tools_ok l' = [JStr "X"] /\
     V2.tools_ko l' = [] /\
     V2.tools_unchanged l' = []).
Proof.
  split.
  - destruct (proj1 changed_record_is_updated registry_other "tok"
                "X.biotools.json" items_X "X"
                (mkResponse 200 "{...}" (Some remote_X_other)) remote_X_other
                V3.new_locals world0
                eq_refl eq_refl X_is_not_empty eq_refl eq_refl eq_refl eq_refl
                eq_refl)
      as (o & l' & w' & Hrun & Hreq & Hun & Hcase).
    destruct (Hcase eq_refl) as (-> & Hok & Hko).
    exists l', w'. repeat split; assumption.
  - destruct (proj2 changed_record_is_updated registry_other "tok"
                "X.biotools.json" items_X "X"
                (mkResponse 200 "{...}" (Some remote_X_other)) remote_X_other
                V2.new_locals world0
                eq_refl eq_refl X_is_not_empty eq_refl eq_refl eq_refl eq_refl
                eq_refl)
      as (o & l' & w' & Hrun & Hun & Hreq & Hcase).
    destruct (Hcase eq_refl) as (-> & Hok & Hko).
    exists l', w'. repeat split; assumption.
Defined.

(** C2, as the claim has it: with gh2biotools2.py a changed record whose
    update validates makes two PUT requests, and one whose update does not
    validate makes no PUT to the tool's URL at all. *)
Lemma changed_record_put_count :
  (let '(_, _, w) :=
     V2.upload_file registry_other "tok" "X.biotools.json" V2.new_locals world0 in
   List.length (List.filter is_put (requests_of (w_trace w))) = 2%nat) /\
  (let '(_, l, w) :=
     V2.upload_file registry_refusing "tok" "X.biotools.json" V2.new_locals world0 in
   List.length (List.filter is_update_put (requests_of (w_trace w))) = 0%nat /\
   V2.tools_ko l = [JStr "X"]).
Proof. vm_compute. repeat split. Qed.

(** What the statement above leaves out: an update that the registry
    answers with status 400 still counts as a success, in both scripts,
    since [update_tool] returns [True] for every response. *)
Example refused_update_counts_as_success :
  (let '(o, l, w) :=
     V3.upload_file registry_refusing "tok" "X.biotools.json" V3.new_locals world0 in
   o = Ok tt /\ V3.tools_ok l = [JStr "X"] /\ V3.tools_ko l = [] /\
   methods (w_trace w) = [GET; PUT]) /\
  (let '(o, l, w) :=
     V2.upload_file registry_failing_update "tok" "X.biotools.json"
       V2.new_locals world0 in
   o = Ok tt /\ V2.tools_ok l = [JStr "X"] /\ V2.tools_ko l = [] /\
   methods (w_trace w) = [GET; PUT; PUT]).
Proof. vm_compute. repeat split. Qed.

(** C4, as the code has it.  A local record with identifier [s] whose
    existence check is answered with status 404.  One validation call is
    sent; the POST that creates the tool follows if and only if the
    validation is answered with a status that is not an error, and nothing
    follows it.  A validation that is refused ends the turn normally with a
    failure for [s]: in gh2biotools3.py the entry is the pair of [s] and the
    text of the validation response; in gh2biotools2.py the entry is [s]
    alone, and the text goes into the line of the error log that ends the
    turn. *)
Theorem new_record_is_validated_then_created :
  (forall E token f m s r l w,
     load_json E f = Ok (JObj m) ->
     assoc "biotoolsID" m = Some (JStr s) ->
     s <> "" ->
     net E (lookup_history3 w f) (lookup w s) = Ok r ->
     status_code r = 404 ->
     exists o l' w',
       V3.upload_file E token f l w = (o, l', w') /\
       match net E (validate_history3 w f s) (validate_request token m) with
       | Ok rv =>
           if ok rv then
             requests_of (w_trace w') =
               requests_of (w_trace w) ++
               [lookup w s; validate_request token m; create_request token m]
           else
             requests_of (w_trace w') =
               requests_of (w_trace w) ++ [lookup w s; validate_request token m] /\
             o = Ok tt /\
             V3.tools_ko l' = V3.tools_ko l ++ [(JStr s, text rv)] /\
             V3.tools_ok l' = V3.tools_ok l /\
             V3.tools_unchanged l' = V3.tools_unchanged l
       | Raise e =>
           requests_of (w_trace w') =
             requests_of (w_trace w) ++ [lookup w s; validate_request token m]
       end) /\
  (forall E token f m s r l w,
     load_json E f = Ok (JObj m) ->
     assoc "biotoolsID" m = Some (JStr s) ->
     s <> "" ->
     net E (lookup_history2 w f) (lookup w s) = Ok r ->
     status_code r = 404 ->
     exists o l' w',
       V2.upload_file E token f l w = (o, l', w') /\
       match net E (validate_history2 w f s) (validate_request token m) with
       | Ok rv =>
           if ok rv then
             requests_of (w_trace w') =
               requests_of (w_trace w) ++
               [lookup w s; validate_request token m; create_request token m]
           else
             requests_of (w_trace w') =
               requests_of (w_trace w) ++ [lookup w s; validate_request token m] /\
             o = Ok tt /\
             V2.tools_ko l' = V2.tools_ko l ++ [JStr s] /\
             V2.tools_ok l' = V2.tools_ok l /\
             V2.tools_unchanged l' = V2.tools_unchanged l /\
             w_trace w' =
               validate_history2 w f s ++
               [ERequest (validate_request token m);
                ELog ERROR (Fmt "Validation failed for {}: {}"
                                [JStr s; JStr (text rv)])]
       | Raise e =>
           requests_of (w_trace w') =
             requests_of (w_trace w) ++ [lookup w s; validate_request token m]
       end).
Proof.
  split.
  { intros E token f m s r l w.
    intros Hload Hid Hs Hnet H404.
    apply get_id_string in Hid. apply truthy_nonempty in Hs.
    destruct l as [oks kos uns pd resp], w as [t H fs ds].
    unfold validate_history3, validate_request, create_request, payload,
      lookup_history3, lookup in *.
    cbn [w_trace w_HEADERS] in *. rewrite strip_term_obj.
    unfold V3.upload_file, V3.validate_tool, V3.upload_tool.
    py. rewrite Hload. py.
    rewrite strip_term_obj. py. rewrite Hid, Hs. py.
    rewrite Hnet. py. rewrite H404. cbn [Z.eqb Pos.eqb]. py.
    clear Hnet. net_cases rv e; py.
    - destruct (ok rv); py.
      + net_cases r' e; py.
        * rewrite ?Hid. py. do 3 eexists. split; [reflexivity|]. py. requests.
        * destruct e as [msg r0|msg|cls msg|code]; py; rewrite ?Hid, ?H404; cbn [Z.eqb Pos.eqb]; py; rewrite ?Hid; py;
            (do 3 eexists; split; [reflexivity|]; py; requests).
      + do 3 eexists. split; [reflexivity|]. py. split; [requests|]. repeat split.
    - destruct e as [msg r0|msg|cls msg|code]; py; rewrite ?Hid, ?H404; cbn [Z.eqb Pos.eqb]; py; rewrite ?Hid; py;
        (do 3 eexists; split; [reflexivity|]; py; requests). }
  { intros E token f m s r l w.
    intros Hload Hid Hs Hnet H404.
    apply get_id_string in Hid. apply truthy_nonempty in Hs.
    destruct l as [oks kos uns pd resp], w as [t H fs ds].
    unfold validate_history2, validate_request, create_request, payload,
      lookup_history2, lookup in *.
    cbn [w_trace w_HEADERS] in *. rewrite strip_term_obj.
    unfold V2.upload_file, V2.validate_upload_tool, V2.upload_tool.
    py. rewrite Hload. py.
    rewrite strip_term_obj. py. rewrite Hid, Hs. py.
    rewrite Hnet. py. rewrite H404. cbn [Z.eqb Pos.eqb]. py.
    clear Hnet. net_cases rv e; py.
    - destruct (ok rv); py.
      + net_cases r' e; py.
        * rewrite ?Hid. py. do 3 eexists. split; [reflexivity|]. py. requests.
        * destruct e as [msg r0|msg|cls msg|code]; py; rewrite ?Hid, ?H404; cbn [Z.eqb Pos.eqb]; py; rewrite ?Hid; py;
            (do 3 eexists; split; [reflexivity|]; py; requests).
      + do 3 eexists. split; [reflexivity|]. py. split; [requests|].
        repeat split. rewrite <- !app_assoc. reflexivity.
    - destruct e as [msg r0|msg|cls msg|code]; py; rewrite ?Hid, ?H404; cbn [Z.eqb Pos.eqb]; py; rewrite ?Hid; py;
        (do 3 eexists; split; [reflexivity|]; py; requests). }
Qed.

Lemma new_record_is_validated_then_created_witness :
  (exists o l' w',
     V3.upload_file registry_empty "tok" "X.biotools.json" V3.new_locals world0
       = (o, l', w') /\
     requests_of (w_trace w') =
       [lookup world0 "X"; validate_request "tok" items_X;
        create_request "tok" items_X]) /\
  (exists l' w',
     V3.upload_file registry_empty_refusing "tok" "X.biotools.json"
       V3.new_locals world0 = (Ok tt, l', w') /\
     requests_of (w_trace w') =
       [lookup world0 "X"; validate_request "tok" items_X] /\
     V3.tools_ko l' = [(JStr "X", "{'name': ['too long']}")]) /\
  (exists l' w',
     V2.upload_file registry_empty_refusing "tok" "X.biotools.json"
       V2.new_locals world0 = (Ok tt, l', w') /\
     requests_of (w_trace w') =
       [lookup world0 "X"; validate_request "tok" items_X] /\
     V2.tools_ko l' = [JStr "X"]).
Proof.
  split; [|split].
  - destruct (proj1 new_record_is_validated_then_created registry_empty "tok"
                "X.biotools.json" items_X "X" (mkResponse 404 "" None)
                V3.new_locals world0
                eq_refl eq_refl X_is_not_empty eq_refl eq_refl)
      as (o & l' & w' & Hrun & Hreq).
    exists o, l', w'. split; assumption.
  - destruct (proj1 new_record_is_validated_then_created
                registry_empty_refusing "tok"
                "X.biotools.json" items_X "X" (mkResponse 404 "" None)
                V3.new_locals world0
                eq_refl eq_refl X_is_not_empty eq_refl eq_refl)
      as (o & l' & w' & Hrun & Hreq & -> & Hko & _).
    exists l', w'. repeat split; assumption.
  - destruct (proj2 new_record_is_validated_then_created
                registry_empty_refusing "tok"
                "X.biotools.json" items_X "X" (mkResponse 404 "" None)
                V2.new_locals world0
                eq_refl eq_refl X_is_not_empty eq_refl eq_refl)
      as (o & l' & w' & Hrun & Hreq & -> & Hko & _).
    exists l', w'. repeat split; assumption.
Defined.

(** C4, as the claim has it: in gh2biotools2.py the failure of a refused
    validation does not carry the validation message.  Two registries that
    refuse the same record with different messages leave the same failure
    list, which holds the identifier and nothing else. *)
Lemma refused_validation_entry_is_the_id_alone :
  (let '(_, l, _) :=
     V2.upload_file registry_empty_refusing "tok" "X.biotools.json"
       V2.new_locals world0 in
   V2.tools_ko l = [JStr "X"]) /\
  (let '(_, l, _) :=
     V2.upload_file registry_empty_refusing_otherwise "tok" "X.biotools.json"
       V2.new_locals world0 in
   V2.tools_ko l = [JStr "X"]).
Proof. vm_compute. split; reflexivity. Qed.

(** C9.  A turn of the loop that ends without an uncaught exception has
    appended exactly one entry to exactly one of the three lists, and left
    the other two as they were. *)
Theorem one_entry_per_completed_turn :
  (forall E token f l w l' w',
     V3.upload_file E token f l w = (Ok tt, l', w') ->
     one_entry (V3.tools_ok l) (V3.tools_ok l')
               (V3.tools_ko l) (V3.tools_ko l')
               (V3.tools_unchanged l) (V3.tools_unchanged l')) /\
  (forall E token f l w l' w',
     V2.upload_file E token f l w = (Ok tt, l', w') ->
     one_entry (V2.tools_ok l) (V2.tools_ok l')
               (V2.tools_ko l) (V2.tools_ko l')
               (V2.tools_unchanged l) (V2.tools_unchanged l')).
Proof.
  split.
  { intros E token f l w l' w'.
    destruct l as [oks kos uns pd resp], w as [t H fs ds].
    unfold V3.upload_file, V3.update_tool, V3.validate_tool, V3.upload_tool.
    crunch; try discriminate; one_entry_done. }
  { intros E token f l w l' w'.
    destruct l as [oks kos uns pd resp], w as [t H fs ds].
    unfold V2.upload_file, V2.update_tool, V2.validate_update_tool,
      V2.validate_upload_tool, V2.upload_tool.
    crunch; try discriminate; one_entry_done. }
Qed.

Lemma one_entry_per_completed_turn_witness :
  (exists l' w',
     V3.upload_file registry_other "tok" "X.biotools.json" V3.new_locals world0
       = (Ok tt, l', w') /\
     one_entry (V3.tools_ok V3.new_locals) (V3.tools_ok l')
               (V3.tools_ko V3.new_locals) (V3.tools_ko l')
               (V3.tools_unchanged V3.new_locals) (V3.tools_unchanged l')) /\
  (exists l' w',
     V2.upload_file registry_refusing "tok" "X.biotools.json" V2.new_locals world0
       = (Ok tt, l', w') /\
     one_entry (V2.tools_ok V2.new_locals) (V2.tools_ok l')
               (V2.tools_ko V2.new_locals) (V2.tools_ko l')
               (V2.tools_unchanged V2.new_locals) (V2.tools_unchanged l')).
Proof.
  split.
  - destruct (V3.upload_file registry_other "tok" "X.biotools.json"
                V3.new_locals world0) as [[o l'] w'] eqn:Hrun.
    assert (Ho : o = Ok tt).
    { vm_compute in Hrun. injection Hrun as <- _ _. reflexivity. }
    subst o. exists l', w'. split; [reflexivity|].
    exact (proj1 one_entry_per_completed_turn registry_other "tok"
             "X.biotools.json" V3.new_locals world0 l' w' Hrun).
  - destruct (V2.upload_file registry_refusing "tok" "X.biotools.json"
                V2.new_locals world0) as [[o l'] w'] eqn:Hrun.
    assert (Ho : o = Ok tt).
    { vm_compute in Hrun. injection Hrun as <- _ _. reflexivity. }
    subst o. exists l', w'. split; [reflexivity|].
    exact (proj2 one_entry_per_completed_turn registry_refusing "tok"
             "X.biotools.json" V2.new_locals world0 l' w' Hrun).
Defined.

(* ===================================================================== *)
(** * Deletions *)
(* ===================================================================== *)

Lemma V3_delete_tool_run E token id w :
  V3.delete_tool E token id tt w =
  match net E (w_trace w) (delete_request token id) with
  | Ok r =>
      (Ok tt, tt,
       add_events w [ERequest (delete_request token id); delete_log id r])
  | Raise e => (Raise e, tt, add_events w [ERequest (delete_request token id)])
  end.
Proof.
  destruct w as [t H fs ds].
  unfold V3.delete_tool, delete_request, delete_log, add_events. py.
  net_cases r e; py; [|reflexivity].
  destruct (status_code r =? 204); [|destruct (status_code r =? 404)];
    py; rewrite <- app_assoc; reflexivity.
Qed.

Lemma V2_delete_tool_run E token id w :
  V2.delete_tool E token id tt w =
  match net E (w_trace w) (delete_request token id) with
  | Ok r =>
      (Ok tt, tt,
       add_events w [ERequest (delete_request token id); delete_log id r])
  | Raise e => (Raise e, tt, add_events w [ERequest (delete_request token id)])
  end.
Proof.
  destruct w as [t H fs ds].
  unfold V2.delete_tool, delete_request, delete_log, add_events. py.
  net_cases r e; py; [|reflexivity].
  destruct (status_code r =? 204); [|destruct (status_code r =? 404)];
    py; rewrite <- app_assoc; reflexivity.
Qed.

Lemma add_events_app w t t' :
  add_events (add_events w t) t' = add_events w (t ++ t').
Proof. unfold add_events. cbn. rewrite <- app_assoc. reflexivity. Qed.

Lemma add_events_nil w : add_events w [] = w.
Proof. destruct w. unfold add_events. cbn. rewrite app_nil_r. reflexivity. Qed.





Lemma V3_no_tools_ko : V3.module_globals !! "tools_ko" = None.
Proof. reflexivity. Qed.



(** C7.  For a tool id of the deleted list, [delete_tool] sends exactly one
    DELETE request, to the tool's URL.  When the registry answers, the
    answer is only logged: at level INFO for status 204, at level WARNING
    for status 404, at level ERROR for any other status; the caller's
    variables, whatever they are, are left as they were, so no failure
    entry is recorded.  When the request itself raises, nothing more
    happens than that exception. *)
Theorem delete_tool_one_request (E : environ) (token id : string)
  (L : Type) (l : L) (w : world) :
  call tt (V3.delete_tool E token id) l w =
    match net E (w_trace w) (delete_request token id) with
    | Ok r =>
        (Ok tt, l,
         add_events w [ERequest (delete_request token id); delete_log id r])
    | Raise e => (Raise e, l, add_events w [ERequest (delete_request token id)])
    end /\
  call tt (V2.delete_tool E token id) l w =
    match net E (w_trace w) (delete_request token id) with
    | Ok r =>
        (Ok tt, l,
         add_events w [ERequest (delete_request token id); delete_log id r])
    | Raise e => (Raise e, l, add_events w [ERequest (delete_request token id)])
    end /\
  (forall r,
     delete_log id r =
       if status_code r =? 204 then
         ELog INFO (Fmt "Successfully deleted tool {}" [JStr id])
       else if status_code r =? 404 then
         ELog WARNING (Fmt "Tool {} not found on server (maybe already deleted?)"
                           [JStr id])
       else
         ELog ERROR (Fmt "Failed to delete tool {}: {} {}"
                         [JStr id; JNum (status_code r); JStr (text r)])).
Proof.
  unfold call. rewrite V3_delete_tool_run, V2_delete_tool_run.
  split; [|split].
  - destruct (net E (w_trace w) (delete_request token id)); reflexivity.
  - destruct (net E (w_trace w) (delete_request token id)); reflexivity.
  - intros r. reflexivity.
Qed.

(** A DELETE that is answered with a server fault: one request, one line at
    level ERROR, and the script still ends with status 0. *)
Example failed_deletion_exits_zero :
  let '(o, w) :=
    V2.run_script registry_empty
      (mkArgs "tok" ["X.biotools.json"] ["data/Y/Y.biotools.json"]) world0 in
  exit_code o = 0 /\
  methods (w_trace w) = [GET; POST; POST; DELETE] /\
  In (ELog ERROR (Fmt "Failed to delete tool {}: {} {}"
                      [JStr "Y"; JNum 500; JStr "boom"]))
     (w_trace w).
Proof. vm_compute. repeat split. do 12 right. left. reflexivity. Qed.

(* ===================================================================== *)
(** * The end of the script *)
(* ===================================================================== *)

(** No turn of the upload loop touches the file system. *)
Lemma V3_upload_file_files E token f l w o l' w' :
  V3.upload_file E token f l w = (o, l', w') -> w_files w' = w_files w.
Proof.
  destruct l as [oks kos uns pd resp], w as [t H fs ds].
  unfold V3.upload_file, V3.update_tool, V3.validate_tool, V3.upload_tool.
  crunch; intros Hrun; inversion Hrun; reflexivity.
Qed.

Lemma V3_upload_loop_files E token fs l w :
  w_files (snd (for_each fs (V3.upload_file E token) l w)) = w_files w.
Proof.
  revert l w. induction fs as [|f fs IH]; intros l w; [reflexivity|].
  cbn [for_each]. unfold bind at 1.
  destruct (V3.upload_file E token f l w) as [[o l1] w1] eqn:Hrun.
  apply V3_upload_file_files in Hrun.
  destruct o as [[]|e]; cbn [snd].
  - rewrite IH. exact Hrun.
  - exact Hrun.
Qed.

Lemma V3_run_upload_files E token fs (L : Type) (l : L) w :
  w_files (snd (V3.run_upload E token fs l w)) = w_files w /\
  snd (fst (V3.run_upload E token fs l w)) = l.
Proof.
  destruct w as [t H fs0 ds].
  unfold V3.run_upload, V3.run_upload_body, V3.update_HEADERS. py.
  pose proof (V3_upload_loop_files E token fs V3.new_locals
                (mkWorld t (Some token) fs0 ds)) as Hf.
  destruct (for_each fs (V3.upload_file E token) V3.new_locals
              (mkWorld t (Some token) fs0 ds)) as [[[[]|e] l1] w1];
    cbn [snd] in Hf; [destruct l1, w1|]; split; first [exact Hf | reflexivity].
Qed.

(** A turn of the deletion loop binds its two names, whatever happens to
    the request, and writes no file. *)
Lemma V3_delete_file_frame E token p g w :
  snd (fst (V3.delete_file E token p g w)) !! "tools_ko" = g !! "tools_ko" /\
  w_files (snd (V3.delete_file E token p g w)) = w_files w.
Proof.
  destruct w as [t H fs ds].
  unfold V3.delete_file, store_name. py. rewrite V3_delete_tool_run.
  cbn [w_trace]. destruct (net E _ _); cbn;
    rewrite !lookup_insert_ne by discriminate; split; reflexivity.
Qed.

Lemma V3_deletions_frame E token ps g w :
  snd (fst (for_each ps (V3.delete_file E token) g w)) !! "tools_ko"
    = g !! "tools_ko" /\
  w_files (snd (for_each ps (V3.delete_file E token) g w)) = w_files w.
Proof.
  revert g w. induction ps as [|p ps IH]; intros g w; [split; reflexivity|].
  cbn [for_each]. unfold bind.
  destruct (V3_delete_file_frame E token p g w) as [Hg Hf].
  destruct (V3.delete_file E token p g w) as [[[[]|e] g1] w1];
    cbn [fst snd] in *.
  - destruct (IH g1 w1) as [Hg' Hf']. split; congruence.
  - split; assumption.
Qed.

(** gh2biotools3.py never ends normally and never writes its report: when
    nothing else goes wrong, the last statement of the main block raises
    the [NameError] of [tools_ko]. *)
Lemma V3_main_never_reports E a w :
  exists e g' w',
    V3.main E a V3.module_globals w = (Raise e, g', w') /\
    w_files w' = w_files w.
Proof.
  unfold V3.main. unfold bind at 1.
  assert (Hup : exists o w1,
    (if nonempty (files a) then V3.run_upload E (token a) (files a) else ret tt)
      V3.module_globals w = (o, V3.module_globals, w1) /\
    w_files w1 = w_files w).
  { destruct (nonempty (files a)).
    - destruct (V3_run_upload_files E (token a) (files a) _ V3.module_globals w)
        as [Hf Hg].
      destruct (V3.run_upload E (token a) (files a) V3.module_globals w)
        as [[o g1] w1]. cbn [fst snd] in *. subst g1. eauto.
    - unfold ret. eauto. }
  destruct Hup as (o & w1 & -> & Hw1).
  destruct o as [[]|e]; [|eauto 6].
  unfold bind at 1.
  assert (Hdel : exists o g2 w2,
    (if nonempty (deleted a)
     then for_each (deleted a) (V3.delete_file E (token a))
     else ret tt) V3.module_globals w1 = (o, g2, w2) /\
    g2 !! "tools_ko" = None /\ w_files w2 = w_files w1).
  { destruct (nonempty (deleted a)).
    - destruct (V3_deletions_frame E (token a) (deleted a) V3.module_globals w1)
        as [Hg Hf].
      destruct (for_each (deleted a) (V3.delete_file E (token a))
                  V3.module_globals w1) as [[o g2] w2].
      cbn [fst snd] in *. exists o, g2, w2. rewrite Hg. eauto using V3_no_tools_ko.
    - unfold ret. exists (Ok tt), V3.module_globals, w1. eauto using V3_no_tools_ko. }
  destruct Hdel as (o & g2 & w2 & -> & Hg2 & Hw2).
  assert (Hw : w_files w2 = w_files w) by (rewrite Hw2; exact Hw1).
  destruct o as [[]|e]; [|eauto 6].
  unfold bind, load_name. rewrite Hg2. eauto 6.
Qed.

Lemma V3_script_never_reports E a w :
  (exists e, fst (V3.run_script E a w) = Raise e) /\
  w_files (snd (V3.run_script E a w)) = w_files w.
Proof.
  unfold V3.run_script.
  destruct (V3_main_never_reports E a w) as (e & g' & w' & -> & Hw).
  cbn [fst snd]. eauto.
Qed.







(** gh2biotools2.py, when its loop runs to its end: [run_upload] leaves
    with [SystemExit(1)] if and only if the failure list is not empty. *)
Lemma V2_exit_status E token fs l w l1 w1 :
  for_each fs (V2.upload_file E token) l w = (Ok tt, l1, w1) ->
  exit_code (fst (fst (V2.run_upload_body E token fs l w))) =
    if nonempty (V2.tools_ko l1) then 1 else 0.
Proof.
  intros Hloop. unfold V2.run_upload_body. unfold bind at 1. rewrite Hloop.
  destruct l1 as [oks kos uns pd resp], w1 as [t H fs1 ds]. py.
  destruct kos; reflexivity.
Qed.

(** C6.  gh2biotools3.py on the end-to-end scenario (one new tool, accepted
    by the validation and by the POST) and on a run with one failure: both
    end with the [NameError] of the module-level [tools_ko], so with exit
    status 1, and no report file exists afterwards.  gh2biotools2.py on the
    same two runs ends with status 0 and with status 1. *)
Theorem script_exit_and_report :
  (let '(o, w) :=
     V3.run_script registry_empty (mkArgs "tok" ["X.biotools.json"] []) world0 in
   o = Raise (Exception "NameError" "tools_ko") /\
   exit_code o = 1 /\
   w_files w !! "upload_failure_report.txt" = None) /\
  (let '(o, w) :=
     V3.run_script registry_empty_refusing
       (mkArgs "tok" ["X.biotools.json"] []) world0 in
   o = Raise (Exception "NameError" "tools_ko") /\
   exit_code o = 1 /\
   w_files w !! "upload_failure_report.txt" = None) /\
  exit_code (fst (V2.run_script registry_empty
                    (mkArgs "tok" ["X.biotools.json"] []) world0)) = 0 /\
  exit_code (fst (V2.run_script registry_empty_refusing
                    (mkArgs "tok" ["X.biotools.json"] []) world0)) = 1.
Proof. vm_compute. repeat split. Qed.

(** The report that [write_report] would write for one failure, had the
    main block a list to give it. *)
Example report_of_one_failure :
  let '(_, _, w) :=
    V3.write_report registry_empty
      [(JStr "X", (NL ++ " name: too" ++ NL ++ "long  ")%string)] tt world0 in
  w_files w !! "upload_failure_report.txt" =
  Some [Text (Fmt ("🚨 The following tools failed to upload, update, or delete:"
                     ++ NL ++ NL) []);
        Text (Fmt ("- **{}**: {}" ++ NL) [JStr "X"; JStr "name: too long"]);
        Text (Fmt (NL ++ "---" ++ NL) []);
        Text (Fmt ("- 🔁 Git commit: `{}`" ++ NL) [JStr "unknown"])].
Proof. vm_compute. reflexivity. Qed.

(* ===================================================================== *)
(** * Exceptions in the upload loop *)
(* ===================================================================== *)

(** A first file that cannot be read ends the run, whatever follows it. *)
Lemma unreadable_first_file_aborts E token f rest cls msg w :
  load_json E f = Raise (Exception cls msg) ->
  fst (fst (V3.run_upload_body E token (f :: rest) V3.new_locals w)) =
    Raise (Exception "UnboundLocalError" "payload_dict") /\
  fst (fst (V2.run_upload_body E token (f :: rest) V2.new_locals w)) =
    Raise (Exception "UnboundLocalError" "payload_dict").
Proof.
  intros Hload. destruct w as [t H fs ds].
  unfold V3.run_upload_body, V2.run_upload_body, V3.update_HEADERS.
  cbn [for_each]. unfold V3.upload_file, V2.upload_file, V3.new_locals,
    V2.new_locals. py. rewrite Hload. py. split; reflexivity.
Qed.

(** C5.  A local file that is not JSON.  As the first file it ends the
    whole run: the handler reads [payload_dict] before anything was bound
    to it, the [UnboundLocalError] leaves [run_upload], no failure is
    recorded and the file after it is never looked at.  After a file that
    was read, its failure is recorded under the id of that earlier file,
    not under "UNKNOWN". *)
Theorem malformed_file_aborts_or_misfiles :
  (let '(o, l, w) :=
     V3.run_upload_body registry_empty "tok"
       ["bad.biotools.json"; "X.biotools.json"] V3.new_locals world0 in
   o = Raise (Exception "UnboundLocalError" "payload_dict") /\
   V3.tools_ko l = [] /\
   requests_of (w_trace w) = []) /\
  (let '(o, l, w) :=
     V2.run_upload_body registry_empty "tok"
       ["bad.biotools.json"; "X.biotools.json"] V2.new_locals world0 in
   o = Raise (Exception "UnboundLocalError" "payload_dict") /\
   V2.tools_ko l = [] /\
   requests_of (w_trace w) = []) /\
  (let '(o, l, w) :=
     V3.run_upload_body registry_empty "tok"
       ["X.biotools.json"; "bad.biotools.json"] V3.new_locals world0 in
   V3.tools_ok l = [JStr "X"] /\
   V3.tools_ko l = [(JStr "X", "Expecting value: line 1 column 1 (char 0)")]) /\
  (let '(o, l, w) :=
     V2.run_upload_body registry_empty "tok"
       ["X.biotools.json"; "bad.biotools.json"] V2.new_locals world0 in
   V2.tools_ok l = [JStr "X"] /\
   V2.tools_ko l = [JStr "X"]).
Proof. vm_compute. repeat split. Qed.

(* ===================================================================== *)
(** * The importer *)
(* ===================================================================== *)







(** Two keys whose paths name one file: the document of the first is
    written, and then replaced by the document of the second. *)
Example keys_naming_one_file :
  let '(o, _, w) :=
    Importer.import_biocontainers_annotations annotation_source_same_file
      "https://example.org/annotations.yaml" "out" tt world0 in
  o = Ok tt /\
  w_files w !! "out/a/a.biocontainers.yaml" =
    Some [YamlDump (JObj [("name", JStr "B")])].
Proof. vm_compute. split; reflexivity. Qed.

(* ===================================================================== *)
(** * Normalisation *)
(* ===================================================================== *)

(** Induction over a tree, with the property known for the values inside
    a list or a dictionary. *)
Lemma json_induction (P : json -> Prop) :
  P JNull ->
  (forall b, P (JBool b)) ->
  (forall n, P (JNum n)) ->
  (forall s, P (JStr s)) ->
  (forall l, Forall P l -> P (JList l)) ->
  (forall m, Forall (fun kv => P (snd kv)) m -> P (JObj m)) ->
  forall v, P v.
Proof.
  intros Hnull Hbool Hnum Hstr Hlist Hobj.
  fix IH 1. intros [| b | n | s | l | m].
  - exact Hnull.
  - apply Hbool.
  - apply Hnum.
  - apply Hstr.
  - apply Hlist. induction l as [|x l IHl]; constructor; [apply IH | exact IHl].
  - apply Hobj. induction m as [|[k x] m IHm]; constructor; [apply IH | exact IHm].
Qed.

Lemma mentions_term_obj m : mentions_term (JObj m) = items_mention_term m.
Proof.
  induction m as [|[k x] r IH]; [reflexivity|].
  simpl in *. rewrite IH. reflexivity.
Qed.

(** The normal form mentions no 'term'. *)
Lemma strip_term_term_free (v : json) : mentions_term (strip_term v) = false.
Proof.
  induction v as [| b | n | s | l IH | m IH] using json_induction;
    try reflexivity.
  - simpl. induction IH as [|x l Hx _ IHl]; simpl; [reflexivity|].
    rewrite Hx. exact IHl.
  - rewrite strip_term_obj, mentions_term_obj.
    induction IH as [|[k x] m Hx _ IHm]; simpl; [reflexivity|].
    destruct (String.eqb k "term") eqn:Hk; [exact IHm|].
    simpl in *. rewrite Hk, Hx. exact IHm.
Qed.

(** X1.  Whatever the record, its normal form has no key named 'term', at
    any depth. *)
Theorem normalisation_removes_every_term (v : json) :
  mentions_term (strip_term v) = false.
Proof. exact (strip_term_term_free v). Qed.

(** X2.  Normalising twice is normalising once. *)
Theorem normalisation_is_idempotent (v : json) :
  strip_term (strip_term v) = strip_term v.
Proof.
  induction v as [| b | n | s | l IH | m IH] using json_induction;
    try reflexivity.
  - simpl. f_equal. induction IH as [|x l Hx _ IHl]; simpl; [reflexivity|].
    rewrite Hx, IHl. reflexivity.
  - rewrite !strip_term_obj. f_equal.
    induction IH as [|[k x] m Hx _ IHm]; simpl; [reflexivity|].
    destruct (String.eqb k "term") eqn:Hk; [exact IHm|].
    simpl in *. rewrite Hk, Hx, IHm. reflexivity.
Qed.

(** X3.  A record without any 'term' key is its own normal form: such a
    file is compared, and sent, as it was written. *)
Theorem normalisation_keeps_term_free_records (v : json) :
  mentions_term v = false -> strip_term v = v.
Proof.
  induction v as [| b | n | s | l IH | m IH] using json_induction;
    try reflexivity.
  - simpl. intros H. f_equal.
    induction IH as [|x l Hx _ IHl]; simpl in *; [reflexivity|].
    apply orb_false_iff in H as [H1 H2]. rewrite Hx, IHl by assumption.
    reflexivity.
  - rewrite strip_term_obj, mentions_term_obj. intros H. f_equal.
    induction IH as [|[k x] m Hx _ IHm]; simpl in *; [reflexivity|].
    apply orb_false_iff in H as [H1 H3].
    apply orb_false_iff in H1 as [H1 H2].
    rewrite H1, Hx, IHm by assumption. reflexivity.
Qed.

Lemma normalisation_keeps_term_free_records_witness :
  strip_term remote_X_same = remote_X_same.
Proof.
  exact (normalisation_keeps_term_free_records remote_X_same eq_refl).
Defined.

(* ===================================================================== *)
(** * The shape of a turn of the upload loop *)
(* ===================================================================== *)

(** A body that came out of the normalisation. *)
Ltac term_free :=
  first
    [ apply strip_term_term_free
    | match goal with
      | H : strip_term ?a = ?d |- mentions_term ?d = false =>
          rewrite <- H; apply strip_term_term_free
      end ].

Ltac sent :=
  first
    [ apply sent_lookup
    | apply sent_validate; term_free
    | apply sent_create; term_free
    | apply sent_validate_update; term_free
    | apply sent_update; term_free
    | apply sent1_lookup
    | apply sent1_update; term_free
    | apply sent1_validate; term_free ].

(** The world at the end of a turn is the world at its start with more
    events. *)
Ltac more_events :=
  unfold add_events; cbn [w_trace w_HEADERS w_files w_dirs];
  rewrite <- ?app_assoc; cbn [app]; reflexivity.

Ltac all_sent :=
  cbn [requests_of flat_map app];
  repeat (constructor; [sent|]); constructor.

Ltac turn_done :=
  let H := fresh in
  intros H; inversion H; subst; clear H;
  eexists; split; [more_events|];
  split; [all_sent|];
  split; [cbn; lia|];
  let Ho := fresh in
  intros Ho; try discriminate Ho; unfold one_entry;
  first [ left; eexists; repeat split; reflexivity
        | right; left; eexists; repeat split; reflexivity
        | right; right; eexists; repeat split; reflexivity ].

Lemma V3_turn E token f l w o l' w' :
  V3.upload_file E token f l w = (o, l', w') ->
  exists t,
    w' = add_events w t /\
    Forall (sent_by_upload token (w_HEADERS w)) (requests_of t) /\
    (List.length (requests_of t) <= 3)%nat /\
    (o = Ok tt ->
     one_entry (V3.tools_ok l) (V3.tools_ok l')
               (V3.tools_ko l) (V3.tools_ko l')
               (V3.tools_unchanged l) (V3.tools_unchanged l')).
Proof.
  destruct l as [oks kos uns pd resp], w as [t H fs ds].
  unfold V3.upload_file, V3.update_tool, V3.validate_tool, V3.upload_tool.
  crunch; turn_done.
Qed.

Lemma V2_turn E token f l w o l' w' :
  V2.upload_file E token f l w = (o, l', w') ->
  exists t,
    w' = add_events w t /\
    Forall (sent_by_upload token (w_HEADERS w)) (requests_of t) /\
    (List.length (requests_of t) <= 3)%nat /\
    (o = Ok tt ->
     one_entry (V2.tools_ok l) (V2.tools_ok l')
               (V2.tools_ko l) (V2.tools_ko l')
               (V2.tools_unchanged l) (V2.tools_unchanged l')).
Proof.
  destruct l as [oks kos uns pd resp], w as [t H fs ds].
  unfold V2.upload_file, V2.update_tool, V2.validate_update_tool,
    V2.validate_upload_tool, V2.upload_tool.
  crunch; turn_done.
Qed.

Lemma sent_by_upload_not_delete token headers q :
  sent_by_upload token headers q -> req_method q <> DELETE.
Proof. intros []; discriminate. Qed.

Lemma one_entry_counted {A B C} (ok ok' : list A) (ko ko' : list B)
  (un un' : list C) :
  one_entry ok ok' ko ko' un un' ->
  counted ok' ko' un' = S (counted ok ko un).
Proof.
  unfold one_entry, counted.
  intros [(x & -> & -> & ->) | [(x & -> & -> & ->) | (x & -> & -> & ->)]];
    rewrite length_app; cbn; lia.
Qed.

(** The loop as a whole: more events, of the same kinds, and one more file
    counted for each turn when it runs to its end. *)
Lemma V3_loop E token fs :
  forall l w o l' w',
  for_each fs (V3.upload_file E token) l w = (o, l', w') ->
  exists t,
    w' = add_events w t /\
    Forall (sent_by_upload token (w_HEADERS w)) (requests_of t) /\
    (o = Ok tt ->
     counted (V3.tools_ok l') (V3.tools_ko l') (V3.tools_unchanged l') =
     (counted (V3.tools_ok l) (V3.tools_ko l) (V3.tools_unchanged l)
      + List.length fs)%nat).
Proof.
  induction fs as [|f fs IH]; intros l w o l' w' Hrun.
  - cbn in Hrun. injection Hrun as <- <- <-. exists [].
    rewrite add_events_nil. repeat split; [constructor | intros _; cbn; lia].
  - cbn [for_each] in Hrun. unfold bind at 1 in Hrun.
    destruct (V3.upload_file E token f l w) as [[o1 l1] w1] eqn:Hturn.
    apply V3_turn in Hturn as (t1 & -> & Hsent1 & _ & Hone).
    destruct o1 as [[]|e].
    + apply IH in Hrun as (t2 & -> & Hsent2 & Hcount).
      exists (t1 ++ t2). rewrite add_events_app. split; [reflexivity|].
      split.
      * rewrite requests_of_app. apply Forall_app. split; assumption.
      * intros Ho. rewrite (Hcount Ho), (one_entry_counted _ _ _ _ _ _ (Hone eq_refl)).
        cbn [List.length]. lia.
    + injection Hrun as <- <- <-. exists t1.
      repeat split; [assumption | discriminate].
Qed.

Lemma V2_loop E token fs :
  forall l w o l' w',
  for_each fs (V2.upload_file E token) l w = (o, l', w') ->
  exists t,
    w' = add_events w t /\
    Forall (sent_by_upload token (w_HEADERS w)) (requests_of t) /\
    (o = Ok tt ->
     counted (V2.tools_ok l') (V2.tools_ko l') (V2.tools_unchanged l') =
     (counted (V2.tools_ok l) (V2.tools_ko l) (V2.tools_unchanged l)
      + List.length fs)%nat).
Proof.
  induction fs as [|f fs IH]; intros l w o l' w' Hrun.
  - cbn in Hrun. injection Hrun as <- <- <-. exists [].
    rewrite add_events_nil. repeat split; [constructor | intros _; cbn; lia].
  - cbn [for_each] in Hrun. unfold bind at 1 in Hrun.
    destruct (V2.upload_file E token f l w) as [[o1 l1] w1] eqn:Hturn.
    apply V2_turn in Hturn as (t1 & -> & Hsent1 & _ & Hone).
    destruct o1 as [[]|e].
    + apply IH in Hrun as (t2 & -> & Hsent2 & Hcount).
      exists (t1 ++ t2). rewrite add_events_app. split; [reflexivity|].
      split.
      * rewrite requests_of_app. apply Forall_app. split; assumption.
      * intros Ho. rewrite (Hcount Ho), (one_entry_counted _ _ _ _ _ _ (Hone eq_refl)).
        cbn [List.length]. lia.
    + injection Hrun as <- <- <-. exists t1.
      repeat split; [assumption | discriminate].
Qed.

(** X4.  A turn of the upload loop, however it ends, leaves the headers of
    the module and the file system alone and only adds events; it sends at
    most three requests, each one the existence check (with the module's
    headers as they are) or a POST or PUT that carries the token and a body
    without any 'term' key; it never sends a DELETE. *)
Theorem upload_turn_only_sends_lookups_and_records
  (E : environ) (token f : string) (w : world) :
  (forall l, exists t,
     snd (V3.upload_file E token f l w) = add_events w t /\
     Forall (sent_by_upload token (w_HEADERS w)) (requests_of t) /\
     Forall (fun q => req_method q <> DELETE) (requests_of t) /\
     (List.length (requests_of t) <= 3)%nat) /\
  (forall l, exists t,
     snd (V2.upload_file E token f l w) = add_events w t /\
     Forall (sent_by_upload token (w_HEADERS w)) (requests_of t) /\
     Forall (fun q => req_method q <> DELETE) (requests_of t) /\
     (List.length (requests_of t) <= 3)%nat).
Proof.
  split; intros l.
  - destruct (V3.upload_file E token f l w) as [[o l'] w'] eqn:Hrun.
    apply V3_turn in Hrun as (t & -> & Hsent & Hlen & _).
    exists t. repeat split; try assumption.
    eapply Forall_impl; [exact Hsent|]. apply sent_by_upload_not_delete.
  - destruct (V2.upload_file E token f l w) as [[o l'] w'] eqn:Hrun.
    apply V2_turn in Hrun as (t & -> & Hsent & Hlen & _).
    exists t. repeat split; try assumption.
    eapply Forall_impl; [exact Hsent|]. apply sent_by_upload_not_delete.
Qed.

(** X5.  When the upload loop runs to its end, every file it was given is
    counted exactly once: the three lists together have grown by the number
    of files. *)
Theorem completed_loop_counts_every_file :
  (forall E token fs l w l' w',
     for_each fs (V3.upload_file E token) l w = (Ok tt, l', w') ->
     counted (V3.tools_ok l') (V3.tools_ko l') (V3.tools_unchanged l') =
     (counted (V3.tools_ok l) (V3.tools_ko l) (V3.tools_unchanged l)
      + List.length fs)%nat) /\
  (forall E token fs l w l' w',
     for_each fs (V2.upload_file E token) l w = (Ok tt, l', w') ->
     counted (V2.tools_ok l') (V2.tools_ko l') (V2.tools_unchanged l') =
     (counted (V2.tools_ok l) (V2.tools_ko l) (V2.tools_unchanged l)
      + List.length fs)%nat).
Proof.
  split; intros E token fs l w l' w' Hrun.
  - apply V3_loop in Hrun as (t & _ & _ & Hcount). exact (Hcount eq_refl).
  - apply V2_loop in Hrun as (t & _ & _ & Hcount). exact (Hcount eq_refl).
Qed.

Lemma completed_loop_counts_every_file_witness :
  (exists l' w',
     for_each ["X.biotools.json"; "noid.biotools.json"]
       (V3.upload_file registry_empty "tok") V3.new_locals world0 = (Ok tt, l', w') /\
     counted (V3.tools_ok l') (V3.tools_ko l') (V3.tools_unchanged l') = 2%nat) /\
  (exists l' w',
     for_each ["X.biotools.json"; "noid.biotools.json"]
       (V2.upload_file registry_empty "tok") V2.new_locals world0 = (Ok tt, l', w') /\
     counted (V2.tools_ok l') (V2.tools_ko l') (V2.tools_unchanged l') = 2%nat).
Proof.
  split.
  - destruct (for_each ["X.biotools.json"; "noid.biotools.json"]
                (V3.upload_file registry_empty "tok") V3.new_locals world0)
      as [[o l'] w'] eqn:Hrun.
    assert (Ho : o = Ok tt).
    { vm_compute in Hrun. injection Hrun as <- _ _. reflexivity. }
    subst o. exists l', w'. split; [reflexivity|].
    exact (proj1 completed_loop_counts_every_file registry_empty "tok"
             ["X.biotools.json"; "noid.biotools.json"] V3.new_locals world0
             l' w' Hrun).
  - destruct (for_each ["X.biotools.json"; "noid.biotools.json"]
                (V2.upload_file registry_empty "tok") V2.new_locals world0)
      as [[o l'] w'] eqn:Hrun.
    assert (Ho : o = Ok tt).
    { vm_compute in Hrun. injection Hrun as <- _ _. reflexivity. }
    subst o. exists l', w'. split; [reflexivity|].
    exact (proj2 completed_loop_counts_every_file registry_empty "tok"
             ["X.biotools.json"; "noid.biotools.json"] V2.new_locals world0
             l' w' Hrun).
Defined.

(** X6.  [run_upload] of gh2biotools3.py changes the module's [HEADERS] for
    good: whatever happens in the loop, the dictionary ends up with the
    token, and every request of the run, the existence checks included,
    carried it. *)
Theorem V3_run_upload_authenticates_everything
  (E : environ) (token : string) (fs : list string) (l : V3.locals) (w : world) :
  w_HEADERS (snd (V3.run_upload_body E token fs l w)) = Some token /\
  exists t,
    w_trace (snd (V3.run_upload_body E token fs l w)) = w_trace w ++ t /\
    Forall (fun q => req_auth q = Some token) (requests_of t).
Proof.
  destruct w as [t0 H fs0 ds].
  unfold V3.run_upload_body, V3.update_HEADERS. py.
  destruct (for_each fs (V3.upload_file E token) l
              (mkWorld t0 (Some token) fs0 ds)) as [[o l'] w'] eqn:Hrun.
  apply V3_loop in Hrun as (t & -> & Hsent & _).
  assert (Hauth : Forall (fun q => req_auth q = Some token) (requests_of t)).
  { eapply Forall_impl; [exact Hsent|]. intros q []; reflexivity. }
  unfold add_events. cbn [w_trace w_HEADERS w_files w_dirs].
  destruct o as [[]|e]; [destruct l'|]; py; cbn [snd w_trace w_HEADERS].
  - split; [reflexivity|]. eexists. rewrite <- !app_assoc. split; [reflexivity|].
    rewrite requests_of_app. cbn. rewrite app_nil_r. exact Hauth.
  - split; [reflexivity|]. exists t. split; [reflexivity | exact Hauth].
Qed.

(* ===================================================================== *)
(** * More turns of the upload loop *)
(* ===================================================================== *)

(** X7.  A record with identifier [s] whose existence check is answered
    with a status that is neither 200 nor 404 (401, 403, 500, ...): the
    turn ends normally with a failure for [s] (with the text of the
    response in gh2biotools3.py), the other lists are as before, and the
    check is the only request. *)
Theorem other_status_is_failure :
  (forall E token f m s r l w,
     load_json E f = Ok (JObj m) ->
     assoc "biotoolsID" m = Some (JStr s) ->
     s <> "" ->
     net E (lookup_history3 w f) (lookup w s) = Ok r ->
     status_code r <> 200 ->
     status_code r <> 404 ->
     exists l' w',
       V3.upload_file E token f l w = (Ok tt, l', w') /\
       V3.tools_ko l' = V3.tools_ko l ++ [(JStr s, text r)] /\
       V3.tools_ok l' = V3.tools_ok l /\
       V3.tools_unchanged l' = V3.tools_unchanged l /\
       requests_of (w_trace w') = requests_of (w_trace w) ++ [lookup w s]) /\
  (forall E token f m s r l w,
     load_json E f = Ok (JObj m) ->
     assoc "biotoolsID" m = Some (JStr s) ->
     s <> "" ->
     net E (lookup_history2 w f) (lookup w s) = Ok r ->
     status_code r <> 200 ->
     status_code r <> 404 ->
     exists l' w',
       V2.upload_file E token f l w = (Ok tt, l', w') /\
       V2.tools_ko l' = V2.tools_ko l ++ [JStr s] /\
       V2.tools_ok l' = V2.tools_ok l /\
       V2.tools_unchanged l' = V2.tools_unchanged l /\
       requests_of (w_trace w') = requests_of (w_trace w) ++ [lookup w s]).
Proof.
  split.
  { intros E token f m s r l w Hload Hid Hs Hnet H200 H404.
    apply get_id_string in Hid. apply truthy_nonempty in Hs.
    apply Z.eqb_neq in H200, H404.
    destruct l as [oks kos uns pd resp], w as [t H fs ds].
    unfold lookup_history3, lookup in *. cbn [w_trace w_HEADERS] in *.
    unfold V3.upload_file. py. rewrite Hload. py.
    rewrite strip_term_obj. py. rewrite Hid, Hs. py.
    rewrite Hnet. py. rewrite H200, H404. py.
    do 2 eexists. split; [reflexivity|]. py. repeat split. requests. }
  { intros E token f m s r l w Hload Hid Hs Hnet H200 H404.
    apply get_id_string in Hid. apply truthy_nonempty in Hs.
    apply Z.eqb_neq in H200, H404.
    destruct l as [oks kos uns pd resp], w as [t H fs ds].
    unfold lookup_history2, lookup in *. cbn [w_trace w_HEADERS] in *.
    unfold V2.upload_file. py. rewrite Hload. py.
    rewrite strip_term_obj. py. rewrite Hid, Hs. py.
    rewrite Hnet. py. rewrite H200, H404. py.
    do 2 eexists. split; [reflexivity|]. py. repeat split. requests. }
Qed.

(** A registry that answers the existence check with 401. *)
Lemma other_status_is_failure_witness :
  (exists l' w',
     V3.upload_file registry_unauthorized "tok" "X.biotools.json"
       V3.new_locals world0 = (Ok tt, l', w') /\
     V3.tools_ko l' = [(JStr "X", "Invalid token.")] /\
     V3.tools_ok l' = [] /\
     V3.tools_unchanged l' = [] /\
     requests_of (w_trace w') = [lookup world0 "X"]) /\
  (exists l' w',
     V2.upload_file registry_unauthorized "tok" "X.biotools.json"
       V2.new_locals world0 = (Ok tt, l', w') /\
     V2.tools_ko l' = [JStr "X"] /\
     V2.tools_ok l' = [] /\
     V2.tools_unchanged l' = [] /\
     requests_of (w_trace w') = [lookup world0 "X"]).
Proof.
  split.
  - exact (proj1 other_status_is_failure registry_unauthorized
             "tok" "X.biotools.json" items_X "X"
             (mkResponse 401 "Invalid token." None) V3.new_locals world0
             eq_refl eq_refl X_is_not_empty eq_refl
             ltac:(discriminate) ltac:(discriminate)).
  - exact (proj2 other_status_is_failure registry_unauthorized
             "tok" "X.biotools.json" items_X "X"
             (mkResponse 401 "Invalid token." None) V2.new_locals world0
             eq_refl eq_refl X_is_not_empty eq_refl
             ltac:(discriminate) ltac:(discriminate)).
Defined.

(** X8.  A local file that holds JSON of another kind than an object (a
    list, a string, a number, ...) does not end in the failure list: the
    handler itself raises while it looks for the identifier, and the
    exception leaves the turn; nothing was sent and no list has changed. *)
Theorem non_object_file_ends_the_run :
  (forall E token f v l w,
     load_json E f = Ok v ->
     is_object v = false ->
     exists cls msg l' w',
       V3.upload_file E token f l w = (Raise (Exception cls msg), l', w') /\
       V3.tools_ok l' = V3.tools_ok l /\
       V3.tools_ko l' = V3.tools_ko l /\
       V3.tools_unchanged l' = V3.tools_unchanged l /\
       requests_of (w_trace w') = requests_of (w_trace w)) /\
  (forall E token f v l w,
     load_json E f = Ok v ->
     is_object v = false ->
     exists cls msg l' w',
       V2.upload_file E token f l w = (Raise (Exception cls msg), l', w') /\
       V2.tools_ok l' = V2.tools_ok l /\
       V2.tools_ko l' = V2.tools_ko l /\
       V2.tools_unchanged l' = V2.tools_unchanged l /\
       requests_of (w_trace w') = requests_of (w_trace w)).
Proof.
  split.
  { intros E token f v l w Hload Hv.
    destruct l as [oks kos uns pd resp], w as [t H fs ds].
    unfold V3.upload_file. py. rewrite Hload.
    destruct v as [| b | n | s | vs | m]; try discriminate Hv; py;
      (do 4 eexists; split; [reflexivity|]; py; repeat split; requests). }
  { intros E token f v l w Hload Hv.
    destruct l as [oks kos uns pd resp], w as [t H fs ds].
    unfold V2.upload_file. py. rewrite Hload.
    destruct v as [| b | n | s | vs | m]; try discriminate Hv; py;
      (do 4 eexists; split; [reflexivity|]; py; repeat split; requests). }
Qed.

Lemma non_object_file_ends_the_run_witness :
  (exists cls msg l' w',
     V3.upload_file files_hold_lists "tok" "X.biotools.json" V3.new_locals world0
       = (Raise (Exception cls msg), l', w') /\
     V3.tools_ok l' = [] /\
     V3.tools_ko l' = [] /\
     V3.tools_unchanged l' = [] /\
     requests_of (w_trace w') = []) /\
  (exists cls msg l' w',
     V2.upload_file files_hold_lists "tok" "X.biotools.json" V2.new_locals world0
       = (Raise (Exception cls msg), l', w') /\
     V2.tools_ok l' = [] /\
     V2.tools_ko l' = [] /\
     V2.tools_unchanged l' = [] /\
     requests_of (w_trace w') = []).
Proof.
  split.
  - exact (proj1 non_object_file_ends_the_run files_hold_lists
             "tok" "X.biotools.json" (JList [tool_X]) V3.new_locals world0
             eq_refl eq_refl).
  - exact (proj2 non_object_file_ends_the_run files_hold_lists
             "tok" "X.biotools.json" (JList [tool_X]) V2.new_locals world0
             eq_refl eq_refl).
Defined.

(** X9.  A record with identifier [s] whose existence check raises (no
    connection, time out, ...; any exception but an [HTTPError]): the
    exception stays in the turn, which ends normally with a failure for [s]
    (with the text of the exception in gh2biotools3.py); the other lists
    are as before and nothing else is sent. *)
Theorem failed_lookup_is_contained :
  (forall E token f m s e l w,
     load_json E f = Ok (JObj m) ->
     assoc "biotoolsID" m = Some (JStr s) ->
     s <> "" ->
     net E (lookup_history3 w f) (lookup w s) = Raise e ->
     is_Exception e = true ->
     is_HTTPError e = false ->
     exists l' w',
       V3.upload_file E token f l w = (Ok tt, l', w') /\
       V3.tools_ko l' = V3.tools_ko l ++ [(JStr s, exn_str e)] /\
       V3.tools_ok l' = V3.tools_ok l /\
       V3.tools_unchanged l' = V3.tools_unchanged l /\
       requests_of (w_trace w') = requests_of (w_trace w) ++ [lookup w s]) /\
  (forall E token f m s e l w,
     load_json E f = Ok (JObj m) ->
     assoc "biotoolsID" m = Some (JStr s) ->
     s <> "" ->
     net E (lookup_history2 w f) (lookup w s) = Raise e ->
     is_Exception e = true ->
     is_HTTPError e = false ->
     exists l' w',
       V2.upload_file E token f l w = (Ok tt, l', w') /\
       V2.tools_ko l' = V2.tools_ko l ++ [JStr s] /\
       V2.tools_ok l' = V2.tools_ok l /\
       V2.tools_unchanged l' = V2.tools_unchanged l /\
       requests_of (w_trace w') = requests_of (w_trace w) ++ [lookup w s]).
Proof.
  split.
  { intros E token f m s e l w Hload Hid Hs Hnet He Hh.
    apply get_id_string in Hid. apply truthy_nonempty in Hs.
    destruct l as [oks kos uns pd resp], w as [t H fs ds].
    unfold lookup_history3, lookup in *. cbn [w_trace w_HEADERS] in *.
    unfold V3.upload_file. py. rewrite Hload. py.
    rewrite strip_term_obj. py. rewrite Hid, Hs. py. rewrite Hnet.
    destruct e as [msg r0|msg|cls msg|code]; try discriminate; py;
      rewrite ?Hid; py;
      (do 2 eexists; split; [reflexivity|]; py; repeat split; requests). }
  { intros E token f m s e l w Hload Hid Hs Hnet He Hh.
    apply get_id_string in Hid. apply truthy_nonempty in Hs.
    destruct l as [oks kos uns pd resp], w as [t H fs ds].
    unfold lookup_history2, lookup in *. cbn [w_trace w_HEADERS] in *.
    unfold V2.upload_file. py. rewrite Hload. py.
    rewrite strip_term_obj. py. rewrite Hid, Hs. py. rewrite Hnet.
    destruct e as [msg r0|msg|cls msg|code]; try discriminate; py;
      rewrite ?Hid; py;
      (do 2 eexists; split; [reflexivity|]; py; repeat split; requests). }
Qed.

Lemma failed_lookup_is_contained_witness :
  (exists l' w',
     V3.upload_file registry_offline "tok" "X.biotools.json" V3.new_locals world0
       = (Ok tt, l', w') /\
     V3.tools_ko l' = [(JStr "X", "Connection refused")] /\
     V3.tools_ok l' = [] /\
     V3.tools_unchanged l' = [] /\
     requests_of (w_trace w') = [lookup world0 "X"]) /\
  (exists l' w',
     V2.upload_file registry_offline "tok" "X.biotools.json" V2.new_locals world0
       = (Ok tt, l', w') /\
     V2.tools_ko l' = [JStr "X"] /\
     V2.tools_ok l' = [] /\
     V2.tools_unchanged l' = [] /\
     requests_of (w_trace w') = [lookup world0 "X"]).
Proof.
  split.
  - exact (proj1 failed_lookup_is_contained registry_offline
             "tok" "X.biotools.json" items_X "X"
             (RequestException "Connection refused") V3.new_locals world0
             eq_refl eq_refl X_is_not_empty eq_refl eq_refl eq_refl).
  - exact (proj2 failed_lookup_is_contained registry_offline
             "tok" "X.biotools.json" items_X "X"
             (RequestException "Connection refused") V2.new_locals world0
             eq_refl eq_refl X_is_not_empty eq_refl eq_refl eq_refl).
Defined.

(* ===================================================================== *)
(** * The scripts as a whole *)
(* ===================================================================== *)

(** The upload of gh2biotools2.py, seen from its caller. *)
Lemma V2_run_upload_run E token fs (L : Type) (g : L) w o g1 w1 :
  V2.run_upload E token fs g w = (o, g1, w1) ->
  g1 = g /\
  exists t,
    w1 = add_events w t /\
    Forall (sent_by_upload token (w_HEADERS w)) (requests_of t).
Proof.
  unfold V2.run_upload, call, V2.run_upload_body. unfold bind at 1.
  destruct (for_each fs (V2.upload_file E token) V2.new_locals w)
    as [[o1 l1] w2] eqn:Hloop.
  apply V2_loop in Hloop as (t & -> & Hsent & _).
  destruct l1 as [oks kos uns pd resp], w as [t0 H fs0 ds].
  destruct o1 as [[]|e]; py.
  - destruct kos; cbn [nonempty]; py;
      (intros Heq; injection Heq as <- <- <-; split; [reflexivity|];
       eexists (t ++ [_; _; _; _]); split;
       [ unfold add_events; cbn [w_trace w_HEADERS w_files w_dirs];
         rewrite <- ?app_assoc; reflexivity
       | rewrite requests_of_app; cbn; rewrite app_nil_r; exact Hsent ]).
  - intros Heq; injection Heq as <- <- <-. split; [reflexivity|].
    exists t. split; [reflexivity | exact Hsent].
Qed.

(** The upload of gh2biotools3.py, seen from its caller. *)
Lemma V3_run_upload_run E token fs (L : Type) (g : L) w o g1 w1 :
  V3.run_upload E token fs g w = (o, g1, w1) ->
  g1 = g /\
  exists t,
    w_trace w1 = w_trace w ++ t /\
    Forall (sent_by_upload token (Some token)) (requests_of t).
Proof.
  unfold V3.run_upload, call, V3.run_upload_body, V3.update_HEADERS.
  unfold bind at 1. destruct w as [t0 H fs0 ds]. cbn [w_trace w_files w_dirs].
  unfold bind at 1.
  destruct (for_each fs (V3.upload_file E token) V3.new_locals
              (mkWorld t0 (Some token) fs0 ds)) as [[o1 l1] w2] eqn:Hloop.
  apply V3_loop in Hloop as (t & -> & Hsent & _).
  cbn [w_HEADERS] in Hsent.
  destruct l1 as [oks kos uns pd resp].
  destruct o1 as [[]|e]; py.
  - intros Heq; injection Heq as <- <- <-; split; [reflexivity|].
    eexists (t ++ [_; _; _; _]); split;
      [ rewrite <- ?app_assoc; reflexivity
      | rewrite requests_of_app; cbn; rewrite app_nil_r; exact Hsent ].
  - intros Heq; injection Heq as <- <- <-. split; [reflexivity|].
    exists t. split; [reflexivity | exact Hsent].
Qed.

(** The end of [run_upload] in gh2biotools2.py after a loop that ran to its
    end. *)
Lemma V2_run_upload_completed E token fs (L : Type) (g : L) w l1 w1 :
  for_each fs (V2.upload_file E token) V2.new_locals w = (Ok tt, l1, w1) ->
  exists w2,
    V2.run_upload E token fs g w =
      (if nonempty (V2.tools_ko l1) then Raise (SystemExit 1) else Ok tt, g, w2).
Proof.
  intros Hloop. unfold V2.run_upload, call, V2.run_upload_body.
  unfold bind at 1. rewrite Hloop.
  destruct l1 as [oks kos uns pd resp], w1 as [t H fs1 ds]. py.
  destruct kos; cbn [nonempty]; py; eexists; reflexivity.
Qed.

(** X10.  gh2biotools2.py, when its upload loop runs to its end: with a
    failure in the list the script ends there, with exit status 1,
    whatever paths were to be deleted; with no failure and nothing to
    delete it ends with status 0. *)
Theorem V2_exit_status_tells_failures
  (E : environ) (a : args) (w : world) (l1 : V2.locals) (w1 : world) :
  nonempty (files a) = true ->
  for_each (files a) (V2.upload_file E (token a)) V2.new_locals w = (Ok tt, l1, w1) ->
  (V2.tools_ko l1 <> [] ->
   fst (V2.run_script E a w) = Raise (SystemExit 1) /\
   exit_code (fst (V2.run_script E a w)) = 1) /\
  (V2.tools_ko l1 = [] -> deleted a = [] ->
   fst (V2.run_script E a w) = Ok tt /\
   exit_code (fst (V2.run_script E a w)) = 0).
Proof.
  intros Hfiles Hloop.
  destruct (V2_run_upload_completed E (token a) (files a) _ V2.module_globals
              w l1 w1 Hloop) as [w2 Hup].
  unfold V2.run_script, V2.main. rewrite Hfiles. unfold bind. rewrite Hup.
  split.
  - intros Hko. destruct (V2.tools_ko l1); [contradiction|].
    cbn. split; reflexivity.
  - intros -> ->. cbn. split; reflexivity.
Qed.

Lemma V2_exit_status_tells_failures_witness :
  (fst (V2.run_script registry_empty_refusing
          (mkArgs "tok" ["X.biotools.json"] ["data/Y/Y.biotools.json"]) world0)
     = Raise (SystemExit 1) /\
   exit_code (fst (V2.run_script registry_empty_refusing
          (mkArgs "tok" ["X.biotools.json"] ["data/Y/Y.biotools.json"]) world0))
     = 1) /\
  (fst (V2.run_script registry_empty
          (mkArgs "tok" ["X.biotools.json"] []) world0) = Ok tt /\
   exit_code (fst (V2.run_script registry_empty
          (mkArgs "tok" ["X.biotools.json"] []) world0)) = 0).
Proof.
  split.
  - refine (proj1 (V2_exit_status_tells_failures registry_empty_refusing
                     (mkArgs "tok" ["X.biotools.json"] ["data/Y/Y.biotools.json"])
                     world0
                     (snd (fst (for_each ["X.biotools.json"]
                                  (V2.upload_file registry_empty_refusing "tok")
                                  V2.new_locals world0)))
                     (snd (for_each ["X.biotools.json"]
                             (V2.upload_file registry_empty_refusing "tok")
                             V2.new_locals world0))
                     eq_refl _) _).
    + vm_compute. reflexivity.
    + vm_compute. discriminate.
  - refine (proj2 (V2_exit_status_tells_failures registry_empty
                     (mkArgs "tok" ["X.biotools.json"] [])
                     world0
                     (snd (fst (for_each ["X.biotools.json"]
                                  (V2.upload_file registry_empty "tok")
                                  V2.new_locals world0)))
                     (snd (for_each ["X.biotools.json"]
                             (V2.upload_file registry_empty "tok")
                             V2.new_locals world0))
                     eq_refl _) _ eq_refl).
    + vm_compute. reflexivity.
    + vm_compute. reflexivity.
Defined.

(** X11.  In both scripts an exception that leaves [run_upload] (the
    [SystemExit] of gh2biotools2.py after a failure, or whatever a turn of
    the loop did not contain) ends the script at once: the paths to delete
    are never looked at, and no DELETE request is sent. *)
Theorem failed_upload_skips_deletions (E : environ) (a : args) (w : world) :
  nonempty (files a) = true ->
  (forall e,
     fst (fst (V2.run_upload E (token a) (files a) V2.module_globals w)) = Raise e ->
     fst (V2.run_script E a w) = Raise e /\
     exists t,
       w_trace (snd (V2.run_script E a w)) = w_trace w ++ t /\
       Forall (fun q => req_method q <> DELETE) (requests_of t)) /\
  (forall e,
     fst (fst (V3.run_upload E (token a) (files a) V3.module_globals w)) = Raise e ->
     fst (V3.run_script E a w) = Raise e /\
     exists t,
       w_trace (snd (V3.run_script E a w)) = w_trace w ++ t /\
       Forall (fun q => req_method q <> DELETE) (requests_of t)).
Proof.
  intros Hfiles. split.
  - intros e Ho.
    destruct (V2.run_upload E (token a) (files a) V2.module_globals w)
      as [[o g1] w1] eqn:Hrun.
    cbn [fst] in Ho. subst o.
    unfold V2.run_script, V2.main. rewrite Hfiles. unfold bind.
    rewrite Hrun. cbn [fst snd]. split; [reflexivity|].
    apply V2_run_upload_run in Hrun as (_ & t & -> & Hsent).
    exists t. split; [reflexivity|].
    induction Hsent as [|q qs Hq _ IH]; constructor;
      [exact (sent_by_upload_not_delete _ _ _ Hq) | exact IH].
  - intros e Ho.
    destruct (V3.run_upload E (token a) (files a) V3.module_globals w)
      as [[o g1] w1] eqn:Hrun.
    cbn [fst] in Ho. subst o.
    unfold V3.run_script, V3.main. rewrite Hfiles. unfold bind.
    rewrite Hrun. cbn [fst snd]. split; [reflexivity|].
    apply V3_run_upload_run in Hrun as (_ & t & Ht & Hsent).
    exists t. split; [exact Ht|].
    induction Hsent as [|q qs Hq _ IH]; constructor;
      [exact (sent_by_upload_not_delete _ _ _ Hq) | exact IH].
Qed.

Lemma failed_upload_skips_deletions_witness :
  fst (V2.run_script registry_empty_refusing
         (mkArgs "tok" ["X.biotools.json"] ["data/Y/Y.biotools.json"]) world0)
    = Raise (SystemExit 1) /\
  exists t,
    w_trace (snd (V2.run_script registry_empty_refusing
                    (mkArgs "tok" ["X.biotools.json"] ["data/Y/Y.biotools.json"])
                    world0)) = w_trace world0 ++ t /\
    Forall (fun q => req_method q <> DELETE) (requests_of t).
Proof.
  refine (proj1 (failed_upload_skips_deletions registry_empty_refusing
                   (mkArgs "tok" ["X.biotools.json"] ["data/Y/Y.biotools.json"])
                   world0 eq_refl)
                (SystemExit 1) _).
  vm_compute. reflexivity.
Defined.

(** X12.  gh2biotools3.py never ends normally, on any command line and
    with any registry: its main block ends in an exception (at the latest
    the [NameError] of [tools_ko]), and the files are as they were when it
    started, so that no failure report is ever written. *)
Theorem V3_script_always_ends_in_an_exception
  (E : environ) (a : args) (w : world) :
  exists e w',
    V3.run_script E a w = (Raise e, w') /\
    w_files w' = w_files w /\
    (w_files w !! "upload_failure_report.txt" = None ->
     w_files w' !! "upload_failure_report.txt" = None).
Proof.
  destruct (V3_main_never_reports E a w) as (e & g' & w' & Hrun & Hw).
  exists e, w'. unfold V3.run_script. rewrite Hrun.
  split; [reflexivity|]. split; [exact Hw|]. rewrite Hw. auto.
Qed.

(** X13.  A local file that cannot be read or parsed ([json.load] raises
    an exception of class [Exception]): its handler looks the identifier up
    in [payload_dict], which still holds what the turn before left there.
    With nothing left there the handler itself raises, and the exception
    leaves the turn; with the record of an earlier file, the failure is
    recorded under the identifier of that file (under "UNKNOWN", in
    gh2biotools2.py, when it has none).  No request is sent. *)
Theorem unreadable_file_is_filed_under_stale_record
  (E : environ) (token f cls msg : string) (w : world) :
  load_json E f = Raise (Exception cls msg) ->
  (forall l, V3.payload_dict l = None ->
     exists w',
       V3.upload_file E token f l w =
         (Raise (Exception "UnboundLocalError" "payload_dict"), l, w') /\
       requests_of (w_trace w') = requests_of (w_trace w)) /\
  (forall l, V2.payload_dict l = None ->
     exists w',
       V2.upload_file E token f l w =
         (Raise (Exception "UnboundLocalError" "payload_dict"), l, w') /\
       requests_of (w_trace w') = requests_of (w_trace w)) /\
  (forall l m id, V3.payload_dict l = Some (JObj m) ->
     assoc "biotoolsID" m = Some id ->
     exists l' w',
       V3.upload_file E token f l w = (Ok tt, l', w') /\
       V3.tools_ko l' = V3.tools_ko l ++ [(id, msg)] /\
       V3.tools_ok l' = V3.tools_ok l /\
       V3.tools_unchanged l' = V3.tools_unchanged l /\
       requests_of (w_trace w') = requests_of (w_trace w)) /\
  (forall l m, V2.payload_dict l = Some (JObj m) ->
     exists l' w',
       V2.upload_file E token f l w = (Ok tt, l', w') /\
       V2.tools_ko l' =
         V2.tools_ko l ++ [default (JStr "UNKNOWN") (assoc "biotoolsID" m)] /\
       V2.tools_ok l' = V2.tools_ok l /\
       V2.tools_unchanged l' = V2.tools_unchanged l /\
       requests_of (w_trace w') = requests_of (w_trace w)).
Proof.
  intros Hload. destruct w as [t H fs ds]. repeat split.
  - intros [oks kos uns pd resp] Hpd. cbn in Hpd. subst pd.
    unfold V3.upload_file. py. rewrite Hload. py.
    eexists. split; [reflexivity|]. py. requests.
  - intros [oks kos uns pd resp] Hpd. cbn in Hpd. subst pd.
    unfold V2.upload_file. py. rewrite Hload. py.
    eexists. split; [reflexivity|]. py. requests.
  - intros [oks kos uns pd resp] m id Hpd Hid. cbn in Hpd. subst pd.
    unfold V3.upload_file. py. rewrite Hload. py. rewrite Hid. py.
    do 2 eexists. split; [reflexivity|]. py. repeat split. requests.
  - intros [oks kos uns pd resp] m Hpd. cbn in Hpd. subst pd.
    unfold V2.upload_file. py. rewrite Hload. py.
    do 2 eexists. split; [reflexivity|]. py. repeat split. requests.
Qed.

Lemma unreadable_file_is_filed_under_stale_record_witness :
  (exists w',
     V3.upload_file registry_empty "tok" "bad.biotools.json" V3.new_locals world0 =
       (Raise (Exception "UnboundLocalError" "payload_dict"), V3.new_locals, w') /\
     requests_of (w_trace w') = requests_of (w_trace world0)) /\
  (exists l' w',
     V3.upload_file registry_empty "tok" "bad.biotools.json"
       (V3.mkLocals [JStr "X"] [] [] (Some tool_X) None) world0 = (Ok tt, l', w') /\
     V3.tools_ko l' = [(JStr "X", "Expecting value: line 1 column 1 (char 0)")]).
Proof.
  destruct (unreadable_file_is_filed_under_stale_record registry_empty
              "tok" "bad.biotools.json" "JSONDecodeError"
              "Expecting value: line 1 column 1 (char 0)" world0 eq_refl)
    as (H3 & _ & H3' & _).
  split.
  - exact (H3 V3.new_locals eq_refl).
  - destruct (H3' (V3.mkLocals [JStr "X"] [] [] (Some tool_X) None)
                items_X (JStr "X") eq_refl eq_refl)
      as (l' & w' & Hrun & Hko & _).
    exists l', w'. split; [exact Hrun | exact Hko].
Defined.

(* ===================================================================== *)
(** * More about deletions *)
(* ===================================================================== *)

Lemma contains_app c a b :
  contains c (a ++ b)%string = contains c a || contains c b.
Proof.
  induction a as [|x a IH]; simpl; [reflexivity|].
  rewrite IH. apply orb_assoc.
Qed.

Lemma after_last_app c a b :
  contains c b = false -> after_last c (a ++ String c b)%string = b.
Proof.
  intros Hb. induction a as [|x a IH]; simpl.
  - rewrite Hb, Ascii.eqb_refl. reflexivity.
  - rewrite contains_app. simpl. rewrite Ascii.eqb_refl, orb_true_r. exact IH.
Qed.

Lemma before_first_app c a b :
  contains c a = false -> before_first c (a ++ String c b)%string = a.
Proof.
  induction a as [|x a IH]; simpl.
  - intros _. rewrite Ascii.eqb_refl. reflexivity.
  - intros H. apply orb_false_elim in H as [Hx Ha].
    rewrite Hx, (IH Ha). reflexivity.
Qed.

(** X14.  The identifier of a deleted file: for a path
    [<dir>/<id>.<rest>] whose [<id>] has neither a slash nor a dot, and
    whose [<rest>] has no slash, it is [<id>], and the turn of the deletion
    loop sends its one request, a DELETE with the token, to the URL of the
    tool [<id>], whatever the answer. *)
Theorem deletion_targets_the_file_stem
  (E : environ) (token dir id rest : string) (g : gmap string pyobj) (w : world) :
  contains "/" id = false ->
  contains "." id = false ->
  contains "/" rest = false ->
  deleted_id (dir ++ "/" ++ id ++ "." ++ rest) = id /\
  requests_of (w_trace (snd (V3.delete_file E token
                               (dir ++ "/" ++ id ++ "." ++ rest) g w))) =
    requests_of (w_trace w) ++ [delete_request token id] /\
  requests_of (w_trace (snd (V2.delete_file E token
                               (dir ++ "/" ++ id ++ "." ++ rest) g w))) =
    requests_of (w_trace w) ++ [delete_request token id].
Proof.
  intros Hslash Hdot Hrest.
  assert (Hid : before_first "." (basename (dir ++ "/" ++ id ++ "." ++ rest)) = id).
  { unfold basename.
    change (dir ++ "/" ++ id ++ "." ++ rest)%string
      with (dir ++ String "/" (id ++ String "." rest))%string.
    rewrite after_last_app.
    - apply before_first_app. exact Hdot.
    - rewrite contains_app. simpl. rewrite Hslash, Hrest. reflexivity. }
  split; [exact Hid|].
  destruct w as [t H fs ds].
  split.
  - unfold V3.delete_file, store_name. py. rewrite Hid.
    rewrite V3_delete_tool_run. cbn [w_trace].
    match goal with
    | |- context [match net E ?h ?q with _ => _ end] => destruct (net E h q) as [r|e]
    end; cbn [snd w_trace add_events]; rewrite <- ?app_assoc, ?requests_of_app;
      cbn [requests_of flat_map app]; unfold delete_log;
      try (destruct (status_code r =? 204); [|destruct (status_code r =? 404)]);
      cbn; rewrite ?app_nil_r; reflexivity.
  - unfold V2.delete_file, store_name. py. rewrite Hid.
    rewrite V2_delete_tool_run. cbn [w_trace].
    match goal with
    | |- context [match net E ?h ?q with _ => _ end] => destruct (net E h q) as [r|e]
    end; cbn [snd w_trace add_events]; rewrite <- ?app_assoc, ?requests_of_app;
      cbn [requests_of flat_map app]; unfold delete_log;
      try (destruct (status_code r =? 204); [|destruct (status_code r =? 404)]);
      cbn; rewrite ?app_nil_r; reflexivity.
Qed.

Lemma deletion_targets_the_file_stem_witness :
  deleted_id "data/Y/Y.biotools.json" = "Y" /\
  requests_of (w_trace (snd (V3.delete_file registry_empty "tok"
                               "data/Y/Y.biotools.json" V3.module_globals world0))) =
    [delete_request "tok" "Y"] /\
  requests_of (w_trace (snd (V2.delete_file registry_empty "tok"
                               "data/Y/Y.biotools.json" V2.module_globals world0))) =
    [delete_request "tok" "Y"].
Proof.
  exact (deletion_targets_the_file_stem registry_empty "tok" "data/Y" "Y"
           "biotools.json" V3.module_globals world0 eq_refl eq_refl eq_refl).
Defined.

(** X15.  A DELETE that raises (no connection, ...) is not contained: the
    exception leaves the deletion loop at that path, nothing is logged for
    it, and the paths after it are never tried. *)
Theorem deletion_loop_stops_at_first_error
  (E : environ) (token p : string) (ps : list string) (e : exn)
  (g : gmap string pyobj) (w : world) :
  net E (w_trace w ++ [ELog INFO (Fmt "Deleting tool {}..." [JStr (deleted_id p)])])
        (delete_request token (deleted_id p)) = Raise e ->
  (exists g',
     for_each (p :: ps) (V3.delete_file E token) g w =
       (Raise e, g',
        add_events w
          [ELog INFO (Fmt "Deleting tool {}..." [JStr (deleted_id p)]);
           ERequest (delete_request token (deleted_id p))])) /\
  (exists g',
     for_each (p :: ps) (V2.delete_file E token) g w =
       (Raise e, g',
        add_events w
          [ELog INFO (Fmt "Deleting tool {}..." [JStr (deleted_id p)]);
           ERequest (delete_request token (deleted_id p))])).
Proof.
  intros Hnet. destruct w as [t H fs ds]. cbn [w_trace] in Hnet.
  split.
  - cbn [for_each]. unfold V3.delete_file, store_name, deleted_id in *. py.
    rewrite V3_delete_tool_run. cbn [w_trace]. rewrite Hnet.
    eexists. unfold add_events. cbn [w_trace w_HEADERS w_files w_dirs].
    rewrite <- ?app_assoc. reflexivity.
  - cbn [for_each]. unfold V2.delete_file, store_name, deleted_id in *. py.
    rewrite V2_delete_tool_run. cbn [w_trace]. rewrite Hnet.
    eexists. unfold add_events. cbn [w_trace w_HEADERS w_files w_dirs].
    rewrite <- ?app_assoc. reflexivity.
Qed.

Lemma deletion_loop_stops_at_first_error_witness :
  exists g',
    for_each ["data/Y/Y.biotools.json"; "data/Z/Z.biotools.json"]
      (V3.delete_file registry_offline "tok") V3.module_globals world0 =
      (Raise (RequestException "Connection refused"), g',
       add_events world0
         [ELog INFO (Fmt "Deleting tool {}..." [JStr "Y"]);
          ERequest (delete_request "tok" "Y")]).
Proof.
  exact (proj1 (deletion_loop_stops_at_first_error registry_offline "tok"
                  "data/Y/Y.biotools.json" ["data/Z/Z.biotools.json"]
                  (RequestException "Connection refused")
                  V3.module_globals world0 eq_refl)).
Defined.

(* ===================================================================== *)
(** * The failure report *)
(* ===================================================================== *)

(** The characters of a text, put together again, are the text. *)
Lemma split_at_spec n s :
  (fst (split_at n s) ++ snd (split_at n s))%string = s /\
  (String.length (fst (split_at n s)) = n \/ snd (split_at n s) = "") /\
  (String.length (snd (split_at n s)) <= String.length s)%nat.
Proof.
  revert s. induction n as [|n IH]; intros [|a r]; cbn [split_at].
  - repeat split; auto.
  - repeat split; auto.
  - repeat split; auto.
  - destruct (IH r) as (Happ & Hlen & Hle).
    destruct (split_at n r) as [x y]. cbn [fst snd] in *.
    split; [change (String a (x ++ y) = String a r)%string; congruence|].
    split; [|cbn [String.length]; lia].
    destruct Hlen as [Hlen|Hlen]; [left; cbn [String.length]; lia | right; exact Hlen].
Qed.

Lemma split_at_exact x y :
  split_at (String.length x) (x ++ y) = (x, y).
Proof.
  induction x as [|a x IH]; [destruct y; reflexivity|].
  change (split_at (S (String.length x)) (String a (x ++ y)) = (String a x, y)).
  cbn [split_at]. rewrite IH. reflexivity.
Qed.

Lemma split_at_short n x :
  (String.length x <= n)%nat -> split_at n x = (x, "").
Proof.
  revert x. induction n as [|n IH]; intros [|a x] Hlen; try reflexivity.
  - cbn [String.length] in Hlen. lia.
  - cbn [split_at]. rewrite IH by (cbn [String.length] in Hlen; lia). reflexivity.
Qed.

Lemma string_length_app (a b : string) :
  String.length (a ++ b) = (String.length a + String.length b)%nat.
Proof.
  induction a as [|c a IH]; [reflexivity|].
  change (S (String.length (a ++ b)) = S (String.length a + String.length b)).
  rewrite IH. reflexivity.
Qed.

(** More fuel than the text is long changes nothing. *)
Lemma characters_from_fuel f1 :
  forall f2 s,
  (String.length s <= f1)%nat -> (String.length s <= f2)%nat ->
  characters_from f1 s = characters_from f2 s.
Proof.
  induction f1 as [|f1 IH]; intros f2 s H1 H2.
  - destruct s; [destruct f2; reflexivity | cbn [String.length] in H1; lia].
  - destruct s as [|a r]; [destruct f2; reflexivity|].
    destruct f2 as [|f2]; [cbn [String.length] in H2; lia|].
    cbn [characters_from String.length] in *.
    destruct (split_at_spec (utf8_length a - 1) r) as (_ & _ & Hle).
    destruct (split_at (utf8_length a - 1) r) as [x y]. cbn [snd] in Hle.
    f_equal. apply IH; lia.
Qed.

Lemma join_characters_from f :
  forall s, (String.length s <= f)%nat -> join_characters (characters_from f s) = s.
Proof.
  induction f as [|f IH]; intros s Hlen.
  - destruct s; [reflexivity | cbn [String.length] in Hlen; lia].
  - destruct s as [|a r]; [reflexivity|].
    cbn [characters_from String.length] in *.
    destruct (split_at_spec (utf8_length a - 1) r) as (Happ & _ & Hle).
    destruct (split_at (utf8_length a - 1) r) as [x y]. cbn [fst snd] in *.
    cbn [join_characters]. rewrite IH by lia.
    change (String a (x ++ y) = String a r)%string. congruence.
Qed.

Lemma join_characters_of s : join_characters (characters s) = s.
Proof. apply join_characters_from. reflexivity. Qed.

(** The first characters of a text, put together, are a text with those
    characters. *)
Lemma characters_from_firstn f :
  forall s n, (String.length s <= f)%nat ->
  characters (join_characters (List.firstn n (characters_from f s))) =
  List.firstn n (characters_from f s).
Proof.
  induction f as [|f IH]; intros s n Hlen.
  - destruct n; reflexivity.
  - destruct s as [|a r]; [destruct n; reflexivity|].
    cbn [characters_from String.length] in *.
    destruct (split_at_spec (utf8_length a - 1) r) as (Happ & Hx & Hle).
    destruct (split_at (utf8_length a - 1) r) as [x y] eqn:Hsplit.
    cbn [fst snd] in *.
    destruct n as [|n]; [reflexivity|].
    cbn [List.firstn join_characters].
    assert (Hy : (String.length y <= f)%nat) by lia.
    specialize (IH y n Hy).
    set (J := join_characters (List.firstn n (characters_from f y))) in *.
    unfold characters.
    change (String a x ++ J)%string with (String a (x ++ J)%string).
    cbn [String.length characters_from].
    assert (Hcut : split_at (utf8_length a - 1) (x ++ J) = (x, J)).
    { destruct Hx as [Hx|Hx].
      - rewrite <- Hx. apply split_at_exact.
      - subst y. assert (HJ : J = "").
        { unfold J. destruct f; destruct n; reflexivity. }
        rewrite HJ, Happ. exact Hsplit. }
    rewrite Hcut. f_equal.
    rewrite <- IH. unfold characters. apply characters_from_fuel.
    + rewrite string_length_app. lia.
    + reflexivity.
Qed.

Lemma characters_take_string n s :
  characters (take_string n s) = List.firstn n (characters s).
Proof. unfold take_string, characters at 2 3. apply characters_from_firstn. reflexivity. Qed.

Lemma contains_join c cs :
  contains c (join_characters cs) = existsb (contains c) cs.
Proof.
  induction cs as [|x cs IH]; [reflexivity|].
  cbn [join_characters existsb]. rewrite contains_app, IH. reflexivity.
Qed.

Lemma existsb_firstn {A} (p : A -> bool) n l :
  existsb p l = false -> existsb p (List.firstn n l) = false.
Proof.
  revert l. induction n as [|n IH]; intros [|x l]; cbn; try reflexivity.
  intros H. apply orb_false_elim in H as [Hx Hl].
  rewrite Hx, (IH l Hl). reflexivity.
Qed.

Lemma take_string_contains c n s :
  contains c s = false -> contains c (take_string n s) = false.
Proof.
  intros H. unfold take_string. rewrite contains_join.
  apply existsb_firstn. rewrite <- contains_join, join_characters_of. exact H.
Qed.

Lemma replace_char_contains a b s :
  Ascii.eqb b a = false -> contains a (replace_char a b s) = false.
Proof.
  intros Hab. induction s as [|x s IH]; simpl; [reflexivity|].
  rewrite IH, orb_false_r.
  destruct (Ascii.eqb x a) eqn:Hx; [exact Hab | exact Hx].
Qed.

Lemma take_string_all n s :
  (List.length (characters s) <= n)%nat -> take_string n s = s.
Proof.
  intros H. unfold take_string. rewrite List.firstn_all2 by exact H.
  apply join_characters_of.
Qed.



(** X17.  The message of a failure as the report shows it: at most 300
    characters (code points, as Python counts them), none of them a line
    feed; a message of at most 300 characters with no white space at its
    ends and no line feed is shown as it is. *)
Theorem short_msg_is_short_and_flat (error_msg : string) :
  (List.length (characters (short_msg error_msg)) <= 300)%nat /\
  contains (ascii_of_nat 10) (short_msg error_msg) = false /\
  (strip error_msg = error_msg ->
   contains (ascii_of_nat 10) error_msg = false ->
   (List.length (characters error_msg) <= 300)%nat ->
   short_msg error_msg = error_msg).
Proof.
  unfold short_msg. split; [|split].
  - rewrite characters_take_string. apply List.firstn_le_length.
  - apply take_string_contains. apply replace_char_contains. reflexivity.
  - intros Hstrip Hnl Hlen. rewrite Hstrip.
    assert (Hsame : replace_char (ascii_of_nat 10) " " error_msg = error_msg).
    { clear Hstrip Hlen. induction error_msg as [|x s IH]; simpl; [reflexivity|].
      simpl in Hnl. apply orb_false_elim in Hnl as [Hx Hs].
      rewrite Hx, (IH Hs). reflexivity. }
    rewrite Hsame. apply take_string_all. exact Hlen.
Qed.

Lemma short_msg_is_short_and_flat_witness :
  short_msg "{'name': ['too long']}" = "{'name': ['too long']}".
Proof.
  exact (proj2 (proj2 (short_msg_is_short_and_flat "{'name': ['too long']}"))
           eq_refl eq_refl ltac:(vm_compute; lia)).
Defined.

(** A message of 301 characters of four bytes each, after a no-break space
    and before a line feed: the first 300 of them are shown. *)
Example short_msg_counts_characters :
  short_msg (" " ++ String.concat "" (List.repeat "🚨" 301) ++ NL)
  = String.concat "" (List.repeat "🚨" 300).
Proof. vm_compute. reflexivity. Qed.

(* ===================================================================== *)
(** * More about the importer *)
(* ===================================================================== *)

(** What a turn of the importer's loop leaves alone, however it ends. *)
Lemma write_annotation_frame E out k v w o u w' :
  Importer.write_annotation E out (k, v) tt w = (o, u, w') ->
  requests_of (w_trace w') = requests_of (w_trace w) /\
  w_HEADERS w' = w_HEADERS w /\
  w_dirs w ⊆ w_dirs w' /\
  (forall file, file <> realpath E (Importer.tool_annotation_yaml out k) ->
                w_files w' !! file = w_files w !! file).
Proof.
  destruct w as [t H fs ds].
  unfold Importer.write_annotation, makedirs, open_w, write. py.
  destruct (os_error E t _) as [e|]; py;
    [|destruct (os_error E _ _) as [e|]; py];
    intros Heq; injection Heq as <- <- <-; cbn [w_trace w_HEADERS w_files w_dirs];
    (split; [requests|]); (split; [reflexivity|]);
    (split; [set_solver|]); intros file Hfile;
    rewrite ?lookup_insert_ne by (intros Heq; apply Hfile; symmetry; exact Heq);
    reflexivity.
Qed.

Lemma import_loop_frame E out entries :
  forall w o u w',
  for_each entries (Importer.write_annotation E out) tt w = (o, u, w') ->
  requests_of (w_trace w') = requests_of (w_trace w) /\
  w_HEADERS w' = w_HEADERS w /\
  w_dirs w ⊆ w_dirs w' /\
  (forall file,
     (forall k, file <> realpath E (Importer.tool_annotation_yaml out k)) ->
     w_files w' !! file = w_files w !! file).
Proof.
  induction entries as [|[k v] entries IH]; intros w o u w' Hrun.
  - cbn in Hrun. injection Hrun as <- <- <-. repeat split; auto.
  - cbn [for_each] in Hrun. unfold bind at 1 in Hrun.
    destruct (Importer.write_annotation E out (k, v) tt w)
      as [[o1 u1] w1] eqn:Hturn.
    apply write_annotation_frame in Hturn as (Hq1 & Hh1 & Hd1 & Hf1).
    destruct o1 as [[]|e].
    + destruct u1. apply IH in Hrun as (Hq & Hh & Hd & Hf).
      split; [congruence|]. split; [congruence|].
      split; [etransitivity; eassumption|].
      intros file Hfile. rewrite (Hf file Hfile). apply Hf1. apply Hfile.
    + injection Hrun as <- <- <-. repeat split; auto.
Qed.

(** X18.  The importer, however it ends: it sends one request, the GET of
    the annotations, without headers of its own; it takes no directory
    away; and every file that is not the file that the path
    [<output_dir>/<key>/<key>.biocontainers.yaml] names, for some key,
    holds what it held before. *)
Theorem import_touches_only_annotation_files
  (E : environ) (url out : string) (w : world) :
  let w' := snd (Importer.import_biocontainers_annotations E url out tt w) in
  requests_of (w_trace w') =
    requests_of (w_trace w) ++ [mkRequest GET (RawURL url) None None] /\
  w_HEADERS w' = w_HEADERS w /\
  w_dirs w ⊆ w_dirs w' /\
  forall file,
    (forall key, file <> realpath E (Importer.tool_annotation_yaml out key)) ->
    w_files w' !! file = w_files w !! file.
Proof.
  cbv zeta. destruct w as [t H fs ds].
  unfold Importer.import_biocontainers_annotations, Importer.items. py.
  destruct (net E t _) as [r|e]; py.
  - destruct (yaml_safe_load E (text r)) as [v|e]; py.
    + destruct v as [| b | n | s | vs | entries]; py;
        try (cbn [snd w_trace w_HEADERS w_files w_dirs];
             repeat split; [requests | reflexivity]).
      match goal with
      | |- context [for_each entries ?b tt ?w1] =>
          destruct (for_each entries b tt w1) as [[o u] w'] eqn:Hloop
      end.
      apply import_loop_frame in Hloop as (Hq & Hh & Hd & Hf).
      destruct w' as [t' H' fs' ds'].
      cbn [snd w_trace w_HEADERS w_files w_dirs] in *.
      split; [|repeat split; assumption].
      rewrite Hq. requests.
    + cbn [snd w_trace w_HEADERS w_files w_dirs].
      repeat split; [requests | reflexivity].
  - cbn [snd w_trace w_HEADERS w_files w_dirs].
    repeat split; [requests | reflexivity].
Qed.

Lemma string_app_assoc (a b c : string) :
  ((a ++ b) ++ c = a ++ (b ++ c))%string.
Proof.
  induction a as [|x a IH]; [reflexivity|].
  change (String x ((a ++ b) ++ c) = String x (a ++ (b ++ c)))%string.
  f_equal. exact IH.
Qed.

Lemma eqb_length_neq (a b : string) :
  String.length a <> String.length b -> String.eqb a b = false.
Proof. intros H. apply String.eqb_neq. intros ->. apply H. reflexivity. Qed.

(** The last component of a path that ends with a name. *)
Lemma split_char_suffix c q ext :
  contains c ext = false ->
  exists init x, split_char c (q ++ ext) = init ++ [(x ++ ext)%string].
Proof.
  intros Hext. induction q as [|a q (init & x & IH)].
  - exists [], "". cbn [app]. change ("" ++ ext)%string with ext.
    clear - Hext. induction ext as [|a ext IH]; [reflexivity|].
    cbn [contains split_char] in *. apply orb_false_elim in Hext as [Ha He].
    rewrite Ha, (IH He). reflexivity.
  - change (String a q ++ ext)%string with (String a (q ++ ext)%string).
    cbn [split_char]. rewrite IH. destruct (Ascii.eqb a c).
    + exists ("" :: init), x. reflexivity.
    + destruct init as [|y init]; cbn [app].
      * exists [], (String a x). reflexivity.
      * exists (String a y :: init), x. reflexivity.
Qed.

Lemma join_with_last sep l y :
  exists S, join_with sep (l ++ [y]) = (S ++ y)%string.
Proof.
  induction l as [|x l (S & IH)].
  - exists "". reflexivity.
  - cbn [app]. destruct (l ++ [y]) as [|z r] eqn:Hl.
    + destruct l; discriminate Hl.
    + change (join_with sep (x :: z :: r))
        with (x ++ sep ++ join_with sep (z :: r))%string.
      rewrite IH. exists (x ++ sep ++ S)%string.
      rewrite !string_app_assoc. reflexivity.
Qed.

(** In the file system of the scenarios, the real path of a path that ends
    with a name of three characters or more ends with that name. *)
Lemma normpath_suffix q ext :
  contains "/" ext = false ->
  (3 <= String.length ext)%nat ->
  exists S, normpath (q ++ ext) = (S ++ ext)%string.
Proof.
  intros Hslash Hlen. unfold normpath.
  assert (Hne : forall S, String.eqb (S ++ ext) "" = false).
  { intros S. apply eqb_length_neq. rewrite string_length_app.
    cbn [String.length]. lia. }
  rewrite Hne.
  destruct (split_char_suffix "/" q ext Hslash) as (init & x & ->).
  rewrite fold_left_app. cbn [fold_left].
  set (st := fold_left _ init []).
  rewrite Hne.
  rewrite (eqb_length_neq (x ++ ext) ".")
    by (rewrite string_length_app; cbn [String.length]; lia).
  rewrite (eqb_length_neq (x ++ ext) "..")
    by (rewrite string_length_app; cbn [String.length]; lia).
  cbn [orb negb rev].
  destruct (join_with_last "/" (rev st) (x ++ ext)%string) as (S & ->).
  set (slashes := String.concat "" _).
  assert (Hall : (slashes ++ S ++ x ++ ext = (slashes ++ S ++ x) ++ ext)%string)
    by (rewrite !string_app_assoc; reflexivity).
  rewrite Hall, Hne. eexists. reflexivity.
Qed.

(** In the scenario of the specification README.md is no annotation file
    of any key, not even of one that climbs out of the output directory:
    its name does not end as theirs do. *)
Lemma import_touches_only_annotation_files_witness :
  w_files (snd (Importer.import_biocontainers_annotations annotation_source
                  "https://example.org/annotations.yaml" "out" tt world0))
    !! "README.md" = w_files world0 !! "README.md".
Proof.
  refine (proj2 (proj2 (proj2 (import_touches_only_annotation_files
                                 annotation_source
                                 "https://example.org/annotations.yaml" "out"
                                 world0))) "README.md" _).
  intros key Heq.
  destruct (normpath_suffix ("out" ++ "/" ++ key ++ "/" ++ key)
              ".biocontainers.yaml" eq_refl ltac:(cbn; lia)) as (S & HS).
  change (realpath annotation_source (Importer.tool_annotation_yaml "out" key))
    with (normpath (Importer.tool_annotation_yaml "out" key)) in Heq.
  unfold Importer.tool_annotation_yaml in Heq.
  rewrite <- !string_app_assoc in HS. rewrite <- !string_app_assoc in Heq.
  rewrite HS in Heq. apply (f_equal String.length) in Heq.
  rewrite string_length_app in Heq. cbn [String.length] in Heq. lia.
Defined.

(** X19.  What ends the importer before it writes anything: a request
    that raises, a body that is not YAML, and a body that is YAML but not a
    mapping (an empty body is read as [None]), which raises the
    [AttributeError] of [items]; an empty mapping lets it end normally.  In
    each case the request is all that happened. *)
Theorem failed_fetch_writes_nothing
  (E : environ) (url out : string) (w : world) :
  let q := mkRequest GET (RawURL url) None None in
  (forall e,
     net E (w_trace w) q = Raise e ->
     Importer.import_biocontainers_annotations E url out tt w =
       (Raise e, tt, add_events w [ERequest q])) /\
  (forall r e,
     net E (w_trace w) q = Ok r ->
     yaml_safe_load E (text r) = Raise e ->
     Importer.import_biocontainers_annotations E url out tt w =
       (Raise e, tt, add_events w [ERequest q])) /\
  (forall r v,
     net E (w_trace w) q = Ok r ->
     yaml_safe_load E (text r) = Ok v ->
     is_object v = false ->
     Importer.import_biocontainers_annotations E url out tt w =
       (Raise (Exception "AttributeError" "object has no attribute 'items'"), tt,
        add_events w [ERequest q])) /\
  (forall r,
     net E (w_trace w) q = Ok r ->
     yaml_safe_load E (text r) = Ok (JObj []) ->
     Importer.import_biocontainers_annotations E url out tt w =
       (Ok tt, tt, add_events w [ERequest q])).
Proof.
  destruct w as [t H fs ds]. cbn [w_trace].
  unfold Importer.import_biocontainers_annotations, Importer.items, add_events.
  repeat split.
  - intros e Hnet. py. rewrite Hnet. reflexivity.
  - intros r e Hnet Hyaml. py. rewrite Hnet. py. rewrite Hyaml. reflexivity.
  - intros r v Hnet Hyaml Hv. py. rewrite Hnet. py. rewrite Hyaml.
    destruct v; try discriminate Hv; reflexivity.
  - intros r Hnet Hyaml. py. rewrite Hnet. py. rewrite Hyaml. reflexivity.
Qed.

(** The registry's "not found" page given to the importer. *)
Lemma failed_fetch_writes_nothing_witness :
  Importer.import_biocontainers_annotations registry_empty
    "https://example.org/annotations.yaml" "out" tt world0 =
    (Raise (Exception "YAMLError" "not used"), tt,
     add_events world0
       [ERequest (mkRequest GET (RawURL "https://example.org/annotations.yaml")
                            None None)]).
Proof.
  exact (proj1 (proj2 (failed_fetch_writes_nothing registry_empty
                         "https://example.org/annotations.yaml" "out" world0))
           (mkResponse 404 "" None) (Exception "YAMLError" "not used")
           eq_refl eq_refl).
Defined.

Lemma upto_last_app c a b :
  contains c b = false ->
  upto_last c (a ++ String c b)%string = (a ++ String c "")%string.
Proof.
  intros Hb. induction a as [|x a IH]; simpl.
  - rewrite Hb, Ascii.eqb_refl. reflexivity.
  - rewrite contains_app. simpl. rewrite Ascii.eqb_refl, orb_true_r, IH.
    reflexivity.
Qed.

Lemma all_char_app c a b :
  all_char c (a ++ b)%string = all_char c a && all_char c b.
Proof.
  induction a as [|x a IH]; simpl; [reflexivity|].
  rewrite IH. apply andb_assoc.
Qed.

Lemma all_char_contains c d s :
  Ascii.eqb d c = false -> contains d s = true -> all_char c s = false.
Proof.
  intros Hdc. induction s as [|x s IH]; simpl; [discriminate|].
  destruct (Ascii.eqb x d) eqn:Hx.
  - apply Ascii.eqb_eq in Hx. subst x. rewrite Hdc. reflexivity.
  - simpl. intros Hs. rewrite (IH Hs). apply andb_false_r.
Qed.

Lemma not_contains_not_all c s :
  s <> "" -> contains c s = false -> all_char c s = false.
Proof.
  destruct s as [|x s]; [contradiction|]. simpl. intros _ H.
  apply orb_false_elim in H as [Hx _]. rewrite Hx. reflexivity.
Qed.

Lemma rstrip_char_app c a b :
  rstrip_char c b <> "" ->
  rstrip_char c (a ++ b)%string = (a ++ rstrip_char c b)%string.
Proof.
  intros Hb. induction a as [|x a IH]; simpl; [reflexivity|].
  rewrite IH. destruct (a ++ rstrip_char c b)%string eqn:Hab.
  - destruct a; simpl in Hab; [contradiction | discriminate].
  - rewrite <- Hab. reflexivity.
Qed.

Lemma rstrip_char_stem c k :
  k <> "" -> contains c k = false ->
  rstrip_char c (k ++ String c "")%string = k.
Proof.
  induction k as [|x k IH]; [contradiction|]. intros _ H. simpl in H.
  apply orb_false_elim in H as [Hx Hk].
  destruct k as [|y k].
  - simpl. rewrite Ascii.eqb_refl, Hx. reflexivity.
  - transitivity
      (match rstrip_char c (String y k ++ String c "")%string with
       | EmptyString => if Ascii.eqb x c then EmptyString else String x EmptyString
       | r' => String x r'
       end); [reflexivity|].
    rewrite IH by (discriminate || exact Hk). reflexivity.
Qed.

(** X20.  Where an annotation goes: for a key that is not empty and has
    no slash, the directory the importer makes for it is
    [<output_dir>/<key>] and the file in it is named
    [<key>.biocontainers.yaml]. *)
Theorem annotation_directory (out key : string) :
  key <> "" ->
  contains "/" key = false ->
  dirname (Importer.tool_annotation_yaml out key) = (out ++ "/" ++ key)%string /\
  basename (Importer.tool_annotation_yaml out key) =
    (key ++ ".biocontainers.yaml")%string.
Proof.
  intros Hne Hslash.
  assert (Hfile : contains "/" (key ++ ".biocontainers.yaml") = false).
  { rewrite contains_app, Hslash. reflexivity. }
  assert (Hpath : Importer.tool_annotation_yaml out key =
                  ((out ++ "/" ++ key) ++ String "/" (key ++ ".biocontainers.yaml"))%string).
  { unfold Importer.tool_annotation_yaml. rewrite !string_app_assoc. reflexivity. }
  split.
  - unfold dirname. rewrite Hpath, upto_last_app by exact Hfile.
    assert (Hhead : ((out ++ "/" ++ key) ++ String "/" "")%string =
                    ((out ++ "/") ++ (key ++ String "/" ""))%string).
    { rewrite !string_app_assoc. reflexivity. }
    rewrite Hhead.
    assert (Hall : all_char "/" ((out ++ "/") ++ key ++ String "/" "") = false).
    { rewrite !all_char_app, (not_contains_not_all "/" key Hne Hslash).
      rewrite andb_false_l. apply andb_false_r. }
    rewrite Hall.
    assert (Hnonempty : String.eqb ((out ++ "/") ++ key ++ String "/" "") "" = false).
    { apply String.eqb_neq. intros Heq. rewrite Heq in Hall. discriminate. }
    rewrite Hnonempty. cbn [negb andb].
    rewrite rstrip_char_app; rewrite rstrip_char_stem by assumption;
      [|exact Hne].
    rewrite string_app_assoc. reflexivity.
  - unfold basename. rewrite Hpath. apply after_last_app. exact Hfile.
Qed.

Lemma annotation_directory_witness :
  dirname (Importer.tool_annotation_yaml "content/data" "toolA") =
    "content/data/toolA" /\
  basename (Importer.tool_annotation_yaml "content/data" "toolA") =
    "toolA.biocontainers.yaml".
Proof.
  exact (annotation_directory "content/data" "toolA"
           ltac:(discriminate) eq_refl).
Defined.

(* ===================================================================== *)
(** * gh2biotools.py *)
(* ===================================================================== *)

Ltac py1 :=
  cbv beta iota zeta delta
      [try_except bind ret raise call logging emit of_outcome
       get_world get_frame send remap py_get
       py_get_default py_getitem response_json is_container raise_for_status
       w_trace w_HEADERS w_files w_dirs
       V1.append_ok V1.append_ko V1.append_unchanged V1.assign_payload_dict
       V1.assign_response V1.read_payload_dict V1.read_response
       V1.concat_tool_url
       V1.tools_ok V1.tools_ko V1.tools_unchanged V1.payload_dict V1.response
       is_HTTPError is_RequestException is_Exception negb].

Ltac crunch1 :=
  repeat (py1;
          match goal with
          | |- context [match ?x with _ => _ end] =>
              lazymatch x with
              | context [match _ with _ => _ end] => fail
              | _ => destruct x eqn:?
              end
          end).

(** The shape of a turn of the loop of gh2biotools.py. *)
Lemma V1_turn E token f l w o l' w' :
  V1.upload_file E token f l w = (o, l', w') ->
  exists t,
    w' = add_events w t /\
    Forall (sent_by_V1 (w_HEADERS w)) (requests_of t) /\
    (List.length (requests_of t) <= 2)%nat.
Proof.
  destruct l as [oks kos uns pd resp], w as [t H fs ds].
  unfold V1.upload_file.
  crunch1;
    (let Heq := fresh in
     intros Heq; inversion Heq; subst; clear Heq;
     eexists; split; [more_events|]; split; [all_sent | cbn; lia]).
Qed.

(** X21.  A turn of the upload loop of gh2biotools.py, however it ends,
    only adds events; it sends at most two requests, each with the headers
    of the module: the existence check, a PUT to the tool's URL, or a POST
    to the validation URL, the last two with a body without any 'term'
    key.  It never posts to the URL of the collection (a tool that is not
    registered is validated, and not created), and it never sends a
    DELETE. *)
Theorem V1_turn_never_creates_or_deletes
  (E : environ) (token f : string) (l : V1.locals) (w : world) :
  exists t,
    snd (V1.upload_file E token f l w) = add_events w t /\
    Forall (sent_by_V1 (w_HEADERS w)) (requests_of t) /\
    Forall (fun q => req_url q <> ToolCollectionURL /\ req_method q <> DELETE)
           (requests_of t) /\
    (List.length (requests_of t) <= 2)%nat.
Proof.
  destruct (V1.upload_file E token f l w) as [[o l'] w'] eqn:Hrun.
  apply V1_turn in Hrun as (t & -> & Hsent & Hlen).
  exists t. split; [reflexivity|]. split; [exact Hsent|]. split; [|exact Hlen].
  clear Hlen.
  induction Hsent as [|q qs Hq _ IH]; constructor; [|exact IH].
  destruct Hq; split; discriminate.
Qed.

(** X22.  gh2biotools.py: a record whose existence check is answered
    with a status that is neither 200 nor 404 is not counted at all: the
    turn ends normally and none of the three lists has changed. *)
Theorem V1_other_status_is_not_counted
  (E : environ) (token f : string) (m : list (string * json)) (s : string)
  (r : Response) (l : V1.locals) (w : world) :
  load_json E f = Ok (JObj m) ->
  assoc "biotoolsID" m = Some (JStr s) ->
  net E (lookup_history3 w f) (lookup w s) = Ok r ->
  status_code r <> 200 ->
  status_code r <> 404 ->
  exists l' w',
    V1.upload_file E token f l w = (Ok tt, l', w') /\
    V1.tools_ok l' = V1.tools_ok l /\
    V1.tools_ko l' = V1.tools_ko l /\
    V1.tools_unchanged l' = V1.tools_unchanged l /\
    requests_of (w_trace w') = requests_of (w_trace w) ++ [lookup w s].
Proof.
  intros Hload Hid Hnet H200 H404.
  apply get_id_string in Hid. apply Z.eqb_neq in H200, H404.
  destruct l as [oks kos uns pd resp], w as [t H fs ds].
  unfold lookup_history3, lookup in *. cbn [w_trace w_HEADERS] in *.
  unfold V1.upload_file. py1. rewrite Hload. py1.
  rewrite strip_term_obj. py1. rewrite Hid. py1.
  rewrite Hnet. py1. rewrite H200, H404. py1.
  do 2 eexists. split; [reflexivity|]. py1. repeat split. requests.
Qed.

Lemma V1_other_status_is_not_counted_witness :
  exists l' w',
    V1.upload_file registry_unauthorized "tok" "X.biotools.json"
      V1.new_locals world0 = (Ok tt, l', w') /\
    V1.tools_ok l' = [] /\
    V1.tools_ko l' = [] /\
    V1.tools_unchanged l' = [] /\
    requests_of (w_trace w') = [lookup world0 "X"].
Proof.
  exact (V1_other_status_is_not_counted registry_unauthorized
           "tok" "X.biotools.json" items_X "X"
           (mkResponse 401 "Invalid token." None) V1.new_locals world0
           eq_refl eq_refl eq_refl ltac:(discriminate) ltac:(discriminate)).
Defined.

(** X23.  gh2biotools.py: a record without a ['biotoolsID'] raises a
    [KeyError] that its handler raises once more, so that the exception
    leaves the turn, and with it the loop and [run_upload], whatever files
    come after it; nothing was sent and nothing is counted. *)
Theorem V1_record_without_id_ends_run
  (E : environ) (token f : string) (m : list (string * json))
  (l : V1.locals) (w : world) :
  load_json E f = Ok (JObj m) ->
  assoc "biotoolsID" m = None ->
  exists l' w',
    V1.upload_file E token f l w =
      (Raise (Exception "KeyError" "biotoolsID"), l', w') /\
    V1.tools_ok l' = V1.tools_ok l /\
    V1.tools_ko l' = V1.tools_ko l /\
    V1.tools_unchanged l' = V1.tools_unchanged l /\
    requests_of (w_trace w') = requests_of (w_trace w) /\
    forall rest, exists w'',
      V1.run_upload_body E token (f :: rest) l w =
        (Raise (Exception "KeyError" "biotoolsID"), l', w'') /\
      requests_of (w_trace w'') = requests_of (w_trace w).
Proof.
  intros Hload Hid.
  assert (Hid' : assoc "biotoolsID" (strip_items m) = None).
  { rewrite assoc_strip_items by reflexivity. rewrite Hid. reflexivity. }
  destruct l as [oks kos uns pd resp], w as [t H fs ds].
  assert (Hturn : forall H0,
    V1.upload_file E token f (V1.mkLocals oks kos uns pd resp)
      (mkWorld t H0 fs ds) =
    (Raise (Exception "KeyError" "biotoolsID"),
     V1.mkLocals oks kos uns (Some (JObj (strip_items m))) resp,
     mkWorld ((t ++ [ELog DEBUG (Fmt "uploading {}..." [JStr f])]) ++
              [ELog ERROR (Fmt "error while uploading {}" [JStr f])])
             H0 fs ds)).
  { intros H0. unfold V1.upload_file. py1. rewrite Hload. py1.
    rewrite strip_term_obj. py1. rewrite Hid'. py1. rewrite Hid'. reflexivity. }
  do 2 eexists. split; [apply Hturn|]. py1. repeat split; [requests|].
  intros rest.
  exists (mkWorld ((t ++ [ELog DEBUG (Fmt "uploading {}..." [JStr f])]) ++
                   [ELog ERROR (Fmt "error while uploading {}" [JStr f])])
                  (Some token) fs ds).
  unfold V1.run_upload_body, V1.update_HEADERS. cbn [for_each].
  unfold bind at 1. cbn [w_trace w_files w_dirs].
  unfold bind at 1. unfold bind at 1. rewrite Hturn.
  split; [reflexivity|]. py1. requests.
Qed.

Lemma V1_record_without_id_ends_run_witness :
  exists l' w',
    V1.upload_file registry_empty "tok" "noid.biotools.json" V1.new_locals world0 =
      (Raise (Exception "KeyError" "biotoolsID"), l', w') /\
    V1.tools_ok l' = [] /\
    V1.tools_ko l' = [] /\
    V1.tools_unchanged l' = [] /\
    requests_of (w_trace w') = [].
Proof.
  destruct (V1_record_without_id_ends_run registry_empty "tok"
              "noid.biotools.json" [("name", JStr "no id")] V1.new_locals world0
              eq_refl eq_refl)
    as (l' & w' & Hrun & Hok & Hko & Hun & Hq & _).
  exists l', w'. repeat split; assumption.
Defined.

(** X24.  gh2biotools.py, the update of a registered tool that has
    changed: one PUT with the module's headers.  When the status of the
    answer is not an error, the record is a success as soon as the status
    is read, and when the body of the answer is not JSON the same record is
    a failure as well, so that it is counted twice.  An error status makes
    the record a failure and nothing else, unless the status is 500 and
    the handler cannot join the page of the server fault into a message
    (an element inside an element of class exception_value): then the
    exception of the handler leaves the turn and nothing is recorded. *)
Theorem V1_update_is_counted_by_status_then_body
  (E : environ) (token f : string) (m : list (string * json)) (s : string)
  (r : Response) (e : json) (r2 : Response) (l : V1.locals) (w : world) :
  let put := mkRequest PUT (ToolURL (JStr s)) (w_HEADERS w) (Some (payload m)) in
  let history :=
    lookup_history3 w f ++
    [ERequest (lookup w s);
     ELog DEBUG (Fmt "Tool {} already registered but changed" [JStr s]);
     ELog DEBUG (Fmt (V1.HOST ++ "/api/tool/{}/") [JStr s])] in
  load_json E f = Ok (JObj m) ->
  assoc "biotoolsID" m = Some (JStr s) ->
  net E (lookup_history3 w f) (lookup w s) = Ok r ->
  status_code r = 200 ->
  json_body r = Some e ->
  is_container e = true ->
  py_eq (strip_term e) (payload m) = false ->
  net E history put = Ok r2 ->
  exists o l' w',
    V1.upload_file E token f l w = (o, l', w') /\
    requests_of (w_trace w') = requests_of (w_trace w) ++ [lookup w s; put] /\
    V1.tools_unchanged l' = V1.tools_unchanged l /\
    if ok r2 then
      o = Ok tt /\
      V1.tools_ok l' = V1.tools_ok l ++ [JStr s] /\
      V1.tools_ko l' =
        V1.tools_ko l ++
        match json_body r2 with Some _ => [] | None => [JStr s] end
    else
      V1.tools_ok l' = V1.tools_ok l /\
      match (if status_code r2 =? 500 then exception_values E (text r2)
             else Ok (text r2)) with
      | Ok _ => o = Ok tt /\ V1.tools_ko l' = V1.tools_ko l ++ [JStr s]
      | Raise x => o = Raise x /\ V1.tools_ko l' = V1.tools_ko l
      end.
Proof.
  intros put history Hload Hid Hnet H200 Hbody Hcont Hne Hput.
  subst put history. apply get_id_string in Hid.
  apply Z.eqb_eq in H200. unfold payload in *.
  destruct l as [oks kos uns pd resp], w as [t H fs ds].
  unfold lookup_history3, lookup in *. cbn [w_trace w_HEADERS] in *.
  rewrite strip_term_obj in *.
  unfold V1.upload_file. py1. rewrite Hload. py1.
  rewrite strip_term_obj. py1. rewrite Hid. py1.
  rewrite Hnet. py1. rewrite H200. py1. rewrite Hbody. py1.
  unfold is_container in Hcont. rewrite Hcont. py1. rewrite Hne. py1.
  rewrite <- !app_assoc in *. cbn [app] in *. rewrite Hput. py1.
  destruct (ok r2) eqn:Hok; py1.
  - destruct (json_body r2) as [v|]; py1; rewrite ?Hid; py1;
      (do 3 eexists; split; [reflexivity|]; py1; rewrite ?app_nil_r;
       repeat split; requests).
  - destruct (status_code r2 =? 500); py1;
      [destruct (exception_values E (text r2)) as [page|x]; py1|];
      rewrite ?Hid; py1;
      (do 3 eexists; split; [reflexivity|]; py1; rewrite ?app_nil_r;
       repeat split; requests).
Qed.

(** The registry accepts the update and answers with an empty body; and
    the registry answers the update with the page of a server fault that
    the handler cannot join. *)
Lemma V1_update_is_counted_by_status_then_body_witness :
  (exists l' w',
     V1.upload_file registry_other "tok" "X.biotools.json" V1.new_locals world0
       = (Ok tt, l', w') /\
     V1.tools_ok l' = [JStr "X"] /\
     V1.tools_ko l' = [JStr "X"]) /\
  (exists l' w',
     V1.upload_file registry_nested_error_page "tok" "X.biotools.json"
       V1.new_locals world0
       = (Raise (Exception "TypeError"
                   "sequence item 0: expected str instance, Tag found"),
          l', w') /\
     V1.tools_ok l' = [] /\
     V1.tools_ko l' = []).
Proof.
  split.
  - destruct (V1_update_is_counted_by_status_then_body registry_other
                "tok" "X.biotools.json" items_X "X"
                (mkResponse 200 "{...}" (Some remote_X_other)) remote_X_other
                (mkResponse 200 "" None) V1.new_locals world0
                eq_refl eq_refl eq_refl eq_refl eq_refl eq_refl eq_refl eq_refl)
      as (o & l' & w' & Hrun & _ & _ & Ho & Hok & Hko).
    subst o. exists l', w'. repeat split; assumption.
  - destruct (V1_update_is_counted_by_status_then_body registry_nested_error_page
                "tok" "X.biotools.json" items_X "X"
                (mkResponse 200 "{...}" (Some remote_X_other)) remote_X_other
                (mkResponse 500 "<pre class='exception_value'><b>boom</b></pre>"
                            None)
                V1.new_locals world0
                eq_refl eq_refl eq_refl eq_refl eq_refl eq_refl eq_refl eq_refl)
      as (o & l' & w' & Hrun & _ & _ & Hok & Ho & Hko).
    subst o. exists l', w'. repeat split; assumption.
Defined.

Lemma before_last_app c a b :
  contains c b = false -> before_last c (a ++ String c b)%string = a.
Proof.
  intros Hb. induction a as [|x a IH]; simpl.
  - rewrite Hb, Ascii.eqb_refl. reflexivity.
  - rewrite contains_app. simpl. rewrite Ascii.eqb_refl, orb_true_r, IH.
    reflexivity.
Qed.

(** X25.  [get_biotools_id_from_path] gives the file name without its
    last extension: for [<dir>/<stem>.<ext>], where [<stem>] has no slash
    and is not made of dots only and [<ext>] has neither a dot nor a slash,
    it is [<stem>]; the name of a [.biotools.json] file keeps its
    [.biotools]. *)
Theorem get_biotools_id_from_path_drops_last_extension (dir stem ext : string) :
  contains "/" stem = false ->
  all_char "." stem = false ->
  contains "." ext = false ->
  contains "/" ext = false ->
  V1.get_biotools_id_from_path (dir ++ "/" ++ stem ++ "." ++ ext) = stem.
Proof.
  intros Hslash Hdots Hdot Hext.
  unfold V1.get_biotools_id_from_path, basename.
  change (dir ++ "/" ++ stem ++ "." ++ ext)%string
    with (dir ++ String "/" (stem ++ String "." ext))%string.
  rewrite after_last_app
    by (rewrite contains_app; simpl; rewrite Hslash, Hext; reflexivity).
  unfold splitext_root.
  rewrite contains_app. simpl. rewrite orb_true_r.
  rewrite before_last_app by exact Hdot. rewrite Hdots. reflexivity.
Qed.

Lemma get_biotools_id_from_path_drops_last_extension_witness :
  V1.get_biotools_id_from_path "data/Y/Y.biotools.json" = "Y.biotools".
Proof.
  exact (get_biotools_id_from_path_drops_last_extension "data/Y" "Y.biotools"
           "json" eq_refl eq_refl eq_refl eq_refl).
Defined.

(* ===================================================================== *)
(** * The creation of a tool *)
(* ===================================================================== *)


